(** * Report bot: conversation flow, target validator, cooldown and fan-out

    A shallow embedding of [src/main.py] and [src/config.py]:
    the target validator ([ReportBot.validate_target]) with the three regular
    expressions it tries, the handlers of the report conversation, the
    cooldown table and the fan-out of a confirmed report. *)

From Stdlib Require Import ZArith NArith Bool Ascii String Lia.
From stdpp Require Import base option list gmap strings pretty.

Set Default Proof Using "Type".
Local Open Scope N_scope.

(** ** Python [str]: a sequence of Unicode code points *)

Abbreviation pystr := (list N).

(** The line feed. *)
Definition LF : N := 10.

(** A string literal of the source as code points: the file is UTF-8, and the
    escape [\n] of a Python literal is the line feed. *)
Definition cont (a : ascii) : N := N_of_ascii a - 128.

Fixpoint py (s : string) : pystr :=
  match s with
  | EmptyString => []
  | String a s1 =>
      let b := N_of_ascii a in
      if b =? 92 then
        match s1 with
        | String "n" s2 => LF :: py s2
        | _ => b :: py s1
        end
      else if b <? 128 then b :: py s1
      else if b <? 224 then
        match s1 with
        | String a1 s2 => ((b - 192) * 64 + cont a1) :: py s2
        | _ => b :: py s1
        end
      else if b <? 240 then
        match s1 with
        | String a1 (String a2 s3) =>
            ((b - 224) * 4096 + cont a1 * 64 + cont a2) :: py s3
        | _ => b :: py s1
        end
      else
        match s1 with
        | String a1 (String a2 (String a3 s4)) =>
            ((b - 240) * 262144 + cont a1 * 4096 + cont a2 * 64 + cont a3) :: py s4
        | _ => b :: py s1
        end
  end.

Arguments py : simpl never.

(** [str.isspace] on one code point: the table of CPython's
    [_PyUnicode_IsWhitespace]. *)
Definition isspace (c : N) : bool :=
  ((9 <=? c) && (c <=? 13)) || ((28 <=? c) && (c <=? 32))
  || (c =? 133) || (c =? 160) || (c =? 5760)
  || ((8192 <=? c) && (c <=? 8202))
  || (c =? 8232) || (c =? 8233) || (c =? 8239) || (c =? 8287) || (c =? 12288).

(** [str.lstrip()], [str.rstrip()] and [str.strip()] without argument. *)
Fixpoint lstrip (s : pystr) : pystr :=
  match s with
  | c :: s' => if isspace c then lstrip s' else s
  | [] => []
  end.

Definition rstrip (s : pystr) : pystr := rev (lstrip (rev s)).

Definition strip (s : pystr) : pystr := rstrip (lstrip s).

(** [s.startswith(p)], and [needle in hay] for two strings. *)
Fixpoint startswith (s p : pystr) {struct p} : bool :=
  match p with
  | [] => true
  | a :: p' =>
      match s with
      | b :: s' => (a =? b) && startswith s' p'
      | [] => false
      end
  end.

Fixpoint contains (hay needle : pystr) : bool :=
  startswith hay needle
  || match hay with
     | _ :: hay' => contains hay' needle
     | [] => false
     end.

(** [s.replace(old, '')] for a non-empty [old]: every occurrence, scanning
    from the left, is dropped. The fuel is the length of [s]. *)
Fixpoint remove_all_go (fuel : nat) (old s : pystr) : pystr :=
  match fuel with
  | O => s
  | S fuel' =>
      if startswith s old then remove_all_go fuel' old (drop (length old) s)
      else match s with
           | c :: s' => c :: remove_all_go fuel' old s'
           | [] => []
           end
  end.

Definition remove_all (old s : pystr) : pystr := remove_all_go (length s) old s.

Definition is_ascii (c : N) : bool := c <? 128.

Definition ascii_alnum (c : N) : bool :=
  ((48 <=? c) && (c <=? 57)) || ((65 <=? c) && (c <=? 90)) || ((97 <=? c) && (c <=? 122)).

Definition ascii_upper (c : N) : N :=
  if (97 <=? c) && (c <=? 122) then c - 32 else c.

Definition ascii_lower (c : N) : N :=
  if (65 <=? c) && (c <=? 90) then c + 32 else c.

(** What the interpreter's Unicode database decides outside ASCII: which code
    points [\w] takes as alphanumeric, and [str.capitalize] on a string that
    has a code point outside ASCII. No white space is alphanumeric. *)
Class Unicode := {
  uni_alnum : N → bool;
  uni_capitalize : pystr → pystr;
  uni_space_not_alnum : ∀ c, isspace c = true → uni_alnum c = false
}.

(** The database that knows no letter or digit outside ASCII. *)
Definition ascii_only : Unicode :=
  {| uni_alnum := λ _, false;
     uni_capitalize := λ s, s;
     uni_space_not_alnum := λ _ _, eq_refl |}.

Section Text.
Context {U : Unicode}.

(** [\w] of a [str] pattern: alphanumeric or the underscore. *)
Definition is_word (c : N) : bool :=
  (if is_ascii c then ascii_alnum c else uni_alnum c) || (c =? 95).

(** [str.capitalize()]: first character in upper case, the rest in lower case. *)
Definition capitalize (s : pystr) : pystr :=
  if forallb is_ascii s then
    match s with
    | c :: s' => ascii_upper c :: map ascii_lower s'
    | [] => []
    end
  else uni_capitalize s.

(** ** Regular expressions: the fragment of [re] the source uses *)

(** One-character classes: a literal, [\w], and a bracketed union. *)
Inductive cset :=
| CChr (c : N)
| CWord
| COr (a b : cset).

Fixpoint cset_mem (p : cset) (c : N) : bool :=
  match p with
  | CChr d => c =? d
  | CWord => is_word c
  | COr a b => cset_mem a c || cset_mem b c
  end.

(** The class [[\w\+]] of the second pattern, as a predicate. *)
Definition link_char (c : N) : bool := cset_mem (COr CWord (CChr 43)) c.

(** [Bol] is [^], [Eol] is [$], [Rep p lo hi] is [p{lo,hi}] with [hi = None]
    for no upper bound ([p+] is [Rep p 1 None], [p?] is [Rep p 0 (Some 1)]). *)
Inductive regex :=
| Eps
| Bol
| Eol
| Atom (p : cset)
| Rep (p : cset) (lo : nat) (hi : option nat)
| Seq (r1 r2 : regex)
| Alt (r1 r2 : regex).

Arguments Rep p lo%_nat hi.

Definition cat (rs : list regex) : regex := foldr Seq Eps rs.
Definition lit (s : string) : regex := cat (map (λ c, Atom (CChr c)) (py s)).
Definition opt (c : N) : regex := Rep (CChr c) 0 (Some 1%nat).
Definition plus (p : cset) : regex := Rep p 1 None.

(** [$] without [re.MULTILINE]: the end of the string, or just before a line
    feed that ends the string. *)
Definition at_eol (s : pystr) : bool :=
  match s with
  | [] => true
  | [c] => c =? LF
  | _ => false
  end.

Definition below (n : nat) (hi : option nat) : bool :=
  match hi with
  | Some h => (n <? h)%nat
  | None => true
  end.

(** [n] is within the upper bound of a repetition. *)
Definition le_opt (n : nat) (hi : option nat) : Prop :=
  match hi with
  | Some h => (n ≤ h)%nat
  | None => True
  end.

(** The greedy loop of a repetition: [n] characters of the class are taken;
    take one more, or go on with the rest of the pattern when [lo] is reached. *)
Fixpoint rep_loop (p : N → bool) (lo : nat) (hi : option nat)
    (k : bool → pystr → bool) (n : nat) (pos0 : bool) (s : pystr) : bool :=
  match s with
  | c :: s' => below n hi && p c && rep_loop p lo hi k (S n) false s'
  | [] => false
  end
  || (lo <=? n)%nat && k pos0 s.

(** The backtracking matcher, in continuation-passing style: [pos0] tells
    whether the position is the start of the string, [k] matches what follows. *)
Fixpoint rmatch (r : regex) (pos0 : bool) (s : pystr) (k : bool → pystr → bool) : bool :=
  match r with
  | Eps => k pos0 s
  | Bol => pos0 && k pos0 s
  | Eol => at_eol s && k pos0 s
  | Atom p =>
      match s with
      | c :: s' => cset_mem p c && k false s'
      | [] => false
      end
  | Rep p lo hi => rep_loop (cset_mem p) lo hi k 0 pos0 s
  | Seq r1 r2 => rmatch r1 pos0 s (λ b s', rmatch r2 b s' k)
  | Alt r1 r2 => rmatch r1 pos0 s k || rmatch r2 pos0 s k
  end.

(** [re.match(pattern, s)] as a truth value: the pattern matches a prefix of [s]. *)
Definition re_match (r : regex) (s : pystr) : bool := rmatch r true s (λ _ _, true).

(** ** [ReportBot.validate_target] *)

(** [r'^@\w{5,32}$'] *)
Definition pat_username : regex :=
  cat [Bol; lit "@"; Rep CWord 5 (Some 32%nat); Eol].

(** [r'^https?://t\.me/[\w\+]+/?$'] *)
Definition pat_link : regex :=
  cat [Bol; lit "http"; opt 115; lit "://t"; Atom (CChr 46); lit "me/";
       plus (COr CWord (CChr 43)); opt 47; Eol].

(** [r'^https?://t\.me/\+[\w]+$'] *)
Definition pat_invite : regex :=
  cat [Bol; lit "http"; opt 115; lit "://t"; Atom (CChr 46); lit "me/";
       Atom (CChr 43); plus CWord; Eol].

Definition patterns : list regex := [pat_username; pat_link; pat_invite].

Definition validate_target (target : pystr) : bool :=
  existsb (λ pattern, re_match pattern target) patterns.

(** The validator with the third pattern taken out of the list. *)
Definition validate_target_two (target : pystr) : bool :=
  existsb (λ pattern, re_match pattern target) [pat_username; pat_link].

End Text.

(** ** [config.py] *)

Definition MAX_REPORT_LENGTH : nat := 1000.
Definition REPORT_COOLDOWN : Z := 60.

(** What the deployment fixes: the two environment variables the flow reads,
    and the calendar of [datetime.strftime] (format, instant). *)
Class Deploy := {
  ADMIN_IDS : list Z;
  REPORT_CHANNEL_ID : option pystr;
  strftime : string → Z → pystr
}.

(** ** Time

    A [datetime] is a number of microseconds, a [timedelta] a difference of
    two. [timedelta.seconds] is the seconds field of the normalised
    (days, seconds, microseconds) triple. *)
Definition timedelta (seconds : Z) : Z := (seconds * 1000000)%Z.
Definition timedelta_seconds (d : Z) : Z := ((d `div` 1000000) `mod` 86400)%Z.

(** ** The bot and its surroundings *)

(** Conversation states, and what a handler returns. *)
Inductive cstate :=
| REPORT_TYPE
| REPORT_TARGET
| REPORT_REASON
| REPORT_DETAILS
| CONFIRMATION.

Inductive next :=
| Goto (st : cstate)
| END.

Global Instance cstate_eq_dec : EqDecision cstate.
Proof. solve_decision. Defined.

(** An inline keyboard: rows of (label, callback data). *)
Abbreviation keyboard := (list (list (pystr * pystr))).

Inductive chat :=
| Channel (name : pystr)
| Private (uid : Z).

(** What the bot does to the outside: an answer to a callback query, a reply
    to the message, an edit of the message under the buttons, a message to a
    chat with its outcome, a line of the error log. *)
Inductive action :=
| AnswerQuery
| ReplyText (text : pystr) (reply_markup : option keyboard)
| EditMessageText (text : pystr) (reply_markup : option keyboard)
| SendMessage (chat_id : chat) (text : pystr) (reply_markup : option keyboard) (delivered : bool)
| LogError (text : pystr).

Record user := User { uid : Z; full_name : pystr }.

(** An update as the transport classifies it. *)
Inductive payload :=
| Command (name : string)
| Text (text : pystr)
| Callback (data : pystr).

Record update := Update { effective_user : user; content : payload }.

(** The state the handlers see: the library's table of conversations (one
    chat per user, so the key is the user), the library's [user_data]
    dictionary of every user, the module's [user_cooldowns], the clock (last
    reading, and the time that passes before each of the next readings), the
    outcome of the next deliveries ([false]: the send raises) and what the bot
    has done so far. Replies and edits in the user's own chat go through;
    only the deliveries of the fan-out have outcomes. *)
Record world := World {
  conversations : gmap Z cstate;
  user_data : gmap Z (gmap string pystr);
  user_cooldowns : gmap Z Z;
  time : Z;
  ticks : list N;
  net : list bool;
  trace : list action
}.

Inductive exn :=
| KeyError (key : pystr)
| DeliveryError.

Inductive res (A : Type) :=
| Ok (a : A)
| Raise (e : exn).
Arguments Ok {A} a.
Arguments Raise {A} e.

(** A handler: it runs on a world, and returns or raises. *)
Definition M (A : Type) : Type := world → res A * world.

Global Instance M_ret : MRet M := λ A a w, (Ok a, w).
Global Instance M_bind : MBind M := λ A B f m w,
  match m w with
  | (Ok a, w') => f a w'
  | (Raise e, w') => (Raise e, w')
  end.

Definition raise {A} (e : exn) : M A := λ w, (Raise e, w).

(** [try: body except Exception as e: handler(e)] *)
Definition try_except (body : M ()) (handler : exn → M ()) : M () := λ w,
  match body w with
  | (Ok a, w') => (Ok a, w')
  | (Raise e, w') => handler e w'
  end.

(** [for x in xs: body(x)] *)
Fixpoint for_each {A} (xs : list A) (body : A → M ()) : M () :=
  match xs with
  | [] => mret ()
  | x :: xs' => body x;; for_each xs' body
  end.

(** The world after one more action of the bot. *)
Definition say (a : action) (w : world) : world :=
  World (conversations w) (user_data w) (user_cooldowns w)
        (time w) (ticks w) (net w) (trace w ++ [a]).

Definition emit (a : action) : M () := λ w, (Ok (), say a w).

Definition answer : M () := emit AnswerQuery.
Definition reply_text (text : pystr) (markup : option keyboard) : M () :=
  emit (ReplyText text markup).
Definition edit_message_text (text : pystr) (markup : option keyboard) : M () :=
  emit (EditMessageText text markup).
Definition logger_error (text : pystr) : M () := emit (LogError text).

(** [context.bot.send_message]: the next outcome decides; with none left the
    message is delivered. *)
Definition next_outcome (w : world) : bool := default true (head (net w)).

Definition deliver (chat_id : chat) (text : pystr) (markup : option keyboard)
    (w : world) : world :=
  World (conversations w) (user_data w) (user_cooldowns w)
        (time w) (ticks w) (tail (net w))
        (trace w ++ [SendMessage chat_id text markup (next_outcome w)]).

Definition send_message (chat_id : chat) (text : pystr) (markup : option keyboard) : M () := λ w,
  (if next_outcome w then Ok () else Raise DeliveryError, deliver chat_id text markup w).

(** [datetime.now()]: the clock moves on by the next tick. *)
Definition next_reading (w : world) : Z :=
  (time w + Z.of_N (default 0%N (head (ticks w))))%Z.

Definition advance (w : world) : world :=
  World (conversations w) (user_data w) (user_cooldowns w)
        (next_reading w) (tail (ticks w)) (net w) (trace w).

Definition datetime_now : M Z := λ w, (Ok (next_reading w), advance w).

(** [context.user_data] of a user, a dictionary that starts empty. *)
Definition data_of (u : Z) (w : world) : gmap string pystr :=
  default ∅ (user_data w !! u).

Definition with_data (u : Z) (d : gmap string pystr) (w : world) : world :=
  World (conversations w) (<[u := d]> (user_data w)) (user_cooldowns w)
        (time w) (ticks w) (net w) (trace w).

(** [context.user_data[key]] *)
Definition get_item (u : Z) (key : string) : M pystr := λ w,
  match data_of u w !! key with
  | Some v => (Ok v, w)
  | None => (Raise (KeyError (py key)), w)
  end.

(** [context.user_data[key] = v] *)
Definition set_item (u : Z) (key : string) (v : pystr) : M () := λ w,
  (Ok (), with_data u (<[key := v]> (data_of u w)) w).

(** [context.user_data.clear()] *)
Definition clear (u : Z) : M () := λ w, (Ok (), with_data u ∅ w).

(** [d[key]] on a dictionary of the module, written as its list of items. *)
Fixpoint dict_get (d : list (pystr * pystr)) (key : pystr) : option pystr :=
  match d with
  | [] => None
  | (k, v) :: d' => if bool_decide (k = key) then Some v else dict_get d' key
  end.

Arguments dict_get : simpl never.

Definition lookup_dict (d : list (pystr * pystr)) (key : pystr) : M pystr :=
  match dict_get d key with
  | Some v => mret v
  | None => raise (KeyError key)
  end.

Definition get_cooldown (u : Z) : M (option Z) := λ w, (Ok (user_cooldowns w !! u), w).

Definition with_cooldown (u : Z) (t : Z) (w : world) : world :=
  World (conversations w) (user_data w) (<[u := t]> (user_cooldowns w))
        (time w) (ticks w) (net w) (trace w).

Definition set_cooldown (u : Z) (t : Z) : M () := λ w, (Ok (), with_cooldown u t w).

(** ** The module's tables *)

Definition REPORT_TYPES : list (pystr * pystr) :=
  [ (py "user", py "👤 User");
    (py "group", py "👥 Group");
    (py "channel", py "📢 Channel") ].

Definition reasons : list (pystr * pystr) :=
  [ (py "spam", py "📧 Spam");
    (py "scam", py "💰 Scam/Fraud");
    (py "harassment", py "⚠️ Harassment");
    (py "illegal", py "🚫 Illegal Content");
    (py "impersonation", py "👤 Impersonation");
    (py "other", py "📌 Other") ].

Definition cancel_button : pystr * pystr := (py "❌ Cancel", py "cancel").

Definition str_Z (z : Z) : pystr := py (pretty z).
Definition str_nat (n : nat) : pystr := py (pretty n).

(** ** The texts the flow sends *)

Definition cooldown_text (remaining : Z) : pystr :=
  py "⏰ Please wait " ++ str_Z remaining
  ++ py " seconds before creating another report.".

Definition choose_type_text : pystr :=
  py "🔍 **What would you like to report?**\n\n"
  ++ py "Please select one of the options below:".

Definition cancelled_text : pystr := py "❌ Report cancelled.".

Definition invalid_format_text : pystr :=
  py "❌ Invalid format. Please provide a valid username or Telegram link.\n\n"
  ++ py "Examples:\n"
  ++ py "• @username\n"
  ++ py "• https://t.me/username\n"
  ++ py "• https://t.me/+abc123...".

Definition too_long_text : pystr :=
  py "❌ Details too long. Maximum " ++ str_nat MAX_REPORT_LENGTH
  ++ py " characters allowed.\n"
  ++ py "Please try again or use /skip to continue without details.".

Definition submitted_text : pystr :=
  py "✅ **Report submitted successfully!**\n\n"
  ++ py "Thank you for helping keep Telegram safe. Our team will review your report.\n"
  ++ py "You can use /report to submit another report.".

Definition selected_type_text (label report_type : pystr) : pystr :=
  py "📝 You selected: **" ++ label ++ py "**\n\n"
  ++ py "Please send the username or invite link of the " ++ report_type
  ++ py " you want to report.\n\n"
  ++ py "Examples:\n"
  ++ py "• Username: @username\n"
  ++ py "• Link: https://t.me/username\n"
  ++ py "• Group link: https://t.me/+abc123...".

Definition provide_details_text : pystr :=
  py "📝 **Please provide additional details:**\n\n"
  ++ py "Include any relevant information that might help us investigate this report.\n"
  ++ py "Maximum " ++ str_nat MAX_REPORT_LENGTH ++ py " characters.\n\n"
  ++ py "Send /skip to continue without additional details.".

Definition select_reason_text : pystr := py "⚠️ **Select a reason for your report:**".

(** The keyboard of the first prompt, with the labels looked up, and the
    keyboard [report_target] builds from [reasons]. *)
Definition type_keyboard : keyboard :=
  [ [(py "👤 User", py "type_user")];
    [(py "👥 Group", py "type_group")];
    [(py "📢 Channel", py "type_channel")];
    [cancel_button] ].

Definition reason_keyboard : keyboard :=
  map (λ kr : pystr * pystr, [(kr.2, py "reason_" ++ kr.1)]) reasons
  ++ [[cancel_button]].

Definition operation_cancelled_text : pystr :=
  py "❌ Operation cancelled. Use /report to start a new report.".

Section Handlers.
Context {U : Unicode} {D : Deploy}.

(** [ReportBot.report_command] *)
Definition report_command (user : user) : M next :=
  let user_id := uid user in
  let choose_type : M next :=
    user_label ← lookup_dict REPORT_TYPES (py "user");
    group_label ← lookup_dict REPORT_TYPES (py "group");
    channel_label ← lookup_dict REPORT_TYPES (py "channel");
    let keyboard :=
      [ [(user_label, py "type_user")];
        [(group_label, py "type_group")];
        [(channel_label, py "type_channel")];
        [cancel_button] ] in
    reply_text choose_type_text (Some keyboard);;
    mret (Goto REPORT_TYPE) in
  cooldown ← get_cooldown user_id;
  match cooldown with
  | Some cooldown_end =>
      now ← datetime_now;
      if (now <? cooldown_end)%Z then
        now' ← datetime_now;
        let remaining := timedelta_seconds (cooldown_end - now') in
        reply_text (cooldown_text remaining) None;;
        mret END
      else choose_type
  | None => choose_type
  end.

(** [ReportBot.report_type_callback] *)
Definition report_type_callback (user : user) (data : pystr) : M next :=
  answer;;
  if bool_decide (data = py "cancel") then
    edit_message_text cancelled_text None;;
    mret END
  else
    let report_type := remove_all (py "type_") data in
    set_item (uid user) "report_type" report_type;;
    label ← lookup_dict REPORT_TYPES report_type;
    edit_message_text (selected_type_text label report_type) None;;
    mret (Goto REPORT_TARGET).

(** [ReportBot.report_target] *)
Definition report_target (user : user) (text : pystr) : M next :=
  let target := strip text in
  if negb (validate_target target) then
    reply_text invalid_format_text None;;
    mret (Goto REPORT_TARGET)
  else
    set_item (uid user) "report_target" target;;
    let keyboard := reason_keyboard in
    reply_text select_reason_text (Some keyboard);;
    mret (Goto REPORT_REASON).

(** [ReportBot.report_reason_callback] *)
Definition report_reason_callback (user : user) (data : pystr) : M next :=
  answer;;
  if bool_decide (data = py "cancel") then
    edit_message_text cancelled_text None;;
    mret END
  else
    let reason := remove_all (py "reason_") data in
    set_item (uid user) "report_reason" reason;;
    edit_message_text provide_details_text None;;
    mret (Goto REPORT_DETAILS).

(** The text of the summary, from the four stored values; the type is shown
    by its label. *)
Definition summary_text (label target reason details : pystr) : pystr :=
  py "📋 **Please confirm your report:**\n\n"
  ++ py "**Type:** " ++ label ++ py "\n"
  ++ py "**Target:** " ++ target ++ py "\n"
  ++ py "**Reason:** " ++ capitalize reason ++ py "\n"
  ++ py "**Details:** " ++ take 200 details.

Definition confirm_keyboard : keyboard :=
  [ [(py "✅ Confirm", py "confirm"); cancel_button] ].

(** [ReportBot.confirm_report]; [by_message] tells whether the update carries
    a message (it does when the details or [/skip] were sent). *)
Definition confirm_report (user : user) (by_message : bool) : M next :=
  report_type ← get_item (uid user) "report_type";
  label ← lookup_dict REPORT_TYPES report_type;
  target ← get_item (uid user) "report_target";
  reason ← get_item (uid user) "report_reason";
  details ← get_item (uid user) "report_details";
  let summary := summary_text label target reason details in
  (if by_message then reply_text summary (Some confirm_keyboard)
   else edit_message_text summary (Some confirm_keyboard));;
  mret (Goto CONFIRMATION).

(** [ReportBot.report_details] *)
Definition report_details (user : user) (text : pystr) : M next :=
  let details := strip text in
  if (MAX_REPORT_LENGTH <? length details)%nat then
    reply_text too_long_text None;;
    mret (Goto REPORT_DETAILS)
  else
    set_item (uid user) "report_details" details;;
    confirm_report user true.

(** [ReportBot.skip_details] *)
Definition skip_details (user : user) : M next :=
  set_item (uid user) "report_details" (py "No additional details provided.");;
  confirm_report user true.

(** The text [save_report] sends, from two readings of the clock and the
    stored values. *)
Definition report_text (t_id t_date : Z) (user : user)
    (label target reason details : pystr) : pystr :=
  py "🚨 **NEW REPORT**\n\n"
  ++ py "**Report ID:** #" ++ strftime "%Y%m%d%H%M%S" t_id ++ py "\n"
  ++ py "**Date:** " ++ strftime "%Y-%m-%d %H:%M:%S" t_date ++ py "\n"
  ++ py "**Reporter:** " ++ full_name user ++ py " (ID: `" ++ str_Z (uid user) ++ py "`)\n"
  ++ py "**Type:** " ++ label ++ py "\n"
  ++ py "**Target:** " ++ target ++ py "\n"
  ++ py "**Reason:** " ++ capitalize reason ++ py "\n"
  ++ py "**Details:** " ++ details ++ py "\n".

Definition admin_keyboard (user : user) : keyboard :=
  [ [(py "✅ Resolve", py "resolve_" ++ str_Z (uid user));
     (py "❌ Reject", py "reject_" ++ str_Z (uid user))] ].

(** A channel is configured when the variable is set and not empty. *)
Definition channel_configured : option pystr :=
  match REPORT_CHANNEL_ID with
  | Some (c :: name) => Some (c :: name)
  | _ => None
  end.

(** The two guarded deliveries of [save_report]; the text of a caught
    exception, which the transport words, is left out of the log line. *)
Definition notify_channel (text : pystr) (channel : pystr) : M () :=
  try_except
    (send_message (Channel channel) text None)
    (λ e, logger_error (py "Failed to send report to channel: ")).

Definition notify_admin (user : user) (text : pystr) (admin_id : Z) : M () :=
  try_except
    (send_message (Private admin_id) text (Some (admin_keyboard user)))
    (λ e, logger_error (py "Failed to send report to admin " ++ str_Z admin_id ++ py ": ")).

(** [ReportBot.save_report] *)
Definition save_report (user : user) : M () :=
  t_id ← datetime_now;
  t_date ← datetime_now;
  report_type ← get_item (uid user) "report_type";
  label ← lookup_dict REPORT_TYPES report_type;
  target ← get_item (uid user) "report_target";
  reason ← get_item (uid user) "report_reason";
  details ← get_item (uid user) "report_details";
  let text := report_text t_id t_date user label target reason details in
  match channel_configured with
  | Some channel => notify_channel text channel
  | None => mret ()
  end;;
  for_each ADMIN_IDS (notify_admin user text).

(** [ReportBot.confirmation_callback] *)
Definition confirmation_callback (user : user) (data : pystr) : M next :=
  answer;;
  if bool_decide (data = py "cancel") then
    edit_message_text cancelled_text None;;
    mret END
  else
    save_report user;;
    let user_id := uid user in
    now ← datetime_now;
    set_cooldown user_id (now + timedelta REPORT_COOLDOWN);;
    edit_message_text submitted_text None;;
    clear user_id;;
    mret END.

(** [ReportBot.cancel] *)
Definition cancel (user : user) : M next :=
  reply_text operation_cancelled_text None;;
  mret END.

(** ** The conversation handler of [ReportBot.setup] *)

(** [pattern='^(type_|cancel)'], ['^(reason_|cancel)'], ['^(confirm|cancel)$'] *)
Definition pat_type : regex := cat [Bol; Alt (lit "type_") (lit "cancel")].
Definition pat_reason : regex := cat [Bol; Alt (lit "reason_") (lit "cancel")].
Definition pat_confirm : regex := cat [Bol; Alt (lit "confirm") (lit "cancel"); Eol].

Definition entry_points (u : update) : option (M next) :=
  match content u with
  | Command name =>
      if bool_decide (name = "report") then Some (report_command (effective_user u)) else None
  | _ => None
  end.

Definition states (st : cstate) (u : update) : option (M next) :=
  let user := effective_user u in
  match st, content u with
  | REPORT_TYPE, Callback data =>
      if re_match pat_type data then Some (report_type_callback user data) else None
  | REPORT_TARGET, Text text => Some (report_target user text)
  | REPORT_REASON, Callback data =>
      if re_match pat_reason data then Some (report_reason_callback user data) else None
  | REPORT_DETAILS, Text text => Some (report_details user text)
  | REPORT_DETAILS, Command name =>
      if bool_decide (name = "skip") then Some (skip_details user) else None
  | CONFIRMATION, Callback data =>
      if re_match pat_confirm data then Some (confirmation_callback user data) else None
  | _, _ => None
  end.

Definition fallbacks (u : update) : option (M next) :=
  match content u with
  | Command name =>
      if bool_decide (name = "cancel") then Some (cancel (effective_user u)) else None
  | _ => None
  end.

(** The handler the conversation picks: an entry point when the user has no
    conversation, else a handler of the current state, else a fallback. *)
Definition pick (st : option cstate) (u : update) : option (M next) :=
  match st with
  | None => entry_points u
  | Some st =>
      match states st u with
      | Some h => Some h
      | None => fallbacks u
      end
  end.

Definition set_state (user_id : Z) (st : option cstate) (w : world) : world :=
  World (match st with
         | Some s => <[user_id := s]> (conversations w)
         | None => delete user_id (conversations w)
         end)
        (user_data w) (user_cooldowns w) (time w) (ticks w) (net w) (trace w).

(** One update through the conversation handler: the returned state is
    recorded, [END] removes the conversation, and a handler that raises
    leaves the conversation where it was. *)
Definition handle_update (u : update) (w : world) : world :=
  let user_id := uid (effective_user u) in
  match pick (conversations w !! user_id) u with
  | None => w
  | Some h =>
      match h w with
      | (Ok (Goto st), w') => set_state user_id (Some st) w'
      | (Ok END, w') => set_state user_id None w'
      | (Raise _, w') => w'
      end
  end.

End Handlers.

(** ** Reading a world *)

(** The deliveries in a trace, each with its outcome. *)
Definition sends (tr : list action) : list (chat * bool) :=
  omap (λ a, match a with
             | SendMessage chat_id _ _ delivered => Some (chat_id, delivered)
             | _ => None
             end) tr.

(** The texts sent in the deliveries of a trace. *)
Definition sent_texts (tr : list action) : list pystr :=
  omap (λ a, match a with
             | SendMessage _ text _ _ => Some text
             | _ => None
             end) tr.

(** Whom a confirmed report goes to: the channel when there is one, then
    every administrator. *)
Definition recipients {D : Deploy} : list chat :=
  match channel_configured with
  | Some channel => [Channel channel]
  | None => []
  end ++ map Private ADMIN_IDS.

(** The outcome the [i]-th delivery from now on will have. *)
Definition outcome (w : world) (i : nat) : bool := default true (net w !! i).

(** A world where nothing has happened yet, and a deployment with a channel
    and two administrators, to run the flow on. *)
Definition fresh : world := World ∅ ∅ ∅ 0 [] [] [].

Definition demo : Deploy :=
  {| ADMIN_IDS := [11; 12]%Z;
     REPORT_CHANNEL_ID := Some (py "@reports");
     strftime := λ _ t, str_Z t |}.

Definition alice : user := User 7 (py "Alice").

(** The updates of the happy path, up to the summary. *)
Definition happy_path : list update :=
  [ Update alice (Command "report");
    Update alice (Callback (py "type_group"));
    Update alice (Text (py "https://t.me/examplegroup"));
    Update alice (Callback (py "reason_spam"));
    Update alice (Text (py "test")) ].

Definition run {U : Unicode} {D : Deploy} (us : list update) (w : world) : world :=
  foldl (λ w u, handle_update u w) w us.

(** The inputs that cancel: the [/cancel] command in any state, and the
    cancel button where a keyboard shows it. *)
Definition is_cancel (st : cstate) (c : payload) : bool :=
  match c with
  | Command name => bool_decide (name = "cancel")
  | Callback data =>
      bool_decide (data = py "cancel")
      && match st with
         | REPORT_TYPE | REPORT_REASON | CONFIRMATION => true
         | _ => false
         end
  | Text _ => false
  end.

(** A world with the deliveries' outcomes set. *)
Definition with_net (outcomes : list bool) (w : world) : world :=
  World (conversations w) (user_data w) (user_cooldowns w)
        (time w) (ticks w) outcomes (trace w).

(** The happy path without its last message. *)
Definition before_details : list update := take 4 happy_path.

(** ** The draft, step by step *)

(** The stored type is one of the keys of [REPORT_TYPES]. *)
Definition typed (d : gmap string pystr) : Prop :=
  ∃ ty label, d !! "report_type" = Some ty ∧ dict_get REPORT_TYPES ty = Some label.

(** What a user's data holds when the conversation is in a given state: the
    fields of the steps already taken. *)
Definition draft_ok (st : cstate) (d : gmap string pystr) : Prop :=
  match st with
  | REPORT_TYPE => True
  | REPORT_TARGET => typed d
  | REPORT_REASON => typed d ∧ is_Some (d !! "report_target")
  | REPORT_DETAILS =>
      typed d ∧ is_Some (d !! "report_target") ∧ is_Some (d !! "report_reason")
  | CONFIRMATION =>
      typed d ∧ is_Some (d !! "report_target") ∧ is_Some (d !! "report_reason")
      ∧ is_Some (d !! "report_details")
  end.

Definition drafts_in_step (w : world) : Prop :=
  ∀ u st, conversations w !! u = Some st → draft_ok st (data_of u w).

(** The worlds the bot can be in: it starts with no conversation (any clock,
    any outcomes of the deliveries to come, any data left behind), and
    handles one update after another. *)
Inductive reachable {U : Unicode} {D : Deploy} : world → Prop :=
| reach_start w : conversations w = ∅ → reachable w
| reach_step w u : reachable w → reachable (handle_update u w).

(** A handler run for user [u] leaves the table of conversations and the data
    of the other users alone. *)
Definition local (u : Z) {A} (m : M A) : Prop :=
  ∀ w, conversations (m w).2 = conversations w
       ∧ ∀ v, v ≠ u → user_data (m w).2 !! v = user_data w !! v.

(** A handler run in state [st] keeps the draft in step with the state it
    returns, or with [st] when it raises. *)
Definition in_step (st : option cstate) (d : gmap string pystr) : Prop :=
  match st with
  | Some s => draft_ok s d
  | None => True
  end.

(** What a handler returns, when it returns, satisfies [P]. *)
Definition returns {A} (m : M A) (P : A → Prop) : Prop :=
  ∀ w, match (m w).1 with
       | Ok a => P a
       | Raise _ => True
       end.

Definition keeps_step (u : Z) (st : option cstate) (m : M next) : Prop :=
  ∀ w, in_step st (data_of u w) →
       match (m w).1 with
       | Ok (Goto st') => draft_ok st' (data_of u (m w).2)
       | Ok END => True
       | Raise _ => in_step st (data_of u (m w).2)
       end.

(** ** The handlers outside the conversation *)

Definition welcome_text (first_name : pystr) : pystr :=
  py "👋 Hello " ++ first_name ++ py "!\n\n"
  ++ py "Welcome to the Telegram Report Bot. This bot helps you report:\n"
  ++ py "• Suspicious users\n"
  ++ py "• Problematic groups\n"
  ++ py "• Violating channels\n\n"
  ++ py "Please use /report to start a new report.\n"
  ++ py "Use /help to see all available commands.".

Definition help_text : pystr :=
  py "📚 **Available Commands:**\n\n"
  ++ py "/start - Start the bot\n"
  ++ py "/help - Show this help message\n"
  ++ py "/report - Report a user, group, or channel\n"
  ++ py "/myreports - View your recent reports\n"
  ++ py "/cancel - Cancel current operation\n\n"
  ++ py "**How to Report:**\n"
  ++ py "1. Use /report command\n"
  ++ py "2. Select what you want to report\n"
  ++ py "3. Provide the username or link\n"
  ++ py "4. Choose a reason\n"
  ++ py "5. Add additional details\n"
  ++ py "6. Confirm your report\n\n"
  ++ py "All reports are reviewed by our team.".

Definition my_reports_text : pystr :=
  py "📊 Your recent reports feature will be available soon.\n"
  ++ py "This would show your last 5 reports and their status.".

Definition resolved_note : pystr := py "\n\n✅ **Report resolved by admin**".
Definition rejected_note : pystr := py "\n\n❌ **Report rejected by admin**".

(** [ReportBot.start], [ReportBot.help_command], [ReportBot.my_reports] *)
Definition start (first_name : pystr) : M () := reply_text (welcome_text first_name) None.
Definition help_command : M () := reply_text help_text None.
Definition my_reports : M () := reply_text my_reports_text None.

(** [ReportBot.admin_callback]; [message_text] is the text of the message
    under the pressed button. *)
Definition admin_callback (message_text data : pystr) : M () :=
  answer;;
  if startswith data (py "resolve") then
    edit_message_text (message_text ++ resolved_note) None
  else if startswith data (py "reject") then
    edit_message_text (message_text ++ rejected_note) None
  else mret ().

(** What an update carries besides what the conversation reads: the first
    name of the sender and, for a button, the text of its message. *)
Record incoming := Incoming {
  upd : update;
  first_name : pystr;
  message_text : pystr
}.

Section Application.
Context {U : Unicode} {D : Deploy}.

(** [pattern='^(resolve|reject)'] *)
Definition pat_admin : regex := cat [Bol; Alt (lit "resolve") (lit "reject")].

Definition is_command (name : string) (u : update) : bool :=
  match content u with
  | Command name' => bool_decide (name' = name)
  | _ => false
  end.

(** The handlers of [ReportBot.setup], in the order they are added: the first
    one that accepts the update handles it, and the others do not see it. *)
Definition process_update (i : incoming) (w : world) : world :=
  let u := upd i in
  if is_command "start" u then (start (first_name i) w).2
  else if is_command "help" u then (help_command w).2
  else if is_command "myreports" u then (my_reports w).2
  else
    match pick (conversations w !! uid (effective_user u)) u with
    | Some _ => handle_update u w
    | None =>
        match content u with
        | Callback data =>
            if re_match pat_admin data then (admin_callback (message_text i) data w).2
            else w
        | _ => w
        end
    end.

End Application.

(** ** [config.py]: the administrators *)

(** [s.split(',')], for any separator character. *)
Fixpoint split_on (c : N) (s : pystr) : list pystr :=
  match s with
  | [] => [[]]
  | x :: s' =>
      if x =? c then [] :: split_on c s'
      else match split_on c s' with
           | seg :: segs => (x :: seg) :: segs
           | [] => [[x]]
           end
  end.

(** [','.join(segs)] *)
Fixpoint join_on (c : N) (segs : list pystr) : pystr :=
  match segs with
  | [] => []
  | [seg] => seg
  | seg :: segs' => seg ++ c :: join_on c segs'
  end.

Definition is_digit (c : N) : bool := (48 <=? c) && (c <=? 57).

Definition digits_value (ds : pystr) : Z :=
  foldl (λ acc c, acc * 10 + (Z.of_N c - 48))%Z 0%Z ds.

(** [int(s)] on a plain decimal numeral: an optional sign and one or more
    ASCII digits. *)
Definition plain_digits (ds : pystr) : option Z :=
  match ds with
  | [] => None
  | _ => if forallb is_digit ds then Some (digits_value ds) else None
  end.

Definition plain_int (s : pystr) : option Z :=
  match s with
  | 45 :: ds => Z.opp <$> plain_digits ds
  | 43 :: ds => plain_digits ds
  | _ => plain_digits s
  end.

(** What [int] does with any other string (white space around the numeral,
    underscores, digits outside ASCII), [None] for a [ValueError]. *)
Class IntOther := int_other : pystr → option Z.

Definition py_int {I : IntOther} (s : pystr) : option Z :=
  match plain_int s with
  | Some z => Some z
  | None => int_other s
  end.

(** [[int(id) for id in os.getenv('ADMIN_IDS', '').split(',') if id]]:
    [None] when one of the conversions raises. *)
Definition load_admin_ids {I : IntOther} (env : option pystr) : option (list Z) :=
  mapM py_int (filter (λ id, id ≠ []) (split_on 44 (default [] env))).

(** The interpreter that takes nothing but plain numerals. *)
Definition plain_only : IntOther := λ _, None.

(** ** The forms of a target, without the pattern language *)

Section Forms.
Context {U : Unicode}.

Definition username_form (t : pystr) : Prop :=
  ∃ u, t = py "@" ++ u ∧ (5 ≤ length u ≤ 32)%nat ∧ forallb is_word u = true.

Definition link_form (t : pystr) : Prop :=
  ∃ sch body sl,
    t = py "http" ++ sch ++ py "://t.me/" ++ body ++ sl
    ∧ (sch = [] ∨ sch = py "s") ∧ body ≠ [] ∧ forallb link_char body = true
    ∧ (sl = [] ∨ sl = py "/").

Definition target_form (t : pystr) : Prop := username_form t ∨ link_form t.

(** A draft whose stored values have passed the checks of their steps. *)
Definition target_checked (d : gmap string pystr) : Prop :=
  ∃ t, d !! "report_target" = Some t ∧ target_form t.

Definition details_checked (d : gmap string pystr) : Prop :=
  ∃ x, d !! "report_details" = Some x ∧ (length x ≤ MAX_REPORT_LENGTH)%nat.

Definition draft_checked (st : cstate) (d : gmap string pystr) : Prop :=
  match st with
  | REPORT_TYPE => True
  | REPORT_TARGET => typed d
  | REPORT_REASON => typed d ∧ target_checked d
  | REPORT_DETAILS => typed d ∧ target_checked d ∧ is_Some (d !! "report_reason")
  | CONFIRMATION =>
      typed d ∧ target_checked d ∧ is_Some (d !! "report_reason") ∧ details_checked d
  end.

End Forms.

(** The state after the one a conversation is in ([None]: no conversation). *)
Definition after (st : option cstate) : option cstate :=
  match st with
  | None => Some REPORT_TYPE
  | Some REPORT_TYPE => Some REPORT_TARGET
  | Some REPORT_TARGET => Some REPORT_REASON
  | Some REPORT_REASON => Some REPORT_DETAILS
  | Some REPORT_DETAILS => Some CONFIRMATION
  | Some CONFIRMATION => None
  end.

(** The lines of the error log in a trace. *)
Definition logs (tr : list action) : list pystr :=
  omap (λ a, match a with
             | LogError text => Some text
             | _ => None
             end) tr.

(** The line [save_report] logs when a delivery to a chat fails. *)
Definition log_line (chat_id : chat) : pystr :=
  match chat_id with
  | Channel _ => py "Failed to send report to channel: "
  | Private admin_id => py "Failed to send report to admin " ++ str_Z admin_id ++ py ": "
  end.

(** A handler that keeps a relation between the world it starts in and the
    world it ends in. *)
Definition preserves (R : relation world) {A} (m : M A) : Prop := ∀ w, R w (m w).2.

(** Nothing delivered and the cooldowns as they were. *)
Definition quietly (w w' : world) : Prop :=
  sends (trace w') = sends (trace w) ∧ user_cooldowns w' = user_cooldowns w.

(** The cooldowns of everyone but [u] as they were. *)
Definition cooldowns_but (u : Z) (w w' : world) : Prop :=
  ∀ v, v ≠ u → user_cooldowns w' !! v = user_cooldowns w !! v.

(** A handler run in state [st] keeps a family of properties of the draft in
    step with the state it returns, or with [st] when it raises. *)
Definition keeps (P : cstate → gmap string pystr → Prop)
    (u : Z) (st : option cstate) (m : M next) : Prop :=
  ∀ w, (match st with Some s => P s (data_of u w) | None => True end) →
       match (m w).1 with
       | Ok (Goto st') => P st' (data_of u (m w).2)
       | Ok END => True
       | Raise _ => match st with Some s => P s (data_of u (m w).2) | None => True end
       end.

(** Where a handler run in state [st] may send the conversation: it ends
    it, stays, or goes one step further. *)
Definition allowed (st : option cstate) (n : next) : Prop :=
  match n with
  | END => True
  | Goto s => Some s = st ∨ Some s = after st
  end.

(** The answer to a message the step does not accept. *)
Definition rejection (st : cstate) : pystr :=
  match st with
  | REPORT_DETAILS => too_long_text
  | _ => invalid_format_text
  end.

(** The line of the error log a delivery calls for: none when it went
    through. *)
Definition failed_line (s : chat * bool) : option pystr :=
  if s.2 then None else Some (log_line s.1).

(** What was done from [w] to [w'] logs one line for each failed delivery,
    in order, and nothing else. *)
Definition logged (w w' : world) : Prop :=
  ∃ tr, trace w' = trace w ++ tr ∧ logs tr = omap failed_line (sends tr).

(** * Properties *)

(** ** Strings *)

Lemma startswith_spec (s p : pystr) :
  startswith s p = true ↔ ∃ t, s = p ++ t.
Proof.
  revert s. induction p as [|a p IH]; intros s; simpl.
  - split; [intros _; by exists s | done].
  - destruct s as [|b s]; simpl.
    + split; [done | intros [t Ht]; discriminate].
    + rewrite andb_true_iff, N.eqb_eq, IH. split.
      * intros [-> [t ->]]. by exists t.
      * intros [t Ht]. injection Ht as -> ->. eauto.
Qed.

(** The fuel of [remove_all] is never used up: any fuel from the length of
    the string on gives the same result. *)
Lemma remove_all_go_enough (old s : pystr) (fuel fuel' : nat) :
  old ≠ [] → (length s ≤ fuel)%nat → (length s ≤ fuel')%nat →
  remove_all_go fuel old s = remove_all_go fuel' old s.
Proof.
  intros Hold. revert s fuel'.
  assert (∀ n, remove_all_go n old [] = []) as Hnil.
  { intros [|n]; [done|]. simpl. by destruct old. }
  induction fuel as [|fuel IH]; intros s fuel' H H'.
  - destruct s; [|simpl in H; lia]. by rewrite !Hnil.
  - destruct fuel' as [|fuel'].
    { destruct s; [|simpl in H'; lia]. by rewrite !Hnil. }
    simpl. destruct (startswith s old) eqn:Hs.
    + apply startswith_spec in Hs as [t ->].
      rewrite drop_app_length. rewrite length_app in H, H'.
      destruct old; [done|]. simpl in H, H'. apply IH; lia.
    + destruct s as [|c s]; [done|]. simpl in H, H'. f_equal. apply IH; lia.
Qed.

Lemma remove_all_fuel (old s : pystr) (fuel : nat) :
  old ≠ [] → (length s ≤ fuel)%nat → remove_all_go fuel old s = remove_all old s.
Proof. intros. by apply remove_all_go_enough. Qed.

Lemma contains_spec (hay needle : pystr) :
  contains hay needle = true ↔ ∃ pre post, hay = pre ++ needle ++ post.
Proof.
  induction hay as [|c hay IH]; simpl.
  - rewrite orb_false_r, startswith_spec. split.
    + intros [t Ht]. by exists [], t.
    + intros (pre & post & H). destruct pre; [by exists post|discriminate].
  - rewrite orb_true_iff, startswith_spec, IH. split.
    + intros [[t Ht] | (pre & post & ->)].
      * by exists [], t.
      * by exists (c :: pre), post.
    + intros (pre & post & H). destruct pre as [|x pre]; simpl in H.
      * left. by exists post.
      * right. injection H as -> ->. by exists pre, post.
Qed.

Lemma contains_middle (pre needle post : pystr) :
  contains (pre ++ needle ++ post) needle = true.
Proof. apply contains_spec. by exists pre, post. Qed.

(** ** The matcher *)

Section Matcher.
Context {U : Unicode}.

Lemma rep_loop_spec p lo hi k n b s :
  rep_loop p lo hi k n b s = true ↔
  ∃ u v, s = u ++ v ∧ forallb p u = true ∧ (lo ≤ n + length u)%nat
         ∧ (u = [] ∨ le_opt (n + length u) hi)
         ∧ k (match u with [] => b | _ => false end) v = true.
Proof.
  revert n b. induction s as [|c s IH]; intros n b; simpl.
  - rewrite andb_true_iff, Nat.leb_le. split.
    + intros [Hn Hk]. exists [], []. simpl. rewrite Nat.add_0_r. auto 10.
    + intros (u & v & Huv & _ & Hlo & _ & Hk).
      symmetry in Huv. apply app_eq_nil in Huv as [-> ->]. simpl in *.
      rewrite Nat.add_0_r in Hlo. auto 10.
  - rewrite orb_true_iff, !andb_true_iff, IH, Nat.leb_le. split.
    + intros [[[Hb Hp] (u & v & -> & Hu & Hlo & Hhi & Hk)] | [Hn Hk]].
      * exists (c :: u), v. simpl. rewrite Hp, Hu. repeat split; [lia| |].
        -- right. destruct hi as [h|]; simpl in *; [|done].
           apply Nat.ltb_lt in Hb. destruct Hhi as [->|Hhi]; simpl; lia.
        -- by destruct u.
      * exists [], (c :: s). simpl. rewrite Nat.add_0_r. auto 10.
    + intros (u & v & Huv & Hu & Hlo & Hhi & Hk). destruct u as [|x u]; simpl in *.
      * right. subst v. rewrite Nat.add_0_r in Hlo. auto 10.
      * left. injection Huv as -> ->. apply andb_true_iff in Hu as [Hx Hu].
        destruct Hhi as [|Hhi]; [done|]. split.
        -- split; [|done]. destruct hi as [h|]; simpl in *; [|done].
           apply Nat.ltb_lt. lia.
        -- exists u, v. repeat split; [done|lia| |by destruct u].
           right. destruct hi; simpl in *; [lia|done].
Qed.

Lemma rmatch_Atom p b s k :
  rmatch (Atom p) b s k = true ↔ ∃ c s', s = c :: s' ∧ cset_mem p c = true ∧ k false s' = true.
Proof.
  simpl. destruct s as [|c s].
  - split; [done | intros (? & ? & ? & _); done].
  - rewrite andb_true_iff. split.
    + intros [? ?]. by exists c, s.
    + intros (? & ? & [= <- <-] & ? & ?). done.
Qed.

Lemma rmatch_chars (l : pystr) b s k :
  rmatch (cat (map (λ c, Atom (CChr c)) l)) b s k = true ↔
  ∃ s', s = l ++ s' ∧ k (match l with [] => b | _ => false end) s' = true.
Proof.
  revert b s. induction l as [|a l IH]; intros b s.
  - simpl. split; [intros H; by exists s | intros (s' & -> & H); done].
  - change (rmatch (Atom (CChr a)) b s
              (λ b' s', rmatch (cat (map (λ c, Atom (CChr c)) l)) b' s' k) = true ↔
            ∃ s', s = (a :: l) ++ s' ∧ k false s' = true).
    rewrite rmatch_Atom. split.
    + intros (c & s1 & -> & Hc & H). apply IH in H as (s' & -> & H).
      simpl in Hc. apply N.eqb_eq in Hc as ->. exists s'. split; [done|]. by destruct l.
    + intros (s' & -> & H). exists a, (l ++ s'). split; [done|]. split.
      * simpl. apply N.eqb_refl.
      * apply IH. exists s'. split; [done|]. by destruct l.
Qed.

Lemma rmatch_lit (l : string) b s k :
  rmatch (lit l) b s k = true ↔
  ∃ s', s = py l ++ s' ∧ k (match py l with [] => b | _ => false end) s' = true.
Proof. apply rmatch_chars. Qed.

Lemma rmatch_Rep p lo hi b s k :
  rmatch (Rep p lo hi) b s k = true ↔
  ∃ u v, s = u ++ v ∧ forallb (cset_mem p) u = true ∧ (lo ≤ length u)%nat
         ∧ (u = [] ∨ le_opt (length u) hi)
         ∧ k (match u with [] => b | _ => false end) v = true.
Proof. simpl. apply rep_loop_spec. Qed.

Lemma rmatch_opt c b s k :
  rmatch (opt c) b s k = true ↔
  ∃ u v, s = u ++ v ∧ (u = [] ∨ u = [c]) ∧ k (match u with [] => b | _ => false end) v = true.
Proof.
  unfold opt. rewrite rmatch_Rep. split.
  - intros (u & v & -> & Hu & _ & Hhi & Hk). exists u, v. repeat split; [|done].
    destruct u as [|x [|y u]]; [by left| |].
    + right. simpl in Hu. rewrite andb_true_r in Hu. by apply N.eqb_eq in Hu as ->.
    + destruct Hhi as [|Hhi]; [done|]. simpl in Hhi. lia.
  - intros (u & v & -> & Hu & Hk). exists u, v. repeat split; [|lia| |done].
    + destruct Hu as [-> | ->]; simpl; [done|]. by rewrite N.eqb_refl.
    + destruct Hu as [-> | ->]; [by left|right; simpl; lia].
Qed.

Lemma rmatch_plus p b s k :
  rmatch (plus p) b s k = true ↔
  ∃ u v, s = u ++ v ∧ u ≠ [] ∧ forallb (cset_mem p) u = true ∧ k false v = true.
Proof.
  unfold plus. rewrite rmatch_Rep. split.
  - intros (u & v & -> & Hu & Hlo & _ & Hk). exists u, v.
    destruct u; simpl in *; [lia|done].
  - intros (u & v & -> & Hne & Hu & Hk). exists u, v.
    destruct u; [done|]. simpl. repeat split; [done|lia|by right|done].
Qed.

Lemma rmatch_Eol b s k :
  rmatch Eol b s k = true ↔ at_eol s = true ∧ k b s = true.
Proof. simpl. apply andb_true_iff. Qed.

Lemma at_eol_spec s : at_eol s = true ↔ s = [] ∨ s = [LF].
Proof.
  destruct s as [|c [|d s]]; simpl.
  - split; auto.
  - rewrite N.eqb_eq. split; [intros ->; by right | intros [|[= ->]]; done].
  - split; [done | intros [|]; done].
Qed.

End Matcher.

(** ** The three shapes *)

Section Shapes.
Context {U : Unicode}.

Lemma rmatch_cat_cons r rs b s k :
  rmatch (cat (r :: rs)) b s k = rmatch r b s (λ b' s', rmatch (cat rs) b' s' k).
Proof. reflexivity. Qed.

Lemma rmatch_cat_nil b s k : rmatch (cat []) b s k = k b s.
Proof. reflexivity. Qed.

Lemma rmatch_Bol b s k : rmatch Bol b s k = true ↔ b = true ∧ k b s = true.
Proof. simpl. apply andb_true_iff. Qed.

Lemma rmatch_Alt r1 r2 b s k :
  rmatch (Alt r1 r2) b s k = true ↔ rmatch r1 b s k = true ∨ rmatch r2 b s k = true.
Proof. simpl. apply orb_true_iff. Qed.

Local Opaque lit opt plus.

(** Peels the first piece off a sequence, in a hypothesis or in the goal. *)
Ltac peel H lem pat := rewrite rmatch_cat_cons in H; apply lem in H as pat.
Ltac feed lem := rewrite rmatch_cat_cons; apply lem.

Lemma username_shape s :
  re_match pat_username s = true ↔
  ∃ u t, s = 64 :: u ++ t ∧ (5 ≤ length u ≤ 32)%nat
         ∧ forallb is_word u = true ∧ at_eol t = true.
Proof.
  unfold re_match, pat_username. split.
  - intros H.
    peel H rmatch_Bol ipattern:([_ H]).
    peel H rmatch_lit ipattern:((s1 & -> & H)).
    peel H rmatch_Rep ipattern:((u & t & -> & Hu & Hlo & Hhi & H)).
    peel H rmatch_Eol ipattern:([Ht _]).
    exists u, t. repeat split; try done.
    destruct Hhi as [->|Hhi]; simpl in *; lia.
  - intros (u & t & -> & [Hlo Hhi] & Hu & Ht).
    feed rmatch_Bol. split; [done|].
    feed rmatch_lit. exists (u ++ t). split; [done|].
    feed rmatch_Rep. exists u, t. repeat split; try done; [by right|].
    feed rmatch_Eol. done.
Qed.

Lemma link_shape s :
  re_match pat_link s = true ↔
  ∃ sch body sl t,
    s = py "http" ++ sch ++ py "://t.me/" ++ body ++ sl ++ t
    ∧ (sch = [] ∨ sch = [115]) ∧ body ≠ [] ∧ forallb link_char body = true
    ∧ (sl = [] ∨ sl = [47]) ∧ at_eol t = true.
Proof.
  unfold re_match, pat_link. split.
  - intros H.
    peel H rmatch_Bol ipattern:([_ H]).
    peel H rmatch_lit ipattern:((s1 & -> & H)).
    peel H rmatch_opt ipattern:((sch & s2 & -> & Hsch & H)).
    peel H rmatch_lit ipattern:((s3 & -> & H)).
    peel H rmatch_Atom ipattern:((c & s4 & -> & Hc & H)).
    peel H rmatch_lit ipattern:((s5 & -> & H)).
    peel H rmatch_plus ipattern:((body & s6 & -> & Hne & Hbody & H)).
    peel H rmatch_opt ipattern:((sl & t & -> & Hsl & H)).
    peel H rmatch_Eol ipattern:([Ht _]).
    simpl in Hc. apply N.eqb_eq in Hc as ->.
    exists sch, body, sl, t. repeat split; try done.
  - intros (sch & body & sl & t & -> & Hsch & Hne & Hbody & Hsl & Ht).
    feed rmatch_Bol. split; [done|].
    feed rmatch_lit. eexists. split; [reflexivity|].
    feed rmatch_opt. exists sch. eexists. split; [reflexivity|]. split; [done|].
    feed rmatch_lit. exists ([46] ++ py "me/" ++ body ++ sl ++ t). split; [done|].
    feed rmatch_Atom. eexists _, _. split; [reflexivity|]. split; [done|].
    feed rmatch_lit. eexists. split; [reflexivity|].
    feed rmatch_plus. exists body, (sl ++ t). split; [done|]. split; [done|]. split; [done|].
    feed rmatch_opt. exists sl, t. split; [done|]. split; [done|].
    feed rmatch_Eol. done.
Qed.

Lemma invite_shape s :
  re_match pat_invite s = true ↔
  ∃ sch code t,
    s = py "http" ++ sch ++ py "://t.me/+" ++ code ++ t
    ∧ (sch = [] ∨ sch = [115]) ∧ code ≠ [] ∧ forallb is_word code = true
    ∧ at_eol t = true.
Proof.
  unfold re_match, pat_invite. split.
  - intros H.
    peel H rmatch_Bol ipattern:([_ H]).
    peel H rmatch_lit ipattern:((s1 & -> & H)).
    peel H rmatch_opt ipattern:((sch & s2 & -> & Hsch & H)).
    peel H rmatch_lit ipattern:((s3 & -> & H)).
    peel H rmatch_Atom ipattern:((c & s4 & -> & Hc & H)).
    peel H rmatch_lit ipattern:((s5 & -> & H)).
    peel H rmatch_Atom ipattern:((d & s6 & -> & Hd & H)).
    peel H rmatch_plus ipattern:((code & t & -> & Hne & Hcode & H)).
    peel H rmatch_Eol ipattern:([Ht _]).
    simpl in Hc, Hd. apply N.eqb_eq in Hc as ->. apply N.eqb_eq in Hd as ->.
    exists sch, code, t. repeat split; try done.
  - intros (sch & code & t & -> & Hsch & Hne & Hcode & Ht).
    feed rmatch_Bol. split; [done|].
    feed rmatch_lit. eexists. split; [reflexivity|].
    feed rmatch_opt. exists sch. eexists. split; [reflexivity|]. split; [done|].
    feed rmatch_lit. exists ([46] ++ py "me/" ++ [43] ++ code ++ t). split; [done|].
    feed rmatch_Atom. eexists _, _. split; [reflexivity|]. split; [done|].
    feed rmatch_lit. eexists. split; [reflexivity|].
    feed rmatch_Atom. eexists _, _. split; [reflexivity|]. split; [done|].
    feed rmatch_plus. exists code, t. split; [done|]. split; [done|]. split; [done|].
    feed rmatch_Eol. done.
Qed.

Lemma validate_target_unfold s :
  validate_target s =
  re_match pat_username s || re_match pat_link s || re_match pat_invite s.
Proof. unfold validate_target, patterns. simpl. by rewrite orb_false_r, orb_assoc. Qed.

Local Transparent lit opt plus.

End Shapes.

(** ** The validator *)

Section Validator.
Context {U : Unicode}.

Lemma is_word_link_char c : is_word c = true → link_char c = true.
Proof. unfold link_char. simpl. intros ->. done. Qed.

Lemma forallb_impl {A} (f g : A → bool) (l : list A) :
  (∀ x, f x = true → g x = true) → forallb f l = true → forallb g l = true.
Proof.
  intros Hfg. induction l as [|x l IH]; simpl; [done|].
  rewrite !andb_true_iff. intros [? ?]. auto.
Qed.

Lemma forallb_elem {A} (f : A → bool) (l : list A) x :
  forallb f l = true → x ∈ l → f x = true.
Proof.
  induction l as [|y l IH]; simpl.
  - intros _ H. by apply not_elem_of_nil in H.
  - rewrite andb_true_iff. intros [Hy Hl] [->|H]%elem_of_cons; auto.
Qed.

(** The third pattern matches nothing the second does not. *)
Lemma invite_is_link s : re_match pat_invite s = true → re_match pat_link s = true.
Proof.
  rewrite invite_shape, link_shape.
  intros (sch & code & t & -> & Hsch & Hne & Hcode & Ht).
  exists sch, (43 :: code), [], t. repeat split; try done.
  - simpl. f_equal. eapply forallb_impl; [apply is_word_link_char|done].
  - by left.
Qed.

Lemma validate_target_two_eq s : validate_target s = validate_target_two s.
Proof.
  rewrite validate_target_unfold. unfold validate_target_two. simpl.
  rewrite orb_false_r.
  destruct (re_match pat_invite s) eqn:Hi; [|by rewrite orb_false_r].
  apply invite_is_link in Hi. rewrite Hi. by rewrite !orb_true_r.
Qed.

Lemma validate_target_cases s :
  validate_target s = true ↔ re_match pat_username s = true ∨ re_match pat_link s = true.
Proof.
  rewrite validate_target_two_eq. unfold validate_target_two. simpl.
  rewrite orb_false_r. apply orb_true_iff.
Qed.

(** Two ways of cutting a string at the first occurrence of a character agree. *)
Lemma first_split (c : N) (a a' b b' : pystr) :
  c ∉ a → c ∉ a' → a ++ c :: b = a' ++ c :: b' → a = a' ∧ b = b'.
Proof.
  revert a'. induction a as [|x a IH]; intros [|y a'] Ha Ha' H; simpl in H.
  - by injection H as ->.
  - injection H as <- _. exfalso. apply Ha'. by left.
  - injection H as -> _. exfalso. apply Ha. by left.
  - injection H as -> H. apply not_elem_of_cons in Ha as [_ Ha].
    apply not_elem_of_cons in Ha' as [_ Ha'].
    destruct (IH a' Ha Ha' H) as [-> ->]. done.
Qed.

Lemma at_eol_elem t c : at_eol t = true → c ∈ t → c = LF.
Proof.
  intros [->| ->]%at_eol_spec H.
  - by apply not_elem_of_nil in H.
  - by apply list_elem_of_singleton in H.
Qed.

(** An accepted string that has a scheme and a host has [http] or [https]
    and the host [t.me]. *)
Lemma validate_scheme_host (scheme host rest : pystr) :
  58 ∉ scheme → 47 ∉ host →
  validate_target (scheme ++ py "://" ++ host ++ py "/" ++ rest) = true →
  (scheme = py "http" ∨ scheme = py "https") ∧ host = py "t.me".
Proof.
  intros Hs Hh [H|H]%validate_target_cases.
  - apply username_shape in H as (u & t & H & _ & Hu & Ht). exfalso.
    assert (58 ∈ 64 :: u ++ t) as Hin.
    { rewrite <-H. apply elem_of_app. right. by left. }
    apply elem_of_cons in Hin as [?|Hin]; [done|].
    apply elem_of_app in Hin as [Hin|Hin].
    + by apply (forallb_elem _ _ _ Hu) in Hin.
    + by apply (at_eol_elem _ _ Ht) in Hin.
  - apply link_shape in H as (sch & body & sl & t & H & Hsch & _ & _ & _ & _).
    change (scheme ++ 58 :: py "//" ++ host ++ 47 :: rest
            = py "http" ++ sch ++ 58 :: py "//" ++ py "t.me" ++ 47 :: body ++ sl ++ t) in H.
    rewrite (app_assoc (py "http")) in H.
    apply first_split in H as [-> H]; [|done|].
    + apply (app_inv_head (py "//")) in H.
      apply first_split in H as [-> _]; [|done|by apply (bool_decide_unpack _)].
      split; [|done]. destruct Hsch as [-> | ->]; [by left|by right].
    + destruct Hsch as [-> | ->]; by apply (bool_decide_unpack _).
Qed.

(** [$] lets a line feed through at the very end, whatever the database says
    outside ASCII. *)
Lemma validate_trailing_newline :
  validate_target (py "@abcde\n") = true
  ∧ validate_target (py "https://t.me/name\n") = true
  ∧ validate_target (py "@abcde\n\n") = false.
Proof. repeat split. Qed.

(** Every accepted string begins with [@] or with one of the two links. *)
Lemma validate_prefix s :
  validate_target s = true →
  startswith s (py "@") = true
  ∨ startswith s (py "http://t.me/") = true
  ∨ startswith s (py "https://t.me/") = true.
Proof.
  intros [H|H]%validate_target_cases.
  - apply username_shape in H as (u & t & -> & _). left.
    apply startswith_spec. by exists (u ++ t).
  - apply link_shape in H as (sch & body & sl & t & -> & [-> | ->] & _); right.
    + left. apply startswith_spec. by exists (body ++ sl ++ t).
    + right. apply startswith_spec. by exists (body ++ sl ++ t).
Qed.

(** C3 (as amended). For a string that begins with [@] and does not end in a
    line feed, [validate_target] is true exactly when what follows the [@] is
    5 to 32 word characters: shorter, longer, or with a character outside the
    word class, it is false. The empty string is rejected. *)
Theorem validate_username (u : pystr) :
  last u ≠ Some LF →
  (validate_target (py "@" ++ u) = true
   ↔ (5 ≤ length u ≤ 32)%nat ∧ forallb is_word u = true)
  ∧ validate_target [] = false.
Proof.
  intros Hnl. split; [|done].
  rewrite validate_target_cases, username_shape, link_shape. split.
  - intros [(u' & t & H & Hlen & Hu & Ht) | (sch & ? & ? & ? & H & _)]; [|done].
    injection H as ->. apply at_eol_spec in Ht as [-> | ->].
    + by rewrite app_nil_r.
    + by rewrite last_snoc in Hnl.
  - intros [Hlen Hu]. left. exists u, []. by rewrite app_nil_r.
Qed.

(** C4. Every [http://t.me/] or [https://t.me/] followed by one or more word
    or [+] characters and an optional slash is accepted, the private-invite
    form among them; a string with another scheme or another host is
    rejected, and so is every string that is not a username and does not
    begin with one of the two links. *)
Theorem validate_link :
  (∀ sch body sl : pystr,
     sch = [] ∨ sch = py "s" → body ≠ [] → forallb link_char body = true →
     sl = [] ∨ sl = py "/" →
     validate_target (py "http" ++ sch ++ py "://t.me/" ++ body ++ sl) = true)
  ∧ (∀ code : pystr,
     code ≠ [] → forallb is_word code = true →
     validate_target (py "https://t.me/+" ++ code) = true)
  ∧ (∀ scheme host rest : pystr,
     58 ∉ scheme → 47 ∉ host →
     ¬ ((scheme = py "http" ∨ scheme = py "https") ∧ host = py "t.me") →
     validate_target (scheme ++ py "://" ++ host ++ py "/" ++ rest) = false)
  ∧ (∀ s : pystr,
     startswith s (py "@") = false → startswith s (py "http://t.me/") = false →
     startswith s (py "https://t.me/") = false → validate_target s = false)
  ∧ validate_target (py "https://t.me/+inviteCode") = true
  ∧ validate_target (py "ftp://t.me/name") = false
  ∧ validate_target (py "https://telegram.me/name") = false.
Proof.
  assert (∀ sch body sl : pystr,
     sch = [] ∨ sch = py "s" → body ≠ [] → forallb link_char body = true →
     sl = [] ∨ sl = py "/" →
     validate_target (py "http" ++ sch ++ py "://t.me/" ++ body ++ sl) = true) as Hlink.
  { intros sch body sl Hsch Hne Hbody Hsl.
    apply validate_target_cases. right. apply link_shape.
    exists sch, body, sl, []. by rewrite app_nil_r. }
  split; [done|]. split; [|split; [|split; [|done]]].
  - intros code Hne Hcode.
    assert (forallb link_char (43 :: code) = true) as Hbody.
    { simpl. eapply forallb_impl; [apply is_word_link_char|done]. }
    pose proof (Hlink (py "s") (43 :: code) [] (or_intror eq_refl)
                  ltac:(done) Hbody (or_introl eq_refl)) as H.
    by rewrite app_nil_r in H.
  - intros scheme host rest Hs Hh Hnot.
    apply not_true_is_false. intros H. apply Hnot.
    by apply (validate_scheme_host scheme host rest).
  - intros s H1 H2 H3. apply not_true_is_false. intros H.
    destruct (validate_prefix s H) as [?|[?|?]]; congruence.
Qed.

(** C10. Whatever the third pattern matches the second matches too, so the
    validator is the same function with the third pattern removed. *)
Theorem third_pattern_subsumed :
  (∀ s, re_match pat_invite s = true → re_match pat_link s = true)
  ∧ (∀ s, validate_target s = validate_target_two s).
Proof. split; [apply invite_is_link | apply validate_target_two_eq]. Qed.

End Validator.

(** ** Stripping *)

Lemma lstrip_spaces ws s : forallb isspace ws = true → lstrip (ws ++ s) = lstrip s.
Proof.
  induction ws as [|c ws IH]; simpl; [done|].
  rewrite andb_true_iff. intros [-> ?]. auto.
Qed.

Lemma lstrip_all_spaces ws : forallb isspace ws = true → lstrip ws = [].
Proof. intros H. rewrite <-(app_nil_r ws). by rewrite lstrip_spaces. Qed.

Lemma forallb_rev {A} (f : A → bool) l : forallb f (rev l) = forallb f l.
Proof.
  induction l as [|x l IH]; simpl; [done|].
  rewrite forallb_app, IH. simpl. rewrite andb_true_r. apply andb_comm.
Qed.

Lemma rstrip_spaces s ws : forallb isspace ws = true → rstrip (s ++ ws) = rstrip s.
Proof.
  intros H. unfold rstrip. rewrite rev_app_distr, lstrip_spaces; [done|].
  by rewrite forallb_rev.
Qed.

Lemma lstrip_head c s : isspace c = false → lstrip (c :: s) = c :: s.
Proof. simpl. by intros ->. Qed.

Lemma rstrip_last s c : isspace c = false → rstrip (s ++ [c]) = s ++ [c].
Proof.
  intros H. unfold rstrip. rewrite rev_app_distr. simpl. rewrite H. simpl.
  by rewrite rev_involutive.
Qed.

Lemma strip_padded ws1 s ws2 :
  forallb isspace ws1 = true → forallb isspace ws2 = true →
  strip (ws1 ++ s ++ ws2) = strip s.
Proof.
  intros H1 H2. unfold strip. rewrite lstrip_spaces by done. clear ws1 H1.
  induction s as [|c s IH]; simpl.
  - by rewrite lstrip_all_spaces.
  - destruct (isspace c); [done|].
    exact (rstrip_spaces (c :: s) ws2 H2).
Qed.

(** Stripping leaves a string that has no white space at either end, and
    removes white space that follows it. *)
Lemma strip_core c s d ws :
  isspace c = false → isspace d = false → forallb isspace ws = true →
  strip ((c :: s ++ [d]) ++ ws) = c :: s ++ [d].
Proof.
  intros Hc Hd Hws. unfold strip. simpl. rewrite Hc.
  etrans; [exact (rstrip_spaces (c :: s ++ [d]) ws Hws)|].
  exact (rstrip_last (c :: s) d Hd).
Qed.

Lemma strip_length s : (length (strip s) ≤ length s)%nat.
Proof.
  assert (∀ x, length (lstrip x) ≤ length x)%nat as Hl.
  { induction x as [|c x IH]; simpl; [done|]. destruct (isspace c); simpl; lia. }
  unfold strip, rstrip. rewrite length_rev.
  etrans; [apply Hl|]. rewrite length_rev. apply Hl.
Qed.

Section StripValid.
Context {U : Unicode}.

(** Arithmetic on code points, from the boolean tests. *)
Ltac bools :=
  repeat match goal with
  | H : _ || _ = true |- _ => apply orb_true_iff in H as [H|H]
  | H : _ && _ = true |- _ => apply andb_true_iff in H as [? H]
  | H : (_ <=? _) = true |- _ => apply N.leb_le in H
  | H : (_ <? _) = true |- _ => apply N.ltb_lt in H
  | H : (_ =? _) = true |- _ => apply N.eqb_eq in H
  | H : (_ <? _) = false |- _ => apply N.ltb_ge in H
  end.

Lemma word_not_space c : is_word c = true → isspace c = false.
Proof.
  intros Hw. destruct (isspace c) eqn:Hs; [exfalso|done].
  pose proof (uni_space_not_alnum c Hs) as Hu.
  unfold is_word, is_ascii, ascii_alnum in Hw. rewrite Hu in Hw.
  unfold isspace in Hs. destruct (c <? 128) eqn:Hc; bools; lia.
Qed.

Lemma link_char_not_space c : link_char c = true → isspace c = false.
Proof.
  unfold link_char. simpl. intros [H|H]%orb_true_iff.
  - by apply word_not_space.
  - apply N.eqb_eq in H as ->. done.
Qed.

Lemma LF_spaces t : at_eol t = true → forallb isspace t = true.
Proof. by intros [-> | ->]%at_eol_spec. Qed.

Lemma snoc_or_nil {A} (l : list A) : l = [] ∨ ∃ l' x, l = l' ++ [x].
Proof.
  induction l as [|y l IH] using rev_ind; [by left|right; eauto].
Qed.

Lemma forallb_last {A} (f : A → bool) l x : forallb f (l ++ [x]) = true → f x = true.
Proof. rewrite forallb_app. simpl. rewrite andb_true_r, andb_true_iff. tauto. Qed.

(** A valid target stays valid when stripped. *)
Lemma validate_strip t : validate_target t = true → validate_target (strip t) = true.
Proof.
  rewrite !validate_target_cases.
  intros [H|H]; [left|right].
  - apply username_shape in H as (u & tl & -> & Hlen & Hu & Ht).
    destruct (snoc_or_nil u) as [-> | (u' & d & ->)]; [simpl in Hlen; lia|].
    change (64 :: (u' ++ [d]) ++ tl) with ((64 :: u' ++ [d]) ++ tl).
    rewrite strip_core; [|done| |by apply LF_spaces].
    + apply username_shape. exists (u' ++ [d]), []. by rewrite app_nil_r.
    + apply word_not_space. by apply forallb_last in Hu.
  - apply link_shape in H as (sch & body & sl & tl & -> & Hsch & Hne & Hbody & Hsl & Ht).
    destruct (snoc_or_nil (sch ++ py "://t.me/" ++ body ++ sl)) as [H | (m & d & Hm)].
    { destruct Hsch as [-> | ->]; discriminate. }
    assert (isspace d = false) as Hd.
    { destruct Hsl as [-> | ->].
      - rewrite app_nil_r in Hm.
        destruct (snoc_or_nil body) as [-> | (b' & e & ->)]; [done|].
        rewrite !app_assoc in Hm. apply app_inj_tail in Hm as [_ ->].
        apply link_char_not_space. by apply forallb_last in Hbody.
      - rewrite !app_assoc in Hm. by apply app_inj_tail in Hm as [_ <-]. }
    assert (py "http" ++ sch ++ py "://t.me/" ++ body ++ sl ++ tl
            = (104 :: (py "ttp" ++ m) ++ [d]) ++ tl) as ->.
    { change ((104 :: py "ttp") ++ sch ++ py "://t.me/" ++ body ++ sl ++ tl
              = 104 :: ((py "ttp" ++ m) ++ [d]) ++ tl).
      rewrite <-(app_assoc _ m), <-Hm. rewrite <-!app_assoc. done. }
    rewrite strip_core; [|done|done|by apply LF_spaces].
    apply link_shape. exists sch, body, sl, []. repeat split; try done.
    change (104 :: (py "ttp" ++ m) ++ [d]
            = 104 :: (py "ttp" ++ sch ++ py "://t.me/" ++ body ++ sl ++ [])).
    rewrite <-(app_assoc _ m), <-Hm, app_nil_r. done.
Qed.

End StripValid.

(** ** Running the handlers *)

Section Flow.
Context {U : Unicode} {D : Deploy}.

Lemma data_of_with_data u d w : data_of u (with_data u d w) = d.
Proof. unfold data_of, with_data. simpl. by rewrite lookup_insert_eq. Qed.

Lemma data_of_store u key v w :
  data_of u (with_data u (<[key := v]> (data_of u w)) w) !! key = Some v.
Proof. by rewrite data_of_with_data, lookup_insert_eq. Qed.

Lemma data_of_store_ne u key key' v w :
  key ≠ key' →
  data_of u (with_data u (<[key := v]> (data_of u w)) w) !! key' = data_of u w !! key'.
Proof. intros. by rewrite data_of_with_data, lookup_insert_ne. Qed.

Lemma lookup_set_state u st w :
  conversations (set_state u st w) !! u = st.
Proof.
  unfold set_state. destruct st; simpl.
  - apply lookup_insert_eq.
  - apply lookup_delete_eq.
Qed.

(** [confirm_report] either renders the summary of the four stored values and
    moves to the confirmation, or raises and changes nothing. *)
Lemma confirm_report_ok user by_message w ty label target reason details :
  data_of (uid user) w !! "report_type" = Some ty →
  dict_get REPORT_TYPES ty = Some label →
  data_of (uid user) w !! "report_target" = Some target →
  data_of (uid user) w !! "report_reason" = Some reason →
  data_of (uid user) w !! "report_details" = Some details →
  confirm_report user by_message w =
  (Ok (Goto CONFIRMATION),
   say (if by_message
        then ReplyText (summary_text label target reason details) (Some confirm_keyboard)
        else EditMessageText (summary_text label target reason details) (Some confirm_keyboard))
       w).
Proof.
  intros Hty Hlabel Htarget Hreason Hdetails.
  unfold confirm_report, get_item, lookup_dict, mbind, M_bind. simpl.
  rewrite Hty, Hlabel. simpl. rewrite Htarget, Hreason, Hdetails.
  by destruct by_message.
Qed.

Lemma confirm_report_cases user by_message w :
  (∃ e, confirm_report user by_message w = (Raise e, w))
  ∨ (∃ ty label target reason details,
       data_of (uid user) w !! "report_type" = Some ty
       ∧ dict_get REPORT_TYPES ty = Some label
       ∧ data_of (uid user) w !! "report_target" = Some target
       ∧ data_of (uid user) w !! "report_reason" = Some reason
       ∧ data_of (uid user) w !! "report_details" = Some details).
Proof.
  unfold confirm_report, get_item, lookup_dict, mbind, M_bind. simpl.
  destruct (data_of (uid user) w !! "report_type") as [ty|] eqn:Hty; [|left; eauto].
  destruct (dict_get REPORT_TYPES ty) as [label|] eqn:Hlabel; simpl; [|left; eauto].
  destruct (data_of (uid user) w !! "report_target") as [target|] eqn:Htarget;
    [|left; eauto].
  destruct (data_of (uid user) w !! "report_reason") as [reason|] eqn:Hreason;
    [|left; eauto].
  destruct (data_of (uid user) w !! "report_details") as [details|] eqn:Hdetails;
    [|left; eauto].
  right. by exists ty, label, target, reason, details.
Qed.

Lemma report_details_too_long user text w :
  (MAX_REPORT_LENGTH < length (strip text))%nat →
  report_details user text w = (Ok (Goto REPORT_DETAILS), say (ReplyText too_long_text None) w).
Proof.
  intros H. unfold report_details. apply Nat.ltb_lt in H. by rewrite H.
Qed.

Lemma report_details_fits user text w :
  (length (strip text) ≤ MAX_REPORT_LENGTH)%nat →
  report_details user text w =
  confirm_report user true
    (with_data (uid user) (<["report_details" := strip text]> (data_of (uid user) w)) w).
Proof.
  intros H. unfold report_details. apply Nat.ltb_ge in H. by rewrite H.
Qed.

Lemma report_target_valid user text w :
  validate_target (strip text) = true →
  report_target user text w =
  (Ok (Goto REPORT_REASON),
   say (ReplyText select_reason_text (Some reason_keyboard))
     (with_data (uid user) (<["report_target" := strip text]> (data_of (uid user) w)) w)).
Proof. intros H. unfold report_target. by rewrite H. Qed.

Lemma report_target_invalid user text w :
  validate_target (strip text) = false →
  report_target user text w =
  (Ok (Goto REPORT_TARGET), say (ReplyText invalid_format_text None) w).
Proof. intros H. unfold report_target. by rewrite H. Qed.

(** What the conversation does with a text, by state. *)
Lemma handle_text_details user text w :
  conversations w !! uid user = Some REPORT_DETAILS →
  handle_update (Update user (Text text)) w =
  match report_details user text w with
  | (Ok (Goto st), w') => set_state (uid user) (Some st) w'
  | (Ok END, w') => set_state (uid user) None w'
  | (Raise _, w') => w'
  end.
Proof. intros H. unfold handle_update. simpl. by rewrite H. Qed.

Lemma handle_text_target user text w :
  conversations w !! uid user = Some REPORT_TARGET →
  handle_update (Update user (Text text)) w =
  match report_target user text w with
  | (Ok (Goto st), w') => set_state (uid user) (Some st) w'
  | (Ok END, w') => set_state (uid user) None w'
  | (Raise _, w') => w'
  end.
Proof. intros H. unfold handle_update. simpl. by rewrite H. Qed.

(** The details step on a draft that has its type, target and reason. *)
Lemma details_step_on_draft (user : user) (text : pystr) (w : world)
    (ty label target reason : pystr) :
  conversations w !! uid user = Some REPORT_DETAILS →
  data_of (uid user) w !! "report_type" = Some ty →
  dict_get REPORT_TYPES ty = Some label →
  data_of (uid user) w !! "report_target" = Some target →
  data_of (uid user) w !! "report_reason" = Some reason →
  let w' := handle_update (Update user (Text text)) w in
  ((MAX_REPORT_LENGTH < length (strip text))%nat →
     conversations w' !! uid user = Some REPORT_DETAILS
     ∧ user_data w' = user_data w
     ∧ trace w' = trace w ++ [ReplyText too_long_text None])
  ∧ ((length (strip text) ≤ MAX_REPORT_LENGTH)%nat →
     conversations w' !! uid user = Some CONFIRMATION
     ∧ data_of (uid user) w' = <["report_details" := strip text]> (data_of (uid user) w)
     ∧ trace w' = trace w ++ [ReplyText (summary_text label target reason (strip text))
                                (Some confirm_keyboard)]).
Proof.
  intros Hst Hty Hlabel Htarget Hreason w'. subst w'.
  rewrite handle_text_details by done. split; intros Hlen.
  - rewrite report_details_too_long by done.
    split; [apply lookup_set_state|done].
  - rewrite report_details_fits by done.
    erewrite confirm_report_ok; [| |done| | |apply data_of_store].
    + split; [apply lookup_set_state|]. split; [apply data_of_with_data|done].
    + by rewrite data_of_store_ne.
    + by rewrite data_of_store_ne.
    + by rewrite data_of_store_ne.
Qed.

(** C9. The text of a message is stripped before the target is validated or
    the details are measured, and the stripped text is what is stored: white
    space around a message changes nothing, a valid target with white space
    around it is accepted, and the bound on the details is on the stripped text. *)
Theorem free_text_is_stripped (user : user) (text ws1 ws2 : pystr) (w : world) :
  forallb isspace ws1 = true → forallb isspace ws2 = true →
  let padded := ws1 ++ text ++ ws2 in
  handle_update (Update user (Text padded)) w = handle_update (Update user (Text text)) w
  ∧ report_target user padded w = report_target user text w
  ∧ report_details user padded w = report_details user text w
  ∧ (validate_target text = true →
     report_target user padded w =
     (Ok (Goto REPORT_REASON),
      say (ReplyText select_reason_text (Some reason_keyboard))
        (with_data (uid user) (<["report_target" := strip text]> (data_of (uid user) w)) w)))
  ∧ ((report_target user text w).1 = Ok (Goto REPORT_REASON)
     ↔ validate_target (strip text) = true)
  ∧ ((report_details user text w).1 = Ok (Goto REPORT_DETAILS)
     ↔ (MAX_REPORT_LENGTH < length (strip text))%nat)
  ∧ ((length (strip text) ≤ MAX_REPORT_LENGTH)%nat →
     data_of (uid user) (report_details user padded w).2 !! "report_details"
     = Some (strip text)).
Proof.
  intros H1 H2 padded.
  assert (strip padded = strip text) as Hstrip by by apply strip_padded.
  assert (report_target user padded w = report_target user text w) as Htarget.
  { unfold report_target. by rewrite Hstrip. }
  assert (report_details user padded w = report_details user text w) as Hdetails.
  { unfold report_details. by rewrite Hstrip. }
  split; [|split; [done|split; [done|]]].
  { unfold handle_update. simpl.
    destruct (conversations w !! uid user) as [[]|]; simpl; try done.
    - by rewrite Htarget.
    - by rewrite Hdetails. }
  split; [|split; [|split]].
  - intros Hv. rewrite Htarget. apply report_target_valid. by apply validate_strip.
  - destruct (validate_target (strip text)) eqn:Hv.
    + by rewrite report_target_valid.
    + by rewrite report_target_invalid.
  - destruct (decide (MAX_REPORT_LENGTH < length (strip text))%nat) as [Hlen|Hlen].
    + by rewrite report_details_too_long.
    + rewrite report_details_fits by lia. split; [|lia].
      destruct (confirm_report_cases user true
                  (with_data (uid user)
                     (<["report_details" := strip text]> (data_of (uid user) w)) w))
        as [(e & ->)|(ty & label & target & reason & details & ? & ? & ? & ? & ?)].
      * done.
      * by erewrite confirm_report_ok.
  - intros Hlen. rewrite Hdetails, report_details_fits by done.
    destruct (confirm_report_cases user true
                (with_data (uid user)
                   (<["report_details" := strip text]> (data_of (uid user) w)) w))
      as [(e & ->)|(ty & label & target & reason & details & ? & ? & ? & ? & ?)].
    + apply data_of_store.
    + erewrite confirm_report_ok by done. apply data_of_store.
Qed.

(** ** The summary *)

Lemma contains_app_r (a b needle : pystr) :
  contains b needle = true → contains (a ++ b) needle = true.
Proof.
  rewrite !contains_spec. intros (pre & post & ->).
  exists (a ++ pre), post. by rewrite <-app_assoc.
Qed.

Lemma contains_app_l (a b needle : pystr) :
  contains a needle = true → contains (a ++ b) needle = true.
Proof.
  rewrite !contains_spec. intros (pre & post & ->).
  exists pre, (post ++ b). by rewrite <-!app_assoc.
Qed.

Lemma contains_self (s : pystr) : contains s s = true.
Proof. apply contains_spec. exists [], []. by rewrite app_nil_r. Qed.

(** The summary shows the label of the type, the target, the capitalised
    reason and the first 200 characters of the details. *)
Lemma summary_contains label target reason details :
  let summary := summary_text label target reason details in
  contains summary label = true
  ∧ contains summary target = true
  ∧ contains summary (capitalize reason) = true
  ∧ contains summary (take 200 details) = true
  ∧ ((length details ≤ 200)%nat → contains summary details = true).
Proof.
  unfold summary_text. repeat split.
  - do 2 apply contains_app_r. apply contains_app_l, contains_self.
  - do 5 apply contains_app_r. apply contains_app_l, contains_self.
  - do 8 apply contains_app_r. apply contains_app_l, contains_self.
  - do 11 apply contains_app_r. apply contains_self.
  - intros H. do 11 apply contains_app_r. rewrite take_ge by done. apply contains_self.
Qed.

Lemma skip_details_run user w :
  skip_details user w =
  confirm_report user true
    (with_data (uid user)
       (<["report_details" := py "No additional details provided."]> (data_of (uid user) w)) w).
Proof. reflexivity. Qed.

(** ** The cooldown gate *)

Lemma report_command_free user w :
  user_cooldowns w !! uid user = None →
  report_command user w =
  (Ok (Goto REPORT_TYPE), say (ReplyText choose_type_text (Some type_keyboard)) w).
Proof.
  intros H. unfold report_command, get_cooldown, mbind, M_bind. simpl. by rewrite H.
Qed.

Lemma report_command_elapsed user w eligible_at :
  user_cooldowns w !! uid user = Some eligible_at →
  (eligible_at ≤ next_reading w)%Z →
  report_command user w =
  (Ok (Goto REPORT_TYPE), say (ReplyText choose_type_text (Some type_keyboard)) (advance w)).
Proof.
  intros H Hle. unfold report_command, get_cooldown, datetime_now, mbind, M_bind. simpl.
  rewrite H. simpl. apply Z.ltb_ge in Hle. by rewrite Hle.
Qed.

Lemma report_command_blocked user w eligible_at :
  user_cooldowns w !! uid user = Some eligible_at →
  (next_reading w < eligible_at)%Z →
  report_command user w =
  (Ok END,
   say (ReplyText
          (cooldown_text (timedelta_seconds (eligible_at - next_reading (advance w)))) None)
       (advance (advance w))).
Proof.
  intros H Hlt. unfold report_command, get_cooldown, datetime_now, mbind, M_bind. simpl.
  rewrite H. simpl. apply Z.ltb_lt in Hlt. by rewrite Hlt.
Qed.

Lemma handle_report user w :
  conversations w !! uid user = None →
  handle_update (Update user (Command "report")) w =
  match report_command user w with
  | (Ok (Goto st), w') => set_state (uid user) (Some st) w'
  | (Ok END, w') => set_state (uid user) None w'
  | (Raise _, w') => w'
  end.
Proof. intros H. unfold handle_update. simpl. by rewrite H. Qed.

Lemma timedelta_seconds_small (d : Z) :
  (0 ≤ d)%Z → (d < timedelta 86400)%Z → timedelta_seconds d = (d `div` 1000000)%Z.
Proof.
  unfold timedelta, timedelta_seconds. intros H0 H1.
  apply Z.mod_small. split.
  - apply Z.div_pos; lia.
  - apply Z.div_lt_upper_bound; lia.
Qed.


(** ** The fan-out *)

Lemma sends_app a b : sends (a ++ b) = sends a ++ sends b.
Proof. apply omap_app. Qed.

Lemma sent_texts_app a b : sent_texts (a ++ b) = sent_texts a ++ sent_texts b.
Proof. apply omap_app. Qed.

Lemma outcome_tail w w1 i : net w1 = tail (net w) → outcome w1 i = outcome w (S i).
Proof. unfold outcome. intros ->. by rewrite lookup_tail. Qed.

Lemma outcomes_tail w w1 n :
  net w1 = tail (net w) →
  outcome w 0 :: map (outcome w1) (seq 0 n) = map (outcome w) (seq 0 (S n)).
Proof.
  intros H. simpl. f_equal. rewrite <-seq_shift, map_map.
  apply map_ext. intros i. by apply outcome_tail.
Qed.

(** One guarded delivery: the message goes out with the next outcome, a
    failure adds a line to the log, and the handler goes on either way. *)
Lemma notify_admin_run user text admin_id w :
  ∃ w' tr,
    notify_admin user text admin_id w = (Ok (), w')
    ∧ conversations w' = conversations w ∧ user_data w' = user_data w
    ∧ user_cooldowns w' = user_cooldowns w ∧ time w' = time w ∧ ticks w' = ticks w
    ∧ net w' = tail (net w)
    ∧ trace w' = trace w ++ tr
    ∧ sends tr = [(Private admin_id, outcome w 0)]
    ∧ sent_texts tr = [text].
Proof.
  unfold notify_admin, try_except, send_message, logger_error, emit.
  assert (outcome w 0 = next_outcome w) as ->.
  { unfold outcome, next_outcome. by destruct (net w). }
  unfold deliver, say. destruct (next_outcome w) eqn:Hok; simpl.
  - eexists _, [_]. repeat (split; [reflexivity|]). reflexivity.
  - eexists _, [_; _]. do 7 (split; [reflexivity|]).
    split; [by rewrite <-app_assoc|]. split; reflexivity.
Qed.

Lemma notify_channel_run text channel w :
  ∃ w' tr,
    notify_channel text channel w = (Ok (), w')
    ∧ conversations w' = conversations w ∧ user_data w' = user_data w
    ∧ user_cooldowns w' = user_cooldowns w ∧ time w' = time w ∧ ticks w' = ticks w
    ∧ net w' = tail (net w)
    ∧ trace w' = trace w ++ tr
    ∧ sends tr = [(Channel channel, outcome w 0)]
    ∧ sent_texts tr = [text].
Proof.
  unfold notify_channel, try_except, send_message, logger_error, emit.
  assert (outcome w 0 = next_outcome w) as ->.
  { unfold outcome, next_outcome. by destruct (net w). }
  unfold deliver, say. destruct (next_outcome w) eqn:Hok; simpl.
  - eexists _, [_]. repeat (split; [reflexivity|]). reflexivity.
  - eexists _, [_; _]. do 7 (split; [reflexivity|]).
    split; [by rewrite <-app_assoc|]. split; reflexivity.
Qed.

(** The loop over the administrators attempts every one of them, in order,
    whatever the outcomes. *)
Lemma fanout_admins user text admins w :
  ∃ w' tr,
    for_each admins (notify_admin user text) w = (Ok (), w')
    ∧ conversations w' = conversations w ∧ user_data w' = user_data w
    ∧ user_cooldowns w' = user_cooldowns w ∧ time w' = time w ∧ ticks w' = ticks w
    ∧ trace w' = trace w ++ tr
    ∧ sends tr = zip (map Private admins) (map (outcome w) (seq 0 (length admins)))
    ∧ sent_texts tr = map (λ _, text) admins.
Proof.
  revert w. induction admins as [|a admins IH]; intros w.
  - exists w, []. simpl. by rewrite app_nil_r.
  - destruct (notify_admin_run user text a w)
      as (w1 & tr1 & Hrun & Hc & Hd & Hcd & Ht & Htk & Hnet & Htr & Hs & Htx).
    destruct (IH w1) as (w2 & tr2 & Hrun2 & Hc2 & Hd2 & Hcd2 & Ht2 & Htk2 & Htr2 & Hs2 & Htx2).
    exists w2, (tr1 ++ tr2).
    change (for_each (a :: admins) (notify_admin user text) w)
      with (match notify_admin user text a w with
            | (Ok _, w') => for_each admins (notify_admin user text) w'
            | (Raise e, w') => (Raise e, w')
            end).
    rewrite Hrun. split; [done|].
    repeat split; try congruence.
    + by rewrite Htr2, Htr, <-app_assoc.
    + rewrite sends_app, Hs, Hs2.
      change (length (a :: admins)) with (S (length admins)).
      by rewrite <-(outcomes_tail w w1).
    + rewrite sent_texts_app, Htx, Htx2. done.
Qed.
Lemma zip_fst_outcomes (l : list chat) (f : nat → bool) :
  map fst (zip l (map f (seq 0 (length l)))) = l.
Proof.
  change (map fst (zip l (map f (seq 0 (length l))))) with
    ((zip l (map f (seq 0 (length l)))).*1).
  apply fst_zip. by rewrite length_map, length_seq.
Qed.

(** [save_report] on a complete draft: two readings of the clock, then one
    delivery to each recipient, each with its own outcome, all of the same text. *)
Lemma save_report_run user w ty label target reason details :
  data_of (uid user) w !! "report_type" = Some ty →
  dict_get REPORT_TYPES ty = Some label →
  data_of (uid user) w !! "report_target" = Some target →
  data_of (uid user) w !! "report_reason" = Some reason →
  data_of (uid user) w !! "report_details" = Some details →
  ∃ w' tr,
    save_report user w = (Ok (), w')
    ∧ conversations w' = conversations w ∧ user_data w' = user_data w
    ∧ user_cooldowns w' = user_cooldowns w
    ∧ time w' = next_reading (advance w) ∧ ticks w' = tail (tail (ticks w))
    ∧ trace w' = trace w ++ tr
    ∧ sends tr = zip recipients (map (outcome w) (seq 0 (length recipients)))
    ∧ sent_texts tr =
      map (λ _, report_text (next_reading w) (next_reading (advance w)) user
                  label target reason details) recipients.
Proof.
  intros Hty Hlabel Htarget Hreason Hdetails.
  assert (∀ w0, data_of (uid user) (advance w0) = data_of (uid user) w0) as Hadv by done.
  unfold save_report, datetime_now, get_item, lookup_dict, mbind, M_bind.
  rewrite !Hadv, Hty, Hlabel. simpl.
  rewrite !Hadv, Htarget. simpl. rewrite !Hadv, Hreason. simpl.
  rewrite !Hadv, Hdetails. simpl.
  set (text := report_text _ _ _ _ _ _ _).
  set (wb := advance (advance w)).
  unfold recipients. destruct channel_configured as [channel|].
  - destruct (notify_channel_run text channel wb)
      as (w1 & tr1 & -> & Hc & Hd & Hcd & Ht & Htk & Hnet & Htr & Hs & Htx).
    destruct (fanout_admins user text ADMIN_IDS w1)
      as (w2 & tr2 & -> & Hc2 & Hd2 & Hcd2 & Ht2 & Htk2 & Htr2 & Hs2 & Htx2).
    exists w2, (tr1 ++ tr2). split; [done|].
    split; [by rewrite Hc2, Hc|]. split; [by rewrite Hd2, Hd|].
    split; [by rewrite Hcd2, Hcd|]. split; [by rewrite Ht2, Ht|].
    split; [by rewrite Htk2, Htk|].
    split; [by rewrite Htr2, Htr, <-app_assoc|]. split.
    + rewrite sends_app, Hs, Hs2. simpl length.
      rewrite length_map, <-(outcomes_tail w w1) by done. reflexivity.
    + rewrite sent_texts_app, Htx, Htx2, map_app, map_map. reflexivity.
  - unfold mret, M_ret.
    destruct (fanout_admins user text ADMIN_IDS wb)
      as (w2 & tr2 & Hrun & Hc2 & Hd2 & Hcd2 & Ht2 & Htk2 & Htr2 & Hs2 & Htx2).
    exists w2, tr2. split; [exact Hrun|]. repeat (split; [done|]).
    rewrite app_nil_l, length_map, map_map. by split.
Qed.

Lemma next_reading_eq w1 w2 :
  time w1 = time w2 → ticks w1 = ticks w2 → next_reading w1 = next_reading w2.
Proof. unfold next_reading. by intros -> ->. Qed.

(** [confirmation_callback] on [confirm] with a complete draft. *)
Lemma confirmation_confirm_run user data w ty label target reason details :
  data ≠ py "cancel" →
  data_of (uid user) w !! "report_type" = Some ty →
  dict_get REPORT_TYPES ty = Some label →
  data_of (uid user) w !! "report_target" = Some target →
  data_of (uid user) w !! "report_reason" = Some reason →
  data_of (uid user) w !! "report_details" = Some details →
  let confirmed_at := next_reading (advance (advance w)) in
  ∃ w' tr,
    confirmation_callback user data w = (Ok END, w')
    ∧ conversations w' = conversations w
    ∧ user_data w' = <[uid user := ∅]> (user_data w)
    ∧ user_cooldowns w' =
      <[uid user := (confirmed_at + timedelta REPORT_COOLDOWN)%Z]> (user_cooldowns w)
    ∧ time w' = confirmed_at
    ∧ trace w' = trace w ++ [AnswerQuery] ++ tr ++ [EditMessageText submitted_text None]
    ∧ sends tr = zip recipients (map (outcome w) (seq 0 (length recipients)))
    ∧ sent_texts tr =
      map (λ _, report_text (next_reading w) (next_reading (advance w)) user
                  label target reason details) recipients.
Proof.
  intros Hne Hty Hlabel Htarget Hreason Hdetails confirmed_at.
  destruct (save_report_run user (say AnswerQuery w) ty label target reason details)
    as (w1 & tr & Hrun & Hc & Hd & Hcd & Ht & Htk & Htr & Hs & Htx); try done.
  unfold confirmation_callback, answer, emit, mbind, M_bind.
  case_bool_decide as Hcancel; [done|].
  rewrite Hrun.
  unfold datetime_now, set_cooldown, edit_message_text, emit, clear, mret, M_ret.
  eexists _, tr. split; [reflexivity|]. simpl.
  assert (next_reading w1 = confirmed_at) as ->.
  { apply next_reading_eq; [by rewrite Ht|by rewrite Htk]. }
  split; [done|]. split; [by rewrite Hd|]. split; [by rewrite Hcd|].
  split; [done|]. split; [|done].
  rewrite Htr. simpl. by rewrite <-!app_assoc.
Qed.

Lemma handle_confirm user w :
  conversations w !! uid user = Some CONFIRMATION →
  handle_update (Update user (Callback (py "confirm"))) w =
  match confirmation_callback user (py "confirm") w with
  | (Ok (Goto st), w') => set_state (uid user) (Some st) w'
  | (Ok END, w') => set_state (uid user) None w'
  | (Raise _, w') => w'
  end.
Proof. intros H. unfold handle_update. simpl. by rewrite H. Qed.

(** Confirming a complete draft. *)
Lemma confirm_on_draft (user : user) (w : world) (ty label target reason details : pystr) :
  conversations w !! uid user = Some CONFIRMATION →
  data_of (uid user) w !! "report_type" = Some ty →
  dict_get REPORT_TYPES ty = Some label →
  data_of (uid user) w !! "report_target" = Some target →
  data_of (uid user) w !! "report_reason" = Some reason →
  data_of (uid user) w !! "report_details" = Some details →
  let w' := handle_update (Update user (Callback (py "confirm"))) w in
  let confirmed_at := next_reading (advance (advance w)) in
  ∃ tr,
    conversations w' !! uid user = None
    ∧ trace w' = trace w ++ [AnswerQuery] ++ tr ++ [EditMessageText submitted_text None]
    ∧ map fst (sends tr) = recipients
    ∧ sent_texts tr =
      map (λ _, report_text (next_reading w) (next_reading (advance w)) user
                  label target reason details) recipients
    ∧ time w' = confirmed_at
    ∧ user_cooldowns w' !! uid user = Some (confirmed_at + 60 * 1000000)%Z
    ∧ data_of (uid user) w' = ∅.
Proof.
  intros Hst Hty Hlabel Htarget Hreason Hdetails w' confirmed_at. subst w'.
  rewrite handle_confirm by done.
  destruct (confirmation_confirm_run user (py "confirm") w ty label target reason details)
    as (w1 & tr & -> & Hc & Hd & Hcd & Ht & Htr & Hs & Htx); try done.
  exists tr. split; [apply lookup_set_state|]. split; [done|].
  split; [by rewrite Hs, zip_fst_outcomes|]. split; [done|]. split; [done|]. split.
  - simpl. rewrite Hcd. apply lookup_insert_eq.
  - unfold data_of. simpl. rewrite Hd. by rewrite lookup_insert_eq.
Qed.

(** The fan-out of a complete draft, whatever the outcomes. *)
Lemma fanout_on_draft (user : user) (w : world)
    (ty label target reason details : pystr) :
  conversations w !! uid user = Some CONFIRMATION →
  data_of (uid user) w !! "report_type" = Some ty →
  dict_get REPORT_TYPES ty = Some label →
  data_of (uid user) w !! "report_target" = Some target →
  data_of (uid user) w !! "report_reason" = Some reason →
  data_of (uid user) w !! "report_details" = Some details →
  let w' := handle_update (Update user (Callback (py "confirm"))) w in
  ∃ tr,
    trace w' = trace w ++ [AnswerQuery] ++ tr ++ [EditMessageText submitted_text None]
    ∧ sends tr = zip recipients (map (outcome w) (seq 0 (length recipients)))
    ∧ (∀ i chat_id, recipients !! i = Some chat_id →
         sends tr !! i = Some (chat_id, outcome w i))
    ∧ user_cooldowns w' !! uid user
      = Some (next_reading (advance (advance w)) + timedelta REPORT_COOLDOWN)%Z
    ∧ conversations w' !! uid user = None.
Proof.
  intros Hst Hty Hlabel Htarget Hreason Hdetails w'. subst w'.
  rewrite handle_confirm by done.
  destruct (confirmation_confirm_run user (py "confirm") w ty label target reason details)
    as (w1 & tr & -> & Hc & Hd & Hcd & Ht & Htr & Hs & Htx); try done.
  exists tr. split; [done|]. split; [done|]. split; [|split].
  - intros i chat_id Hi. rewrite Hs. apply lookup_zip_with_Some.
    exists chat_id, (outcome w i). split; [done|]. split; [done|].
    rewrite list_lookup_fmap, lookup_seq_lt; [done|].
    by eapply lookup_lt_Some.
  - simpl. rewrite Hcd. apply lookup_insert_eq.
  - apply lookup_set_state.
Qed.

(** ** Reachable worlds *)


(** *** Handlers touch only the data of their user *)

Lemma local_ret u {A} (a : A) : local u (mret a).
Proof. by intros w. Qed.

Lemma local_raise u {A} e : local u (@raise A e).
Proof. by intros w. Qed.

Lemma local_bind u {A B} (m : M A) (f : A → M B) :
  local u m → (∀ a, local u (f a)) → local u (m ≫= f).
Proof.
  intros Hm Hf w. unfold mbind, M_bind.
  destruct (Hm w) as [Hc Hd]. destruct (m w) as [[a|e] w1]; simpl in *.
  - destruct (Hf a w1) as [Hc' Hd']. split; [congruence|].
    intros v Hv. rewrite Hd', Hd; done.
  - done.
Qed.

Lemma local_emit u a : local u (emit a).
Proof. by intros w. Qed.

Lemma local_send u chat_id text markup : local u (send_message chat_id text markup).
Proof. by intros w. Qed.

Lemma local_now u : local u datetime_now.
Proof. by intros w. Qed.

Lemma local_get_item u key : local u (get_item u key).
Proof. intros w. unfold get_item. by destruct (data_of u w !! key). Qed.

Lemma local_set_item u key v : local u (set_item u key v).
Proof.
  intros w. split; [done|]. intros v' Hv. simpl. by rewrite lookup_insert_ne.
Qed.

Lemma local_clear u : local u (clear u).
Proof.
  intros w. split; [done|]. intros v' Hv. simpl. by rewrite lookup_insert_ne.
Qed.

Lemma local_lookup_dict u d key : local u (lookup_dict d key).
Proof. unfold lookup_dict. destruct (dict_get d key); [apply local_ret|apply local_raise]. Qed.

Lemma local_get_cooldown u : local u (get_cooldown u).
Proof. by intros w. Qed.

Lemma local_set_cooldown u t : local u (set_cooldown u t).
Proof. by intros w. Qed.

Lemma local_try u body handler :
  local u body → (∀ e, local u (handler e)) → local u (try_except body handler).
Proof.
  intros Hb Hh w. unfold try_except.
  destruct (Hb w) as [Hc Hd]. destruct (body w) as [[a|e] w1]; simpl in *; [done|].
  destruct (Hh e w1) as [Hc' Hd']. split; [congruence|].
  intros v Hv. rewrite Hd', Hd; done.
Qed.

Lemma local_for_each u {A} (xs : list A) body :
  (∀ x, local u (body x)) → local u (for_each xs body).
Proof.
  intros Hb. induction xs as [|x xs IH]; simpl.
  - apply local_ret.
  - apply local_bind; [apply Hb|done].
Qed.

Create HintDb local_db.

#[local] Hint Resolve local_ret local_raise local_emit local_send local_now
  local_get_item local_set_item local_clear local_lookup_dict
  local_get_cooldown local_set_cooldown : local_db.

(** Takes a handler apart, one bind at a time. *)
Ltac locality :=
  repeat first
    [ progress (unfold answer, reply_text, edit_message_text, logger_error)
    | apply local_bind; [|intros ?]
    | apply local_try; [|intros ?]
    | apply local_for_each; intros ?
    | solve [eauto with local_db]
    | match goal with
      | |- local _ (if ?b then _ else _) => destruct b
      | |- local _ (match ?x with _ => _ end) => destruct x
      end ].

Lemma local_pick st u h : pick st u = Some h → local (uid (effective_user u)) h.
Proof.
  destruct u as [user c]. unfold pick, entry_points, states, fallbacks. simpl.
  intros Hpick.
  assert (local (uid user) (cancel user)) as Hcancel.
  { unfold cancel. locality. }
  destruct st as [st|].
  - destruct st, c as [name|text|data]; simpl in Hpick;
      repeat case_bool_decide; repeat case_match; simplify_eq; try done.
    + unfold report_type_callback. locality.
    + unfold report_target. locality.
    + unfold report_reason_callback. locality.
    + unfold skip_details. locality.
    + unfold report_details. locality.
    + unfold confirmation_callback. locality.
  - destruct c as [name|text|data]; simpl in Hpick;
      repeat case_bool_decide; simplify_eq.
    unfold report_command. locality.
Qed.

(** An update leaves the conversations and the data of the other users as
    they were. *)
Lemma handle_update_other u w v :
  v ≠ uid (effective_user u) →
  conversations (handle_update u w) !! v = conversations w !! v
  ∧ data_of v (handle_update u w) = data_of v w.
Proof.
  intros Hv. unfold handle_update.
  destruct (pick _ u) as [h|] eqn:Hpick; [|done].
  destruct (local_pick _ _ _ Hpick w) as [Hc Hd].
  specialize (Hd v Hv). unfold data_of.
  destruct (h w) as [[[st|]|e] w1]; simpl in *.
  - rewrite lookup_insert_ne by done. by rewrite Hc, Hd.
  - rewrite lookup_delete_ne by done. by rewrite Hc, Hd.
  - by rewrite Hc, Hd.
Qed.

(** *** The confirmation is entered from the details step only *)

Lemma returns_bind {A B} (m : M A) (f : A → M B) (P : B → Prop) :
  (∀ a, returns (f a) P) → returns (m ≫= f) P.
Proof.
  intros Hf w. unfold mbind, M_bind.
  destruct (m w) as [[a|e] w1]; [apply Hf|done].
Qed.

Lemma returns_ret {A} (a : A) (P : A → Prop) : P a → returns (mret a) P.
Proof. by intros Ha w. Qed.

Ltac returning :=
  repeat first
    [ apply returns_bind; intros ?
    | apply returns_ret; discriminate
    | match goal with
      | |- returns (if ?b then _ else _) _ => destruct b
      | |- returns (match ?x with _ => _ end) _ => destruct x
      end ].

Lemma pick_not_confirmation st u h :
  pick st u = Some h → st ≠ Some REPORT_DETAILS →
  returns h (λ n, n ≠ Goto CONFIRMATION).
Proof.
  destruct u as [user c]. unfold pick, entry_points, states, fallbacks. simpl.
  intros Hpick Hst.
  assert (returns (cancel user) (λ n, n ≠ Goto CONFIRMATION)) as Hcancel.
  { unfold cancel. returning. }
  destruct st as [st|].
  - destruct st, c as [name|text|data]; simpl in Hpick;
      repeat case_bool_decide; repeat case_match; simplify_eq; try done.
    + unfold report_type_callback. returning.
    + unfold report_target. returning.
    + unfold report_reason_callback. returning.
    + unfold confirmation_callback. returning.
  - destruct c as [name|text|data]; simpl in Hpick;
      repeat case_bool_decide; simplify_eq.
    unfold report_command. returning.
Qed.

(** The conversation of the user of an update enters the confirmation only
    from the details step. *)
Lemma enters_confirmation u w :
  conversations w !! uid (effective_user u) ≠ Some CONFIRMATION →
  conversations (handle_update u w) !! uid (effective_user u) = Some CONFIRMATION →
  conversations w !! uid (effective_user u) = Some REPORT_DETAILS.
Proof.
  intros Hnot. unfold handle_update.
  destruct (pick _ u) as [h|] eqn:Hpick; [|done].
  destruct (decide (conversations w !! uid (effective_user u) = Some REPORT_DETAILS))
    as [|Hst]; [done|].
  pose proof (pick_not_confirmation _ _ _ Hpick Hst w) as Hret.
  destruct (local_pick _ _ _ Hpick w) as [Hc _].
  destruct (h w) as [[[st'|]|e] w1]; simpl in *.
  - rewrite lookup_insert_eq. intros [= ->]. done.
  - by rewrite lookup_delete_eq.
  - by rewrite Hc.
Qed.

(** *** The draft stays in step with the state *)

Lemma data_of_say u a w : data_of u (say a w) = data_of u w.
Proof. reflexivity. Qed.

Lemma typed_insert key v d : key ≠ "report_type" → typed d → typed (<[key := v]> d).
Proof.
  intros Hk (ty & label & Hty & Hlabel). exists ty, label.
  by rewrite lookup_insert_ne.
Qed.

Lemma is_Some_insert_ne key key' v (d : gmap string pystr) :
  is_Some (d !! key') → is_Some (<[key := v]> d !! key').
Proof.
  intros H. destruct (decide (key = key')) as [->|Hne].
  - rewrite lookup_insert_eq. eauto.
  - by rewrite lookup_insert_ne.
Qed.

Lemma is_Some_insert_eq key v (d : gmap string pystr) : is_Some (<[key := v]> d !! key).
Proof. rewrite lookup_insert_eq. eauto. Qed.

Lemma keeps_report_command user : keeps_step (uid user) None (report_command user).
Proof.
  intros w _.
  destruct (user_cooldowns w !! uid user) as [eligible_at|] eqn:Hcd.
  - destruct (decide (next_reading w < eligible_at)%Z).
    + by rewrite (report_command_blocked _ _ eligible_at).
    + rewrite (report_command_elapsed _ _ eligible_at); [done|done|lia].
  - by rewrite report_command_free.
Qed.

Lemma report_type_callback_run user data w :
  data ≠ py "cancel" →
  let report_type := remove_all (py "type_") data in
  let w1 := with_data (uid user)
              (<["report_type" := report_type]> (data_of (uid user) w)) (say AnswerQuery w) in
  report_type_callback user data w =
  match dict_get REPORT_TYPES report_type with
  | Some label =>
      (Ok (Goto REPORT_TARGET),
       say (EditMessageText (selected_type_text label report_type) None) w1)
  | None => (Raise (KeyError report_type), w1)
  end.
Proof.
  intros Hne. unfold report_type_callback, answer, emit, mbind, M_bind.
  case_bool_decide; [done|]. unfold set_item, lookup_dict.
  by destruct (dict_get REPORT_TYPES _).
Qed.

Lemma keeps_report_type_callback user data :
  keeps_step (uid user) (Some REPORT_TYPE) (report_type_callback user data).
Proof.
  intros w _. destruct (decide (data = py "cancel")) as [->|Hne]; [done|].
  rewrite report_type_callback_run by done.
  destruct (dict_get REPORT_TYPES (remove_all (py "type_") data)) as [label|] eqn:Hlabel;
    [|done].
  cbn [fst snd]. rewrite data_of_say, data_of_with_data.
  eexists _, label. by rewrite lookup_insert_eq.
Qed.

Lemma keeps_report_target user text :
  keeps_step (uid user) (Some REPORT_TARGET) (report_target user text).
Proof.
  intros w Hd. simpl in Hd. destruct (validate_target (strip text)) eqn:Hv.
  - rewrite report_target_valid by done. simpl.
    rewrite data_of_say, data_of_with_data.
    split; [by apply typed_insert|apply is_Some_insert_eq].
  - by rewrite report_target_invalid.
Qed.

Lemma report_reason_callback_run user data w :
  data ≠ py "cancel" →
  report_reason_callback user data w =
  (Ok (Goto REPORT_DETAILS),
   say (EditMessageText provide_details_text None)
     (with_data (uid user)
        (<["report_reason" := remove_all (py "reason_") data]> (data_of (uid user) w))
        (say AnswerQuery w))).
Proof.
  intros Hne. unfold report_reason_callback, answer, emit, mbind, M_bind.
  by case_bool_decide.
Qed.

Lemma keeps_report_reason_callback user data :
  keeps_step (uid user) (Some REPORT_REASON) (report_reason_callback user data).
Proof.
  intros w [Hty Htarget]. destruct (decide (data = py "cancel")) as [->|Hne]; [done|].
  rewrite report_reason_callback_run by done.
  cbn [fst snd]. rewrite data_of_say, data_of_with_data.
  split; [by apply typed_insert|]. split; [by apply is_Some_insert_ne|].
  apply is_Some_insert_eq.
Qed.

Lemma keeps_confirm_after_details user v w :
  draft_ok REPORT_DETAILS (data_of (uid user) w) →
  let w1 := with_data (uid user) (<["report_details" := v]> (data_of (uid user) w)) w in
  match (confirm_report user true w1).1 with
  | Ok (Goto st') => draft_ok st' (data_of (uid user) (confirm_report user true w1).2)
  | Ok END => True
  | Raise _ => draft_ok REPORT_DETAILS (data_of (uid user) (confirm_report user true w1).2)
  end.
Proof.
  intros (Hty & Htarget & Hreason) w1.
  assert (draft_ok CONFIRMATION (data_of (uid user) w1)) as Hok.
  { unfold w1. rewrite data_of_with_data.
    split; [by apply typed_insert|]. split; [by apply is_Some_insert_ne|].
    split; [by apply is_Some_insert_ne|apply is_Some_insert_eq]. }
  destruct (confirm_report_cases user true w1)
    as [(e & ->)|(ty & label & target & reason & details & ? & ? & ? & ? & ?)].
  - simpl. destruct Hok as (? & ? & ? & _). done.
  - by erewrite confirm_report_ok.
Qed.

Lemma keeps_report_details user text :
  keeps_step (uid user) (Some REPORT_DETAILS) (report_details user text).
Proof.
  intros w Hd. destruct (decide (MAX_REPORT_LENGTH < length (strip text))%nat).
  - by rewrite report_details_too_long.
  - rewrite report_details_fits by lia. by apply keeps_confirm_after_details.
Qed.

Lemma keeps_skip_details user :
  keeps_step (uid user) (Some REPORT_DETAILS) (skip_details user).
Proof. intros w Hd. rewrite skip_details_run. by apply keeps_confirm_after_details. Qed.

Lemma keeps_confirmation_callback user data :
  keeps_step (uid user) (Some CONFIRMATION) (confirmation_callback user data).
Proof.
  intros w ((ty & label & Hty & Hlabel) & [target Htarget] & [reason Hreason]
            & [details Hdetails]).
  destruct (decide (data = py "cancel")) as [->|Hne].
  - done.
  - destruct (confirmation_confirm_run user data w ty label target reason details)
      as (w1 & tr & -> & _); done.
Qed.

Lemma keeps_cancel user st : keeps_step (uid user) st (cancel user).
Proof. by intros w _. Qed.

Lemma keeps_pick st u h : pick st u = Some h → keeps_step (uid (effective_user u)) st h.
Proof.
  destruct u as [user c]. unfold pick, entry_points, states, fallbacks. simpl.
  intros Hpick. destruct st as [st|].
  - destruct st, c as [name|text|data]; simpl in Hpick;
      repeat case_bool_decide; repeat case_match; simplify_eq;
      auto using keeps_cancel, keeps_report_type_callback, keeps_report_target,
        keeps_report_reason_callback, keeps_report_details, keeps_skip_details,
        keeps_confirmation_callback.
  - destruct c as [name|text|data]; simpl in Hpick;
      repeat case_bool_decide; simplify_eq.
    apply keeps_report_command.
Qed.

(** Every update keeps every user's draft in step with the user's state. *)
Lemma handle_update_in_step u w : drafts_in_step w → drafts_in_step (handle_update u w).
Proof.
  intros Hinv v st Hv.
  destruct (decide (v = uid (effective_user u))) as [->|Hne].
  2:{ destruct (handle_update_other u w v Hne) as [Hc Hd].
      rewrite Hd. apply Hinv. by rewrite <-Hc. }
  revert Hv. unfold handle_update.
  destruct (pick _ u) as [h|] eqn:Hpick; [|apply Hinv].
  pose proof (keeps_pick _ _ _ Hpick w) as Hk.
  destruct (local_pick _ _ _ Hpick w) as [Hc _].
  assert (in_step (conversations w !! uid (effective_user u))
            (data_of (uid (effective_user u)) w)) as Hpre.
  { destruct (conversations w !! uid (effective_user u)) eqn:Hst; [|done]. by apply Hinv. }
  specialize (Hk Hpre). destruct (h w) as [[[st'|]|e] w1]; simpl in *.
  - rewrite lookup_insert_eq. by intros [= <-].
  - by rewrite lookup_delete_eq.
  - rewrite Hc. intros Hst. by rewrite Hst in Hk.
Qed.

Lemma reachable_in_step w : reachable w → drafts_in_step w.
Proof.
  induction 1 as [w Hw|w u _ IH].
  - intros v st. by rewrite Hw, lookup_empty.
  - by apply handle_update_in_step.
Qed.

Lemma reachable_run us w : reachable w → reachable (run us w).
Proof.
  revert w. induction us as [|u us IH]; intros w Hw; [done|].
  apply IH. by constructor.
Qed.


(** ** Entering the confirmation *)

(** C2 (as amended). Whenever a conversation enters the confirmation, the
    summary sent shows the label of the stored type, the stored target as it
    is, the stored reason capitalised and the first 200 characters of the
    stored details (all of them when they are at most 200). *)
Theorem summary_shows_draft (u : update) (w : world) :
  let user_id := uid (effective_user u) in
  let w' := handle_update u w in
  conversations w !! user_id ≠ Some CONFIRMATION →
  conversations w' !! user_id = Some CONFIRMATION →
  ∃ ty label target reason details summary,
    data_of user_id w' !! "report_type" = Some ty
    ∧ dict_get REPORT_TYPES ty = Some label
    ∧ data_of user_id w' !! "report_target" = Some target
    ∧ data_of user_id w' !! "report_reason" = Some reason
    ∧ data_of user_id w' !! "report_details" = Some details
    ∧ trace w' = trace w ++ [ReplyText summary (Some confirm_keyboard)]
    ∧ contains summary label = true
    ∧ contains summary target = true
    ∧ contains summary (capitalize reason) = true
    ∧ contains summary (take 200 details) = true
    ∧ ((length details ≤ 200)%nat → contains summary details = true).
Proof.
  intros user_id w' Hnot Hconf.
  pose proof (enters_confirmation u w Hnot Hconf) as Hst.
  revert Hconf. subst user_id w'. clear Hnot.
  destruct u as [user c]. simpl in *.
  assert (∀ w0, trace w0 = trace w →
    let w' := match confirm_report user true w0 with
              | (Ok (Goto st), w') => set_state (uid user) (Some st) w'
              | (Ok END, w') => set_state (uid user) None w'
              | (Raise _, w') => w'
              end in
    conversations w0 = conversations w →
    conversations w' !! uid user = Some CONFIRMATION →
    ∃ ty label target reason details summary,
      data_of (uid user) w' !! "report_type" = Some ty
      ∧ dict_get REPORT_TYPES ty = Some label
      ∧ data_of (uid user) w' !! "report_target" = Some target
      ∧ data_of (uid user) w' !! "report_reason" = Some reason
      ∧ data_of (uid user) w' !! "report_details" = Some details
      ∧ trace w' = trace w ++ [ReplyText summary (Some confirm_keyboard)]
      ∧ contains summary label = true
      ∧ contains summary target = true
      ∧ contains summary (capitalize reason) = true
      ∧ contains summary (take 200 details) = true
      ∧ ((length details ≤ 200)%nat → contains summary details = true)) as Hconfirm.
  { intros w0 Htr w' Hconv. subst w'.
    destruct (confirm_report_cases user true w0)
      as [(e & ->)|(ty & label & target & reason & details & ? & ? & ? & ? & ?)].
    - rewrite Hconv, Hst. done.
    - erewrite confirm_report_ok by done. intros _.
      exists ty, label, target, reason, details, (summary_text label target reason details).
      repeat split; try done; try apply summary_contains.
      simpl. by rewrite Htr. }
  unfold handle_update. simpl. rewrite Hst.
  destruct c as [name|text|data]; simpl.
  - case_bool_decide as Hskip.
    + rewrite skip_details_run. by apply Hconfirm.
    + unfold fallbacks. simpl. case_bool_decide; simpl.
      * rewrite lookup_delete_eq. done.
      * by rewrite Hst.
  - destruct (decide (MAX_REPORT_LENGTH < length (strip text))%nat) as [Hlen|Hlen].
    + rewrite report_details_too_long by done. simpl. rewrite lookup_insert_eq. done.
    + rewrite report_details_fits by lia. by apply Hconfirm.
  - by rewrite Hst.
Qed.

(** ** Confirming and the details step, in every reachable world *)

Lemma confirmation_draft user w :
  reachable w → conversations w !! uid user = Some CONFIRMATION →
  ∃ ty label target reason details,
    data_of (uid user) w !! "report_type" = Some ty
    ∧ dict_get REPORT_TYPES ty = Some label
    ∧ data_of (uid user) w !! "report_target" = Some target
    ∧ data_of (uid user) w !! "report_reason" = Some reason
    ∧ data_of (uid user) w !! "report_details" = Some details.
Proof.
  intros Hw Hst.
  destruct (reachable_in_step w Hw _ _ Hst)
    as ((ty & label & ? & ?) & [target ?] & [reason ?] & [details ?]).
  by exists ty, label, target, reason, details.
Qed.





(** ** Cancelling *)

(** Every cancel input ends the conversation and delivers nothing; the user's
    data, the draft included, stays as it was. *)
Lemma cancel_ends_without_dispatch (user : user) (c : payload) (st : cstate) (w : world) :
  conversations w !! uid user = Some st →
  is_cancel st c = true →
  let w' := handle_update (Update user c) w in
  conversations w' !! uid user = None
  ∧ user_data w' = user_data w
  ∧ user_cooldowns w' = user_cooldowns w
  ∧ sends (trace w') = sends (trace w).
Proof.
  intros Hst Hc. unfold handle_update. simpl. rewrite Hst.
  destruct c as [name|text|data]; simpl in Hc; [|done|].
  - apply bool_decide_eq_true in Hc as ->.
    destruct st; simpl; rewrite lookup_delete_eq, sends_app, app_nil_r; done.
  - apply andb_true_iff in Hc as [->%bool_decide_eq_true Hc].
    destruct st; try done; simpl;
      rewrite lookup_delete_eq, !sends_app, !app_nil_r; done.
Qed.

(** C1, on the happy path: the cancel button under the summary ends the
    conversation and no report is delivered, and the four values of the draft
    are still in the user's data afterwards. *)
Theorem cancel_keeps_draft :
  let w := run happy_path fresh in
  let w' := handle_update (Update alice (Callback (py "cancel"))) w in
  conversations w !! uid alice = Some CONFIRMATION
  ∧ conversations w' !! uid alice = None
  ∧ sends (trace w') = []
  ∧ data_of (uid alice) w' !! "report_type" = Some (py "group")
  ∧ data_of (uid alice) w' !! "report_target" = Some (py "https://t.me/examplegroup")
  ∧ data_of (uid alice) w' !! "report_reason" = Some (py "spam")
  ∧ data_of (uid alice) w' !! "report_details" = Some (py "test").
Proof. vm_compute. repeat split. Qed.

End Flow.

(** * More of the code

    What the handlers, the routing and the loader of the configuration do
    beyond the claims above. *)

(** ** The validator, exactly *)

Section Exact.
Context {U : Unicode}.

Lemma head_lstrip s c : head (lstrip s) = Some c → isspace c = false.
Proof.
  induction s as [|x s IH]; simpl; [done|].
  destruct (isspace x) eqn:Hx; [done|]. simpl. by intros [= <-].
Qed.

Lemma last_rev {A} (l : list A) : last (rev l) = head l.
Proof. destruct l as [|x l]; [done|]. simpl. by rewrite last_snoc. Qed.

Lemma last_rstrip s c : last (rstrip s) = Some c → isspace c = false.
Proof. unfold rstrip. rewrite last_rev. apply head_lstrip. Qed.

(** A stripped string does not end in white space. *)
Lemma last_strip s c : last (strip s) = Some c → isspace c = false.
Proof. apply last_rstrip. Qed.

(** The pattern language taken away: what [validate_target] accepts, as
    forms of strings. *)
Lemma validate_target_forms (s : pystr) :
  validate_target s = true ↔
  ∃ core t, s = core ++ t ∧ (t = [] ∨ t = [LF]) ∧ target_form core.
Proof.
  rewrite validate_target_cases, username_shape, link_shape. split.
  - intros [(u & t & -> & Hlen & Hu & Ht) | (sch & body & sl & t & -> & ? & ? & ? & ? & Ht)].
    + exists (py "@" ++ u), t. split; [done|]. split; [by apply at_eol_spec|].
      left. by exists u.
    + exists (py "http" ++ sch ++ py "://t.me/" ++ body ++ sl), t.
      split; [by rewrite <-!app_assoc|]. split; [by apply at_eol_spec|].
      right. by exists sch, body, sl.
  - intros (core & t & -> & Ht%at_eol_spec & [(u & -> & ? & ?) | (sch & body & sl & -> & ? & ? & ? & ?)]).
    + left. by exists u, t.
    + right. exists sch, body, sl, t. by rewrite <-!app_assoc.
Qed.

(** A stripped text that the validator accepts has one of the two forms, with
    nothing after it. *)
Lemma validate_strip_form text :
  validate_target (strip text) = true → target_form (strip text).
Proof.
  intros (core & t & Hs & [-> | ->] & Hform)%validate_target_forms.
  - by rewrite Hs, app_nil_r.
  - exfalso. assert (last (strip text) = Some LF) as Hlast.
    { by rewrite Hs, last_snoc. }
    by apply last_strip in Hlast.
Qed.

(** X1. [validate_target] accepts exactly the usernames ([@] and 5 to 32 word
    characters) and the links ([http://t.me/] or [https://t.me/], one or more
    word or [+] characters, an optional slash), each as it is or followed by
    one line feed; on a stripped text, as [report_target] calls it, exactly
    the usernames and the links. *)
Theorem validate_target_exact (s : pystr) :
  (validate_target s = true ↔
   ∃ core t, s = core ++ t ∧ (t = [] ∨ t = [LF]) ∧ target_form core)
  ∧ (validate_target (strip s) = true ↔ target_form (strip s)).
Proof.
  split; [apply validate_target_forms|]. split; [apply validate_strip_form|].
  intros Hform. apply validate_target_forms.
  exists (strip s), []. rewrite app_nil_r. auto.
Qed.

End Exact.

(** ** What every reachable world keeps *)

Section Kept.
Context {U : Unicode} {D : Deploy}.

(** A family of properties of the draft that every handler keeps holds in
    every reachable world. *)
Lemma kept_in_reachable (P : cstate → gmap string pystr → Prop) :
  (∀ st u h, pick st u = Some h → keeps P (uid (effective_user u)) st h) →
  ∀ w, reachable w → ∀ v st, conversations w !! v = Some st → P st (data_of v w).
Proof.
  intros Hkeeps w Hw. induction Hw as [w Hw|w u _ IH]; intros v st Hv.
  { by rewrite Hw, lookup_empty in Hv. }
  destruct (decide (v = uid (effective_user u))) as [->|Hne].
  2:{ destruct (handle_update_other u w v Hne) as [Hc Hd].
      rewrite Hd. apply IH. by rewrite <-Hc. }
  revert Hv. unfold handle_update.
  destruct (pick _ u) as [h|] eqn:Hpick; [|apply IH].
  pose proof (Hkeeps _ _ _ Hpick w) as Hk.
  destruct (local_pick _ _ _ Hpick w) as [Hc _].
  assert (match conversations w !! uid (effective_user u) with
          | Some s => P s (data_of (uid (effective_user u)) w)
          | None => True
          end) as Hpre.
  { destruct (conversations w !! uid (effective_user u)) eqn:Hst; [|done]. by apply IH. }
  specialize (Hk Hpre). destruct (h w) as [[[st'|]|e] w1]; simpl in *.
  - rewrite lookup_insert_eq. by intros [= <-].
  - by rewrite lookup_delete_eq.
  - rewrite Hc. intros Hst. by rewrite Hst in Hk.
Qed.

Lemma target_checked_insert key v d :
  key ≠ "report_target" → target_checked d → target_checked (<[key := v]> d).
Proof. intros Hk (t & Ht & Hform). exists t. by rewrite lookup_insert_ne. Qed.

Lemma checked_report_target user text :
  keeps draft_checked (uid user) (Some REPORT_TARGET) (report_target user text).
Proof.
  intros w Hd. simpl in Hd. destruct (validate_target (strip text)) eqn:Hv.
  - rewrite report_target_valid by done. simpl.
    rewrite data_of_say, data_of_with_data. split; [by apply typed_insert|].
    exists (strip text). split; [by rewrite lookup_insert_eq|].
    by apply validate_strip_form.
  - by rewrite report_target_invalid.
Qed.

Lemma checked_report_type_callback user data :
  keeps draft_checked (uid user) (Some REPORT_TYPE) (report_type_callback user data).
Proof.
  intros w _. destruct (decide (data = py "cancel")) as [->|Hne]; [done|].
  rewrite report_type_callback_run by done.
  destruct (dict_get REPORT_TYPES (remove_all (py "type_") data)) as [label|] eqn:Hlabel;
    [|done].
  cbn [fst snd]. rewrite data_of_say, data_of_with_data.
  eexists _, label. by rewrite lookup_insert_eq.
Qed.

Lemma checked_report_reason_callback user data :
  keeps draft_checked (uid user) (Some REPORT_REASON) (report_reason_callback user data).
Proof.
  intros w [Hty Htarget]. destruct (decide (data = py "cancel")) as [->|Hne]; [done|].
  rewrite report_reason_callback_run by done.
  cbn [fst snd]. rewrite data_of_say, data_of_with_data.
  split; [by apply typed_insert|]. split; [by apply target_checked_insert|].
  apply is_Some_insert_eq.
Qed.

Lemma checked_confirm_after_details user v w :
  (length v ≤ MAX_REPORT_LENGTH)%nat →
  draft_checked REPORT_DETAILS (data_of (uid user) w) →
  let w1 := with_data (uid user) (<["report_details" := v]> (data_of (uid user) w)) w in
  match (confirm_report user true w1).1 with
  | Ok (Goto st') => draft_checked st' (data_of (uid user) (confirm_report user true w1).2)
  | Ok END => True
  | Raise _ => draft_checked REPORT_DETAILS (data_of (uid user) (confirm_report user true w1).2)
  end.
Proof.
  intros Hlen (Hty & Htarget & Hreason) w1.
  assert (draft_checked CONFIRMATION (data_of (uid user) w1)) as Hok.
  { unfold w1. rewrite data_of_with_data.
    split; [by apply typed_insert|]. split; [by apply target_checked_insert|].
    split; [by apply is_Some_insert_ne|]. exists v. by rewrite lookup_insert_eq. }
  destruct (confirm_report_cases user true w1)
    as [(e & ->)|(ty & label & target & reason & details & ? & ? & ? & ? & ?)].
  - simpl. destruct Hok as (? & ? & ? & _). done.
  - by erewrite confirm_report_ok.
Qed.

Lemma checked_report_details user text :
  keeps draft_checked (uid user) (Some REPORT_DETAILS) (report_details user text).
Proof.
  intros w Hd. destruct (decide (MAX_REPORT_LENGTH < length (strip text))%nat).
  - by rewrite report_details_too_long.
  - rewrite report_details_fits by lia. apply checked_confirm_after_details; [lia|done].
Qed.

Lemma checked_skip_details user :
  keeps draft_checked (uid user) (Some REPORT_DETAILS) (skip_details user).
Proof.
  intros w Hd. rewrite skip_details_run.
  apply checked_confirm_after_details; [vm_compute; lia|done].
Qed.

Lemma checked_confirmation_callback user data :
  keeps draft_checked (uid user) (Some CONFIRMATION) (confirmation_callback user data).
Proof.
  intros w ((ty & label & Hty & Hlabel) & (target & Htarget & _) & [reason Hreason]
            & (details & Hdetails & _)).
  destruct (decide (data = py "cancel")) as [->|Hne]; [done|].
  destruct (confirmation_confirm_run user data w ty label target reason details)
    as (w1 & tr & -> & _); done.
Qed.

Lemma checked_pick st u h :
  pick st u = Some h → keeps draft_checked (uid (effective_user u)) st h.
Proof.
  destruct u as [user c]. unfold pick, entry_points, states, fallbacks. simpl.
  intros Hpick.
  assert (∀ st, keeps draft_checked (uid user) st (cancel user)) as Hcancel
    by by intros ? ? ?.
  destruct st as [st|].
  - destruct st, c as [name|text|data]; simpl in Hpick;
      repeat case_bool_decide; repeat case_match; simplify_eq;
      auto using checked_report_type_callback, checked_report_target,
        checked_report_reason_callback, checked_report_details, checked_skip_details,
        checked_confirmation_callback.
  - destruct c as [name|text|data]; simpl in Hpick;
      repeat case_bool_decide; simplify_eq.
    intros w _.
    destruct (user_cooldowns w !! uid user) as [eligible_at|] eqn:Hcd.
    + destruct (decide (next_reading w < eligible_at)%Z).
      * by rewrite (report_command_blocked _ _ eligible_at).
      * rewrite (report_command_elapsed _ _ eligible_at); [done|done|lia].
    + by rewrite report_command_free.
Qed.


End Kept.

(** ** What a handler leaves alone *)

Section Frames.
Context {U : Unicode} {D : Deploy}.

Lemma preserves_ret {R : relation world} `{!PreOrder R} {A} (a : A) : preserves R (mret a).
Proof. intros w. reflexivity. Qed.

Lemma preserves_raise {R : relation world} `{!PreOrder R} {A} e : preserves R (@raise A e).
Proof. intros w. reflexivity. Qed.

Lemma preserves_bind {R : relation world} `{!PreOrder R} {A B} (m : M A) (f : A → M B) :
  preserves R m → (∀ a, preserves R (f a)) → preserves R (m ≫= f).
Proof.
  intros Hm Hf w. unfold mbind, M_bind. specialize (Hm w).
  destruct (m w) as [[a|e] w1]; simpl in *; [|done].
  etrans; [exact Hm|apply Hf].
Qed.

Lemma preserves_try {R : relation world} `{!PreOrder R} body handler :
  preserves R body → (∀ e, preserves R (handler e)) → preserves R (try_except body handler).
Proof.
  intros Hb Hh w. unfold try_except. specialize (Hb w).
  destruct (body w) as [[a|e] w1]; simpl in *; [done|].
  etrans; [exact Hb|apply Hh].
Qed.

Lemma preserves_for_each {R : relation world} `{!PreOrder R} {A} (xs : list A) body :
  (∀ x, preserves R (body x)) → preserves R (for_each xs body).
Proof.
  intros Hb. induction xs as [|x xs IH]; simpl.
  - apply preserves_ret.
  - apply preserves_bind; [apply Hb|done].
Qed.

Lemma preserves_get_item {R : relation world} `{!PreOrder R} u key :
  preserves R (get_item u key).
Proof. intros w. unfold get_item. destruct (data_of u w !! key); reflexivity. Qed.

Lemma preserves_lookup_dict {R : relation world} `{!PreOrder R} d key : preserves R (lookup_dict d key).
Proof.
  unfold lookup_dict. destruct (dict_get d key); [apply preserves_ret|apply preserves_raise].
Qed.

Lemma preserves_get_cooldown {R : relation world} `{!PreOrder R} u : preserves R (get_cooldown u).
Proof. intros w. reflexivity. Qed.

Global Instance quietly_preorder : PreOrder quietly.
Proof.
  split.
  - by intros w.
  - intros w1 w2 w3 [H1 H2] [H3 H4]. split; congruence.
Qed.

Global Instance cooldowns_but_preorder u : PreOrder (cooldowns_but u).
Proof.
  split.
  - by intros w v.
  - intros w1 w2 w3 H1 H2 v Hv. rewrite H2, H1; done.
Qed.

(** The leaves: what each primitive keeps. *)
Lemma quietly_emit a :
  (∀ chat_id text markup ok, a ≠ SendMessage chat_id text markup ok) →
  preserves quietly (emit a).
Proof.
  intros Ha w. split; [|done]. simpl. rewrite sends_app.
  destruct a; simpl; try by rewrite app_nil_r. by destruct (Ha chat_id text reply_markup delivered).
Qed.

Lemma quietly_now : preserves quietly datetime_now.
Proof. by intros w. Qed.

Lemma quietly_set_item u key v : preserves quietly (set_item u key v).
Proof. by intros w. Qed.

Lemma quietly_clear u : preserves quietly (clear u).
Proof. by intros w. Qed.

Lemma cooldowns_but_emit u a : preserves (cooldowns_but u) (emit a).
Proof. by intros w v. Qed.

Lemma cooldowns_but_send u chat_id text markup :
  preserves (cooldowns_but u) (send_message chat_id text markup).
Proof. by intros w v. Qed.

Lemma cooldowns_but_now u : preserves (cooldowns_but u) datetime_now.
Proof. by intros w v. Qed.

Lemma cooldowns_but_set_item u u' key v : preserves (cooldowns_but u) (set_item u' key v).
Proof. by intros w v'. Qed.

Lemma cooldowns_but_clear u u' : preserves (cooldowns_but u) (clear u').
Proof. by intros w v. Qed.

Lemma cooldowns_but_set_cooldown u t : preserves (cooldowns_but u) (set_cooldown u t).
Proof. intros w v Hv. simpl. by rewrite lookup_insert_ne. Qed.

Create HintDb frame_db.

#[local] Hint Resolve preserves_ret preserves_raise preserves_lookup_dict preserves_get_item
  preserves_get_cooldown quietly_now quietly_set_item quietly_clear
  cooldowns_but_emit cooldowns_but_send cooldowns_but_now cooldowns_but_set_item
  cooldowns_but_clear cooldowns_but_set_cooldown : frame_db.

(** Takes a handler apart, one bind at a time, down to the leaves. *)
Ltac framing :=
  repeat first
    [ progress (unfold answer, reply_text, edit_message_text, logger_error)
    | apply preserves_bind; [|intros ?]
    | apply preserves_try; [|intros ?]
    | apply preserves_for_each; intros ?
    | apply quietly_emit; discriminate
    | solve [eauto with frame_db typeclass_instances]
    | match goal with
      | |- preserves _ (if ?b then _ else _) => destruct b
      | |- preserves _ (match ?x with _ => _ end) => destruct x
      end ].

Lemma quietly_cancel user : preserves quietly (cancel user).
Proof. unfold cancel. framing. Qed.

(** Outside the confirmation no handler of the conversation delivers anything
    or sets a cooldown. *)
Lemma quietly_pick st u h :
  pick st u = Some h → st ≠ Some CONFIRMATION → preserves quietly h.
Proof.
  destruct u as [user c]. unfold pick, entry_points, states, fallbacks. simpl.
  intros Hpick Hst. pose proof (quietly_cancel user) as Hcancel.
  destruct st as [st|].
  - destruct st, c as [name|text|data]; simpl in Hpick;
      repeat case_bool_decide; repeat case_match; simplify_eq; try done.
    + unfold report_type_callback. framing.
    + unfold report_target. framing.
    + unfold report_reason_callback. framing.
    + unfold skip_details. framing.
    + unfold report_details. framing.
  - destruct c as [name|text|data]; simpl in Hpick;
      repeat case_bool_decide; simplify_eq.
    unfold report_command. framing.
Qed.

Lemma cooldowns_but_pick st u h :
  pick st u = Some h → preserves (cooldowns_but (uid (effective_user u))) h.
Proof.
  destruct u as [user c]. unfold pick, entry_points, states, fallbacks. simpl.
  intros Hpick.
  assert (preserves (cooldowns_but (uid user)) (cancel user)) as Hcancel.
  { unfold cancel. framing. }
  destruct st as [st|].
  - destruct st, c as [name|text|data]; simpl in Hpick;
      repeat case_bool_decide; repeat case_match; simplify_eq; try done.
    + unfold report_type_callback. framing.
    + unfold report_target. framing.
    + unfold report_reason_callback. framing.
    + unfold skip_details. framing.
    + unfold report_details. framing.
    + unfold confirmation_callback. framing.
  - destruct c as [name|text|data]; simpl in Hpick;
      repeat case_bool_decide; simplify_eq.
    unfold report_command. framing.
Qed.

End Frames.

(** ** The whole application *)

Section App.
Context {U : Unicode} {D : Deploy}.

(** *** Which button goes where *)

Lemma alt_prefix_shape (a b : string) (s : pystr) :
  re_match (cat [Bol; Alt (lit a) (lit b)]) s = true ↔
  startswith s (py a) = true ∨ startswith s (py b) = true.
Proof.
  unfold re_match. rewrite rmatch_cat_cons, rmatch_Bol, rmatch_cat_cons, rmatch_Alt.
  rewrite !rmatch_lit, !startswith_spec. split.
  - intros (_ & [(t & -> & _)|(t & -> & _)]); eauto.
  - intros [[t ->]|[t ->]]; (split; [done|]); eauto.
Qed.

Lemma confirm_shape (s : pystr) :
  re_match pat_confirm s = true ↔
  ∃ t, (s = py "confirm" ++ t ∨ s = py "cancel" ++ t) ∧ (t = [] ∨ t = [LF]).
Proof.
  unfold re_match, pat_confirm.
  rewrite rmatch_cat_cons, rmatch_Bol, rmatch_cat_cons, rmatch_Alt, !rmatch_lit.
  split.
  - intros (_ & [(t & -> & H)|(t & -> & H)]);
      rewrite rmatch_cat_cons in H; apply rmatch_Eol in H as [Ht%at_eol_spec _]; eauto.
  - intros (t & Hs & Ht%at_eol_spec). split; [done|].
    destruct Hs as [-> | ->]; [left|right]; exists t; (split; [done|]);
      rewrite rmatch_cat_cons; by apply rmatch_Eol.
Qed.

(** No callback data is for the administrators' handler and for a step of the
    conversation at once. *)
Lemma admin_data_not_picked st user data :
  re_match pat_admin data = true → pick st (Update user (Callback data)) = None.
Proof.
  intros Hadmin. apply alt_prefix_shape in Hadmin.
  assert (re_match pat_type data = false) as Htype.
  { apply not_true_is_false. intros H%alt_prefix_shape.
    destruct Hadmin as [[t ->]%startswith_spec|[t ->]%startswith_spec];
      destruct H as [H|H]; vm_compute in H; discriminate H. }
  assert (re_match pat_reason data = false) as Hreason.
  { apply not_true_is_false. intros H%alt_prefix_shape.
    destruct Hadmin as [[t ->]%startswith_spec|[t ->]%startswith_spec];
      destruct H as [H|H]; vm_compute in H; discriminate H. }
  assert (re_match pat_confirm data = false) as Hconfirm.
  { apply not_true_is_false. intros (t & H & _)%confirm_shape.
    destruct Hadmin as [[t' ->]%startswith_spec|[t' ->]%startswith_spec];
      destruct H as [H|H]; vm_compute in H; discriminate H. }
  unfold pick, entry_points, states, fallbacks. simpl.
  destruct st as [[]|]; simpl; by rewrite ?Htype, ?Hreason, ?Hconfirm.
Qed.

Lemma admin_callback_run message_text data w :
  re_match pat_admin data = true →
  admin_callback message_text data w =
  (Ok (),
   say (EditMessageText
          (message_text ++ if startswith data (py "resolve") then resolved_note
                           else rejected_note) None)
     (say AnswerQuery w)).
Proof.
  intros [H|H]%alt_prefix_shape; unfold admin_callback, answer, edit_message_text, emit,
    mbind, M_bind; cbn [fst snd].
  - by rewrite H.
  - rewrite H. by destruct (startswith data (py "resolve")).
Qed.

(** X3. A button of the administrators (callback data that begins with
    [resolve] or [reject], as both buttons of [admin_keyboard] do for every
    reporter) is never taken by the conversation, whatever state the
    presser's own conversation is in: it is answered, and the message is
    edited once, to its text followed by the note of the button, with no
    keyboard. Nothing else changes. *)
Theorem admin_button_annotates (i : incoming) (w : world) (data : pystr) :
  content (upd i) = Callback data →
  re_match pat_admin data = true →
  process_update i w =
    say (EditMessageText
           (message_text i ++ if startswith data (py "resolve") then resolved_note
                              else rejected_note) None)
      (say AnswerQuery w)
  ∧ ∀ user : user,
      re_match pat_admin (py "resolve_" ++ str_Z (uid user)) = true
      ∧ re_match pat_admin (py "reject_" ++ str_Z (uid user)) = true
      ∧ admin_keyboard user
        = [ [(py "✅ Resolve", py "resolve_" ++ str_Z (uid user));
             (py "❌ Reject", py "reject_" ++ str_Z (uid user))] ].
Proof.
  intros Hc Hadmin. split.
  - unfold process_update, is_command. destruct i as [[user c] fn mt].
    simpl in *. subst c. simpl.
    rewrite admin_data_not_picked by done. rewrite Hadmin.
    by rewrite admin_callback_run.
  - intros user. split; [|split; [|done]].
    + apply alt_prefix_shape. left. apply startswith_spec.
      by exists (py "_" ++ str_Z (uid user)).
    + apply alt_prefix_shape. right. apply startswith_spec.
      by exists (py "_" ++ str_Z (uid user)).
Qed.

(** *** What an update leaves alone *)

Lemma handle_update_cooldowns_but u w :
  cooldowns_but (uid (effective_user u)) w (handle_update u w).
Proof.
  unfold handle_update. destruct (pick _ u) as [h|] eqn:Hpick; [|done].
  pose proof (cooldowns_but_pick _ _ _ Hpick w) as H.
  destruct (h w) as [[[st'|]|e] w1]; exact H.
Qed.

Lemma handle_update_quietly u w :
  conversations w !! uid (effective_user u) ≠ Some CONFIRMATION →
  quietly w (handle_update u w).
Proof.
  intros Hst. unfold handle_update. destruct (pick _ u) as [h|] eqn:Hpick; [|done].
  pose proof (quietly_pick _ _ _ Hpick Hst w) as H.
  destruct (h w) as [[[st'|]|e] w1]; exact H.
Qed.

(** The update is handled outside the conversation: by [start], by
    [help_command], by [my_reports], by [admin_callback], or by nothing. *)
Lemma process_update_cases (i : incoming) (w : world) :
  process_update i w = handle_update (upd i) w
  ∨ (∃ tr, process_update i w
           = World (conversations w) (user_data w) (user_cooldowns w)
               (time w) (ticks w) (net w) (trace w ++ tr)
           ∧ sends tr = [] ∧ logs tr = []).
Proof.
  unfold process_update.
  destruct (is_command "start" (upd i)); [right; by exists [ReplyText (welcome_text (first_name i)) None]|].
  destruct (is_command "help" (upd i)); [right; by exists [ReplyText help_text None]|].
  destruct (is_command "myreports" (upd i)); [right; by exists [ReplyText my_reports_text None]|].
  destruct (pick _ (upd i)) as [h|] eqn:Hpick; [by left|]. right.
  assert (w = World (conversations w) (user_data w) (user_cooldowns w)
                (time w) (ticks w) (net w) (trace w ++ [])) as Hw.
  { rewrite app_nil_r. by destruct w. }
  destruct (content (upd i)) as [name|text|data]; try by exists [].
  destruct (re_match pat_admin data) eqn:Hadmin; [|by exists []].
  rewrite admin_callback_run by done.
  eexists [AnswerQuery; EditMessageText _ None]. split; [|done].
  unfold say. simpl. by rewrite <-app_assoc.
Qed.

(** X4. An update of one user leaves every other user's conversation, data
    and cooldown as they were. *)
Theorem other_users_untouched (i : incoming) (w : world) (v : Z) :
  v ≠ uid (effective_user (upd i)) →
  conversations (process_update i w) !! v = conversations w !! v
  ∧ data_of v (process_update i w) = data_of v w
  ∧ user_cooldowns (process_update i w) !! v = user_cooldowns w !! v.
Proof.
  intros Hv. destruct (process_update_cases i w) as [-> | (tr & -> & _ & _)]; [|done].
  destruct (handle_update_other (upd i) w v Hv) as [Hc Hd].
  split; [done|]. split; [done|]. by apply handle_update_cooldowns_but.
Qed.

(** X5. Unless the sender's conversation is at the confirmation, no update
    delivers a report or changes a cooldown. *)
Theorem only_confirmation_delivers (i : incoming) (w : world) :
  conversations w !! uid (effective_user (upd i)) ≠ Some CONFIRMATION →
  sends (trace (process_update i w)) = sends (trace w)
  ∧ user_cooldowns (process_update i w) = user_cooldowns w.
Proof.
  intros Hst. destruct (process_update_cases i w) as [-> | (tr & -> & Htr & _)].
  - by apply handle_update_quietly.
  - simpl. by rewrite sends_app, Htr, app_nil_r.
Qed.

(** *** One step at a time *)

Ltac stepping :=
  repeat first
    [ apply returns_bind; intros ?
    | apply returns_ret; first [exact I | left; reflexivity | right; reflexivity]
    | match goal with
      | |- returns (if ?b then _ else _) _ => destruct b
      | |- returns (match ?x with _ => _ end) _ => destruct x
      end ].

Lemma pick_allowed st u h : pick st u = Some h → returns h (allowed st).
Proof.
  destruct u as [user c]. unfold pick, entry_points, states, fallbacks. simpl.
  intros Hpick.
  assert (∀ st, returns (cancel user) (allowed st)) as Hcancel.
  { intros ?. unfold cancel. stepping. }
  destruct st as [st|].
  - destruct st, c as [name|text|data]; simpl in Hpick;
      repeat case_bool_decide; repeat case_match; simplify_eq;
      lazymatch goal with
      | |- returns (cancel _) _ => apply Hcancel
      | |- returns (report_type_callback _ _) _ => unfold report_type_callback
      | |- returns (report_target _ _) _ => unfold report_target
      | |- returns (report_reason_callback _ _) _ => unfold report_reason_callback
      | |- returns (skip_details _) _ => unfold skip_details
      | |- returns (report_details _ _) _ => unfold report_details
      | |- returns (confirmation_callback _ _) _ => unfold confirmation_callback
      end; stepping.
  - destruct c as [name|text|data]; simpl in Hpick;
      repeat case_bool_decide; simplify_eq.
    unfold report_command. stepping.
Qed.

(** X6. After any update the sender's conversation is where it was, or one
    step further ([None], type, target, reason, details, confirmation,
    [None]), or over: no step is skipped and none is taken back. *)
Theorem flow_is_linear (i : incoming) (w : world) :
  let v := uid (effective_user (upd i)) in
  let st := conversations w !! v in
  let st' := conversations (process_update i w) !! v in
  st' = st ∨ st' = after st ∨ st' = None.
Proof.
  intros v st st'. subst st'.
  destruct (process_update_cases i w) as [-> | (tr & -> & _ & _)]; [|by left].
  unfold handle_update. fold v. fold st.
  destruct (pick st (upd i)) as [h|] eqn:Hpick; [|by left].
  pose proof (pick_allowed _ _ _ Hpick w) as Hret.
  destruct (local_pick _ _ _ Hpick w) as [Hc _].
  destruct (h w) as [[[s|]|e] w1]; simpl in *.
  - rewrite lookup_insert_eq. destruct Hret; auto.
  - rewrite lookup_delete_eq. auto.
  - left. by rewrite Hc.
Qed.

(** X7. [/start], [/help] and [/myreports] are answered with their text at
    any moment, and leave the conversation, the draft and the cooldowns of
    the sender as they are. *)
Theorem outer_commands_keep_flow (i : incoming) (w : world) (name : string) :
  content (upd i) = Command name →
  name = "start" ∨ name = "help" ∨ name = "myreports" →
  process_update i w =
    say (ReplyText (if bool_decide (name = "start") then welcome_text (first_name i)
                    else if bool_decide (name = "help") then help_text
                    else my_reports_text) None) w.
Proof.
  intros Hc Hname. unfold process_update, is_command. rewrite Hc.
  destruct Hname as [-> | [-> | ->]]; repeat case_bool_decide; simplify_eq;
    reflexivity.
Qed.

End App.

(** ** The steps of the conversation *)

Section Steps.
Context {U : Unicode} {D : Deploy}.

(** An update that is no outer command and that the conversation picks goes
    to the conversation. *)
Lemma process_update_picked (i : incoming) (w : world) h :
  (∀ name, content (upd i) = Command name →
     name ≠ "start" ∧ name ≠ "help" ∧ name ≠ "myreports") →
  pick (conversations w !! uid (effective_user (upd i))) (upd i) = Some h →
  process_update i w = handle_update (upd i) w.
Proof.
  intros Hname Hpick. unfold process_update, is_command.
  destruct (content (upd i)) as [name|text|data] eqn:Hc; [|by rewrite Hpick..].
  destruct (Hname name eq_refl) as (? & ? & ?).
  rewrite !bool_decide_eq_false_2 by done. by rewrite Hpick.
Qed.

(** X8. Every cancel input (the [/cancel] command in any state, the cancel
    button where a keyboard shows it) ends the conversation with the one
    answer of its kind, and leaves the data of every user, the sender's
    draft included, and the cooldowns as they were: nothing is cleared. *)
Theorem cancel_clears_nothing (i : incoming) (st : cstate) (w : world) :
  conversations w !! uid (effective_user (upd i)) = Some st →
  is_cancel st (content (upd i)) = true →
  conversations (process_update i w) !! uid (effective_user (upd i)) = None
  ∧ user_data (process_update i w) = user_data w
  ∧ user_cooldowns (process_update i w) = user_cooldowns w
  ∧ trace (process_update i w) =
    trace w ++ match content (upd i) with
               | Command _ => [ReplyText operation_cancelled_text None]
               | _ => [AnswerQuery; EditMessageText cancelled_text None]
               end.
Proof.
  intros Hst Hc. destruct i as [[user c] fn mt]. simpl in *.
  destruct c as [name|text|data]; simpl in Hc; [|done|].
  - apply bool_decide_eq_true in Hc as ->.
    rewrite (process_update_picked _ _ (cancel user)); simpl.
    + unfold handle_update. simpl. rewrite Hst.
      destruct st; simpl; by rewrite lookup_delete_eq.
    + by intros name [= <-].
    + rewrite Hst. by destruct st.
  - apply andb_true_iff in Hc as [->%bool_decide_eq_true Hc].
    destruct st; try done.
    + rewrite (process_update_picked _ _ (report_type_callback user (py "cancel")));
        simpl; [|done|by rewrite Hst].
      unfold handle_update. simpl. rewrite Hst. simpl.
      by rewrite lookup_delete_eq, <-app_assoc.
    + rewrite (process_update_picked _ _ (report_reason_callback user (py "cancel")));
        simpl; [|done|by rewrite Hst].
      unfold handle_update. simpl. rewrite Hst. simpl.
      by rewrite lookup_delete_eq, <-app_assoc.
    + rewrite (process_update_picked _ _ (confirmation_callback user (py "cancel")));
        simpl; [|done|by rewrite Hst].
      unfold handle_update. simpl. rewrite Hst. simpl.
      by rewrite lookup_delete_eq, <-app_assoc.
Qed.

Lemma handle_skip user w :
  conversations w !! uid user = Some REPORT_DETAILS →
  handle_update (Update user (Command "skip")) w =
  match skip_details user w with
  | (Ok (Goto st), w') => set_state (uid user) (Some st) w'
  | (Ok END, w') => set_state (uid user) None w'
  | (Raise _, w') => w'
  end.
Proof. intros H. unfold handle_update. simpl. by rewrite H. Qed.


Lemma handle_type_button user data w :
  conversations w !! uid user = Some REPORT_TYPE →
  re_match pat_type data = true →
  handle_update (Update user (Callback data)) w =
  match report_type_callback user data w with
  | (Ok (Goto st), w') => set_state (uid user) (Some st) w'
  | (Ok END, w') => set_state (uid user) None w'
  | (Raise _, w') => w'
  end.
Proof. intros H Hm. unfold handle_update. simpl. rewrite H. simpl. by rewrite Hm. Qed.

(** X10. Callback data that passes the pattern of the type step but names no
    key of [REPORT_TYPES] (the pattern asks only for the prefix [type_] or
    [cancel]) makes [report_type_callback] raise [KeyError] after the query
    is answered and the unknown type is stored: the user gets no message and the
    conversation stays in the type step. *)
Theorem unknown_type_raises (user : user) (data : pystr) (w : world) :
  conversations w !! uid user = Some REPORT_TYPE →
  re_match pat_type data = true →
  data ≠ py "cancel" →
  dict_get REPORT_TYPES (remove_all (py "type_") data) = None →
  let w' := handle_update (Update user (Callback data)) w in
  (report_type_callback user data w).1 = Raise (KeyError (remove_all (py "type_") data))
  ∧ conversations w' !! uid user = Some REPORT_TYPE
  ∧ data_of (uid user) w' !! "report_type" = Some (remove_all (py "type_") data)
  ∧ trace w' = trace w ++ [AnswerQuery].
Proof.
  intros Hst Hm Hne Hkey w'. subst w'.
  rewrite handle_type_button by done.
  rewrite report_type_callback_run by done. rewrite Hkey. cbn [fst snd].
  split; [done|]. split; [done|]. split; [|done].
  rewrite data_of_with_data. apply lookup_insert_eq.
Qed.

Lemma handle_reason_button user data w :
  conversations w !! uid user = Some REPORT_REASON →
  re_match pat_reason data = true →
  handle_update (Update user (Callback data)) w =
  match report_reason_callback user data w with
  | (Ok (Goto st), w') => set_state (uid user) (Some st) w'
  | (Ok END, w') => set_state (uid user) None w'
  | (Raise _, w') => w'
  end.
Proof. intros H Hm. unfold handle_update. simpl. rewrite H. simpl. by rewrite Hm. Qed.

(** X18. The reason step checks nothing but the pattern: whatever callback
    data passes it and is not exactly [cancel] is stored as the reason, with
    every [reason_] in it removed, whether or not it is a key of [reasons],
    and the conversation moves on to the details. *)
Theorem any_reason_is_stored (user : user) (data : pystr) (w : world) :
  conversations w !! uid user = Some REPORT_REASON →
  re_match pat_reason data = true →
  data ≠ py "cancel" →
  let w' := handle_update (Update user (Callback data)) w in
  conversations w' !! uid user = Some REPORT_DETAILS
  ∧ data_of (uid user) w'
    = <["report_reason" := remove_all (py "reason_") data]> (data_of (uid user) w)
  ∧ trace w' = trace w ++ [AnswerQuery; EditMessageText provide_details_text None].
Proof.
  intros Hst Hm Hne w'. subst w'.
  rewrite handle_reason_button by done.
  rewrite report_reason_callback_run by done.
  split; [apply lookup_set_state|]. split.
  - unfold set_state, data_of. simpl. by rewrite lookup_insert_eq.
  - simpl. by rewrite <-app_assoc.
Qed.

Lemma type_button_decodes (label data : pystr) :
  (label, data) ∈ concat type_keyboard →
  re_match pat_type data = true
  ∧ (data = py "cancel"
     ∨ dict_get REPORT_TYPES (remove_all (py "type_") data) = Some label).
Proof.
  intros Hin. vm_compute in Hin.
  repeat (apply elem_of_cons in Hin as [[= -> ->]|Hin];
          [split; [by vm_compute|]; first [by left; vm_compute | by right; vm_compute]|]).
  by apply elem_of_nil in Hin.
Qed.

(** X11. Every button the bot shows is understood where it is shown: the
    data of each button of the type keyboard, of the reason keyboard and of
    the confirmation keyboard passes the pattern of its step; a type button
    is the cancel button or decodes to the key of [REPORT_TYPES] whose label
    it bears, and a reason button is the cancel button or decodes to the key
    of [reasons] whose label it bears. *)
Theorem buttons_are_understood (label data : pystr) :
  ((label, data) ∈ concat type_keyboard →
     re_match pat_type data = true
     ∧ (data = py "cancel"
        ∨ dict_get REPORT_TYPES (remove_all (py "type_") data) = Some label))
  ∧ ((label, data) ∈ concat reason_keyboard →
     re_match pat_reason data = true
     ∧ (data = py "cancel"
        ∨ dict_get reasons (remove_all (py "reason_") data) = Some label))
  ∧ ((label, data) ∈ concat confirm_keyboard →
     re_match pat_confirm data = true
     ∧ (data = py "cancel" ∨ data = py "confirm")).
Proof.
  split; [|split]; intros Hin.
  - by apply type_button_decodes.
  - vm_compute in Hin.
    repeat (apply elem_of_cons in Hin as [[= -> ->]|Hin];
            [split; [by vm_compute|]; first [by left; vm_compute | by right; vm_compute]|]).
    by apply elem_of_nil in Hin.
  - vm_compute in Hin.
    repeat (apply elem_of_cons in Hin as [[= -> ->]|Hin];
            [split; [by vm_compute|]; first [by left; vm_compute | by right; vm_compute]|]).
    by apply elem_of_nil in Hin.
Qed.

Lemma rejected_targets user (texts : list pystr) w :
  conversations w !! uid user = Some REPORT_TARGET →
  Forall (λ t, validate_target (strip t) = false) texts →
  let w' := run (map (λ t, Update user (Text t)) texts) w in
  conversations w' !! uid user = Some REPORT_TARGET
  ∧ user_data w' = user_data w
  ∧ user_cooldowns w' = user_cooldowns w
  ∧ trace w' = trace w ++ map (λ _, ReplyText invalid_format_text None) texts.
Proof.
  intros Hst Hall. revert w Hst.
  induction Hall as [|t texts Ht _ IH]; intros w Hst; simpl.
  - by rewrite app_nil_r.
  - unfold run in *. simpl.
    destruct (IH (handle_update (Update user (Text t)) w)) as (H1 & H2 & H3 & H4).
    { rewrite handle_text_target by done. rewrite report_target_invalid by done.
      apply lookup_set_state. }
    split; [done|]. rewrite H2, H3, H4.
    rewrite handle_text_target by done. rewrite report_target_invalid by done.
    simpl. by rewrite <-app_assoc.
Qed.

Lemma rejected_details user (texts : list pystr) w :
  conversations w !! uid user = Some REPORT_DETAILS →
  Forall (λ t, (MAX_REPORT_LENGTH < length (strip t))%nat) texts →
  let w' := run (map (λ t, Update user (Text t)) texts) w in
  conversations w' !! uid user = Some REPORT_DETAILS
  ∧ user_data w' = user_data w
  ∧ user_cooldowns w' = user_cooldowns w
  ∧ trace w' = trace w ++ map (λ _, ReplyText too_long_text None) texts.
Proof.
  intros Hst Hall. revert w Hst.
  induction Hall as [|t texts Ht _ IH]; intros w Hst; simpl.
  - by rewrite app_nil_r.
  - unfold run in *. simpl.
    destruct (IH (handle_update (Update user (Text t)) w)) as (H1 & H2 & H3 & H4).
    { rewrite handle_text_details by done. rewrite report_details_too_long by done.
      apply lookup_set_state. }
    split; [done|]. rewrite H2, H3, H4.
    rewrite handle_text_details by done. rewrite report_details_too_long by done.
    simpl. by rewrite <-app_assoc.
Qed.

(** X12. The target step and the details step ask again as often as needed:
    after any number of messages in a row that the step rejects (targets
    that do not validate once stripped; details longer than the maximum once
    stripped), the conversation is still in the step, the data and cooldowns
    are as they were, and each message got exactly one answer. *)
Theorem rejected_messages_keep_the_step (user : user) (st : cstate)
    (texts : list pystr) (w : world) :
  conversations w !! uid user = Some st →
  (st = REPORT_TARGET ∧ Forall (λ t, validate_target (strip t) = false) texts
   ∨ st = REPORT_DETAILS ∧ Forall (λ t, (MAX_REPORT_LENGTH < length (strip t))%nat) texts) →
  let w' := run (map (λ t, Update user (Text t)) texts) w in
  conversations w' !! uid user = Some st
  ∧ user_data w' = user_data w
  ∧ user_cooldowns w' = user_cooldowns w
  ∧ trace w' = trace w ++ map (λ _, ReplyText (rejection st) None) texts.
Proof.
  intros Hst [[-> Hall]|[-> Hall]].
  - by apply rejected_targets.
  - by apply rejected_details.
Qed.

Lemma data_of_set_state u v st w : data_of u (set_state v st w) = data_of u w.
Proof. done. Qed.

Lemma trace_set_state v st w : trace (set_state v st w) = trace w.
Proof. done. Qed.

(** X19. The whole way to the summary. For a user with no conversation and
    no cooldown: [/report], a type button, a target that validates once
    stripped, any reason that passes the pattern and details within the
    maximum once stripped bring the conversation to the confirmation; the
    draft is the user's data with the four values stored over it, and the
    bot has sent the seven answers of these steps, the last one the summary
    of exactly these values. *)
Theorem complete_flow_reaches_confirmation (user : user) (w : world)
    (label tdata target rdata details : pystr) :
  conversations w !! uid user = None →
  user_cooldowns w !! uid user = None →
  (label, tdata) ∈ concat type_keyboard → tdata ≠ py "cancel" →
  validate_target (strip target) = true →
  re_match pat_reason rdata = true → rdata ≠ py "cancel" →
  (length (strip details) ≤ MAX_REPORT_LENGTH)%nat →
  let ty := remove_all (py "type_") tdata in
  let reason := remove_all (py "reason_") rdata in
  let w' := run [ Update user (Command "report");
                  Update user (Callback tdata);
                  Update user (Text target);
                  Update user (Callback rdata);
                  Update user (Text details) ] w in
  conversations w' !! uid user = Some CONFIRMATION
  ∧ data_of (uid user) w'
    = <["report_details" := strip details]>
        (<["report_reason" := reason]>
           (<["report_target" := strip target]>
              (<["report_type" := ty]> (data_of (uid user) w))))
  ∧ trace w'
    = trace w
      ++ [ ReplyText choose_type_text (Some type_keyboard);
           AnswerQuery;
           EditMessageText (selected_type_text label ty) None;
           ReplyText select_reason_text (Some reason_keyboard);
           AnswerQuery;
           EditMessageText provide_details_text None;
           ReplyText (summary_text label (strip target) reason (strip details))
             (Some confirm_keyboard) ].
Proof.
  intros Hst Hcd Hbutton Htne Hvalid Hreason Hrne Hlen ty reason w'.
  destruct (type_button_decodes label tdata Hbutton) as [Htype [Hc|Hlabel]]; [done|].
  fold ty in Hlabel. subst w'. unfold run. cbn [foldl].
  (* /report *)
  set (w1 := handle_update (Update user (Command "report")) w).
  assert (conversations w1 !! uid user = Some REPORT_TYPE
          ∧ data_of (uid user) w1 = data_of (uid user) w
          ∧ trace w1 = trace w ++ [ReplyText choose_type_text (Some type_keyboard)])
    as (Hst1 & Hd1 & Htr1).
  { unfold w1. rewrite handle_report by done. rewrite report_command_free by done.
    split; [apply lookup_set_state|done]. }
  (* the type *)
  set (w2 := handle_update (Update user (Callback tdata)) w1).
  assert (conversations w2 !! uid user = Some REPORT_TARGET
          ∧ data_of (uid user) w2 = <["report_type" := ty]> (data_of (uid user) w)
          ∧ trace w2 = trace w1 ++ [AnswerQuery; EditMessageText (selected_type_text label ty) None])
    as (Hst2 & Hd2 & Htr2).
  { unfold w2. rewrite handle_type_button by done.
    rewrite report_type_callback_run by done. fold ty. rewrite Hlabel.
    split; [apply lookup_set_state|].
    rewrite data_of_set_state, data_of_say, data_of_with_data, Hd1.
    split; [done|]. rewrite trace_set_state. simpl. by rewrite <-app_assoc. }
  (* the target *)
  set (w3 := handle_update (Update user (Text target)) w2).
  assert (conversations w3 !! uid user = Some REPORT_REASON
          ∧ data_of (uid user) w3
            = <["report_target" := strip target]> (<["report_type" := ty]> (data_of (uid user) w))
          ∧ trace w3 = trace w2 ++ [ReplyText select_reason_text (Some reason_keyboard)])
    as (Hst3 & Hd3 & Htr3).
  { unfold w3. rewrite handle_text_target by done. rewrite report_target_valid by done.
    split; [apply lookup_set_state|].
    rewrite data_of_set_state, data_of_say, data_of_with_data, Hd2. done. }
  (* the reason *)
  set (w4 := handle_update (Update user (Callback rdata)) w3).
  assert (conversations w4 !! uid user = Some REPORT_DETAILS
          ∧ data_of (uid user) w4
            = <["report_reason" := reason]>
                (<["report_target" := strip target]>
                   (<["report_type" := ty]> (data_of (uid user) w)))
          ∧ trace w4 = trace w3 ++ [AnswerQuery; EditMessageText provide_details_text None])
    as (Hst4 & Hd4 & Htr4).
  { unfold w4. rewrite handle_reason_button by done.
    rewrite report_reason_callback_run by done.
    split; [apply lookup_set_state|].
    rewrite data_of_set_state, data_of_say, data_of_with_data, Hd3.
    split; [done|]. rewrite trace_set_state. simpl. by rewrite <-app_assoc. }
  (* the details *)
  rewrite handle_text_details by done. rewrite report_details_fits by done.
  rewrite (confirm_report_ok user true _ ty label (strip target) reason (strip details));
    rewrite ?data_of_with_data, ?Hd4.
  - split; [apply lookup_set_state|].
    rewrite data_of_set_state, data_of_say, data_of_with_data. split; [done|].
    rewrite trace_set_state. simpl. rewrite Htr4, Htr3, Htr2, Htr1.
    by rewrite <-!app_assoc.
  - by rewrite !lookup_insert_ne, lookup_insert_eq by done.
  - done.
  - by rewrite !lookup_insert_ne, lookup_insert_eq by done.
  - by rewrite lookup_insert_ne, lookup_insert_eq by done.
  - by rewrite lookup_insert_eq.
Qed.

End Steps.

(** ** What a confirmed report leaves behind *)

Section Submitted.
Context {U : Unicode} {D : Deploy}.

Lemma logs_app a b : logs (a ++ b) = logs a ++ logs b.
Proof. apply omap_app. Qed.

Global Instance logged_preorder : PreOrder logged.
Proof.
  split.
  - intros w. exists []. by rewrite app_nil_r.
  - intros w1 w2 w3 (tr1 & H1 & L1) (tr2 & H2 & L2). exists (tr1 ++ tr2). split.
    + by rewrite H2, H1, app_assoc.
    + by rewrite logs_app, sends_app, omap_app, L1, L2.
Qed.

Lemma logged_same {A} (m : M A) : (∀ w, trace (m w).2 = trace w) → preserves logged m.
Proof. intros H w. exists []. by rewrite H, app_nil_r. Qed.

Lemma logged_emit a :
  match a with SendMessage _ _ _ _ | LogError _ => False | _ => True end →
  preserves logged (emit a).
Proof. intros Ha w. exists [a]. split; [done|]. by destruct a. Qed.

Lemma logged_attempt chat_id text markup line :
  line = log_line chat_id →
  preserves logged (try_except (send_message chat_id text markup) (λ _, logger_error line)).
Proof.
  intros -> w. unfold try_except, send_message.
  destruct (next_outcome w) eqn:Hok.
  - exists [SendMessage chat_id text markup true]. simpl. by rewrite Hok.
  - exists [SendMessage chat_id text markup false; LogError (log_line chat_id)].
    simpl. rewrite Hok. by rewrite <-app_assoc.
Qed.

Lemma log_line_channel channel :
  log_line (Channel channel) = py "Failed to send report to channel: ".
Proof. reflexivity. Qed.

Lemma log_line_private admin_id :
  log_line (Private admin_id)
  = py "Failed to send report to admin " ++ str_Z admin_id ++ py ": ".
Proof. reflexivity. Qed.

Lemma logged_notify_channel text channel : preserves logged (notify_channel text channel).
Proof.
  unfold notify_channel. rewrite <-(log_line_channel channel).
  by apply logged_attempt.
Qed.

Lemma logged_notify_admin user text admin_id :
  preserves logged (notify_admin user text admin_id).
Proof.
  unfold notify_admin. rewrite <-(log_line_private admin_id).
  by apply logged_attempt.
Qed.

Lemma logged_now : preserves logged datetime_now.
Proof. by apply logged_same. Qed.

Lemma logged_set_item u key v : preserves logged (set_item u key v).
Proof. by apply logged_same. Qed.

Lemma logged_clear u : preserves logged (clear u).
Proof. by apply logged_same. Qed.

Lemma logged_set_cooldown u t : preserves logged (set_cooldown u t).
Proof. by apply logged_same. Qed.

Create HintDb log_db.

#[local] Hint Resolve preserves_ret preserves_raise preserves_lookup_dict preserves_get_item
  preserves_get_cooldown logged_notify_channel logged_notify_admin logged_now
  logged_set_item logged_clear logged_set_cooldown : log_db.

Ltac logging :=
  repeat first
    [ progress (unfold answer, reply_text, edit_message_text)
    | apply preserves_bind; [|intros ?]
    | apply preserves_for_each; intros ?
    | lazymatch goal with
      | |- preserves _ (notify_admin _ _ _) => apply logged_notify_admin
      | |- preserves _ (notify_channel _ _) => apply logged_notify_channel
      | |- preserves _ (emit _) => apply logged_emit; exact I
      | |- preserves _ (if ?b then _ else _) => destruct b
      | |- preserves _ (match ?x with _ => _ end) => destruct x
      | |- _ => solve [eauto with log_db typeclass_instances]
      end ].

Lemma logged_pick st u h : pick st u = Some h → preserves logged h.
Proof.
  destruct u as [user c]. unfold pick, entry_points, states, fallbacks. simpl.
  intros Hpick.
  destruct st as [st|].
  - destruct st, c as [name|text|data]; simpl in Hpick;
      repeat case_bool_decide; repeat case_match; simplify_eq;
      lazymatch goal with
      | |- preserves _ (cancel _) => unfold cancel
      | |- preserves _ (report_type_callback _ _) => unfold report_type_callback
      | |- preserves _ (report_target _ _) => unfold report_target
      | |- preserves _ (report_reason_callback _ _) => unfold report_reason_callback
      | |- preserves _ (skip_details _) => unfold skip_details, confirm_report
      | |- preserves _ (report_details _ _) => unfold report_details, confirm_report
      | |- preserves _ (confirmation_callback _ _) =>
          unfold confirmation_callback, save_report
      end; logging.
  - destruct c as [name|text|data]; simpl in Hpick;
      repeat case_bool_decide; simplify_eq.
    unfold report_command. logging.
Qed.


Lemma report_text_contains t_id t_date user label target reason details :
  let text := report_text t_id t_date user label target reason details in
  contains text (full_name user) = true
  ∧ contains text (str_Z (uid user)) = true
  ∧ contains text label = true
  ∧ contains text target = true
  ∧ contains text (capitalize reason) = true
  ∧ contains text details = true.
Proof.
  unfold report_text. repeat split.
  - do 8 apply contains_app_r. apply contains_app_l, contains_self.
  - do 10 apply contains_app_r. apply contains_app_l, contains_self.
  - do 13 apply contains_app_r. apply contains_app_l, contains_self.
  - do 16 apply contains_app_r. apply contains_app_l, contains_self.
  - do 19 apply contains_app_r. apply contains_app_l, contains_self.
  - do 22 apply contains_app_r. apply contains_app_l, contains_self.
Qed.



End Submitted.

(** ** The administrators of [config.py] *)

Section Config.
Context {I : IntOther}.

Lemma split_on_free c seg : c ∉ seg → split_on c seg = [seg].
Proof.
  induction seg as [|x seg IH]; intros Hc; [done|].
  apply not_elem_of_cons in Hc as [Hx Hc]. simpl.
  destruct (N.eqb_spec x c) as [->|_]; [done|]. by rewrite IH.
Qed.

Lemma split_on_app c seg rest :
  c ∉ seg → split_on c (seg ++ c :: rest) = seg :: split_on c rest.
Proof.
  induction seg as [|x seg IH]; intros Hc; simpl.
  - by rewrite N.eqb_refl.
  - apply not_elem_of_cons in Hc as [Hx Hc].
    destruct (N.eqb_spec x c) as [->|_]; [done|]. by rewrite IH.
Qed.

(** Splitting what was joined gives the segments back. *)
Lemma split_on_join c segs :
  segs ≠ [] → Forall (λ seg, c ∉ seg) segs → split_on c (join_on c segs) = segs.
Proof.
  intros Hne Hall. induction Hall as [|seg segs Hseg Hall IH]; [done|].
  destruct segs as [|seg' segs]; [by apply split_on_free|].
  change (join_on c (seg :: seg' :: segs)) with (seg ++ c :: join_on c (seg' :: segs)).
  rewrite split_on_app by done. by rewrite IH.
Qed.

Lemma py_digit_cons d s :
  (d < 10)%N → py (String (pretty_N_char d) s) = (48 + d)%N :: py s.
Proof.
  intros Hd.
  assert (d = 0 ∨ d = 1 ∨ d = 2 ∨ d = 3 ∨ d = 4 ∨ d = 5
          ∨ d = 6 ∨ d = 7 ∨ d = 8 ∨ d = 9)%N as Hcases by lia.
  destruct Hcases as [->|[->|[->|[->|[->|[->|[->|[->|[->| ->]]]]]]]]]; reflexivity.
Qed.

Lemma digits_value_snoc ds d :
  digits_value (ds ++ [d]) = (digits_value ds * 10 + (Z.of_N d - 48))%Z.
Proof. unfold digits_value. by rewrite foldl_app. Qed.

(** The numeral of a natural number: its digits, most significant first. *)
Lemma pretty_N_go_digits x s :
  ∃ ds, py (pretty_N_go x s) = ds ++ py s
        ∧ forallb is_digit ds = true
        ∧ digits_value ds = Z.of_N x
        ∧ ((0 < x)%N → ds ≠ []).
Proof.
  revert s. induction (N.lt_wf_0 x) as [x _ IH]; intros s.
  assert (x = 0 ∨ 0 < x)%N as [->|Hx] by lia.
  - exists []. rewrite pretty_N_go_0. repeat split; (done || lia).
  - rewrite pretty_N_go_step by done.
    pose proof (N.div_lt x 10 Hx eq_refl) as Hlt.
    assert (x `mod` 10 < 10)%N as Hmod by (apply N.mod_lt; lia).
    pose proof (N.div_mod x 10 ltac:(lia)) as Hdm.
    remember (x `div` 10)%N as q eqn:Hq. remember (x `mod` 10)%N as d eqn:Hd.
    clear Hq Hd.
    destruct (IH q Hlt (String (pretty_N_char d) s)) as (ds & Hpy & Hdig & Hval & _).
    exists (ds ++ [48 + d])%N. split; [|split; [|split]].
    + rewrite Hpy, py_digit_cons by done. by rewrite <-app_assoc.
    + assert (is_digit (48 + d) = true) as Hdigit.
      { unfold is_digit. apply andb_true_iff. split; apply N.leb_le; lia. }
      rewrite forallb_app, Hdig. cbn [forallb andb]. by rewrite Hdigit.
    + rewrite digits_value_snoc, Hval. lia.
    + intros _. by destruct ds.
Qed.

Lemma plain_int_digits ds :
  ds ≠ [] → forallb is_digit ds = true → plain_int ds = Some (digits_value ds).
Proof.
  destruct ds as [|c ds]; [done|]. intros _ Hall.
  assert (plain_digits (c :: ds) = Some (digits_value (c :: ds))) as Hplain.
  { unfold plain_digits. by rewrite Hall. }
  apply andb_true_iff in Hall as [Hc _].
  apply andb_true_iff in Hc as [H1%N.leb_le H2%N.leb_le].
  assert (c = 48 ∨ c = 49 ∨ c = 50 ∨ c = 51 ∨ c = 52 ∨ c = 53
          ∨ c = 54 ∨ c = 55 ∨ c = 56 ∨ c = 57)%N as Hcases by lia.
  destruct Hcases as [->|[->|[->|[->|[->|[->|[->|[->|[->| ->]]]]]]]]]; exact Hplain.
Qed.

Lemma digits_no_comma ds : forallb is_digit ds = true → 44%N ∉ ds.
Proof.
  induction ds as [|c ds IH]; simpl; intros Hall Hin; [by apply elem_of_nil in Hin|].
  apply andb_true_iff in Hall as [Hc Hall].
  apply elem_of_cons in Hin as [<-|Hin]; [done|by apply IH].
Qed.

(** [int] reads back what [str] writes of an integer, and the numeral has no
    comma in it and is not empty. *)
Lemma py_int_str_Z z :
  py_int (str_Z z) = Some z ∧ (44%N ∉ str_Z z) ∧ str_Z z ≠ [].
Proof.
  unfold py_int, str_Z. destruct z as [|p|p].
  - split; [done|]. split; [|done]. by apply digits_no_comma.
  - change (pretty (Z.pos p)) with (pretty_N_go (N.pos p) EmptyString).
    destruct (pretty_N_go_digits (N.pos p) EmptyString) as (ds & Hpy & Hdig & Hval & Hne).
    rewrite app_nil_r in Hpy. rewrite Hpy.
    rewrite plain_int_digits by (done || apply Hne; lia).
    rewrite Hval. split; [done|]. split; [by apply digits_no_comma|apply Hne; lia].
  - change (pretty (Z.neg p)) with (String "-" (pretty_N_go (N.pos p) EmptyString)).
    change (py (String "-" ?s)) with (45%N :: py s).
    destruct (pretty_N_go_digits (N.pos p) EmptyString) as (ds & Hpy & Hdig & Hval & Hne).
    rewrite app_nil_r in Hpy. rewrite Hpy.
    assert (plain_digits ds = Some (digits_value ds)) as Hplain.
    { unfold plain_digits. rewrite Hdig. destruct ds; [|done]. destruct Hne; [lia|done]. }
    change (plain_int (45%N :: ds)) with (Z.opp <$> plain_digits ds).
    rewrite Hplain, Hval. split; [done|]. split; [|done].
    apply not_elem_of_cons. split; [done|by apply digits_no_comma].
Qed.

Lemma mapM_str_Z ids : mapM py_int (map str_Z ids) = Some ids.
Proof.
  apply mapM_Some. induction ids as [|z ids IH]; constructor; [|done].
  apply py_int_str_Z.
Qed.



End Config.

(** * The flow on concrete inputs

    The examples of the specification, run with the ASCII-only database and
    the deployment [demo]. The texts are ASCII, so no result here depends on
    what a database says outside ASCII. *)

#[local] Existing Instance ascii_only.
#[local] Existing Instance demo.

Example ex_user_ok : validate_target (py "@abcde") = true.
Proof. reflexivity. Qed.

Example ex_user_short : validate_target (py "@abcd") = false.
Proof. reflexivity. Qed.

Example ex_user_long : validate_target (py "@this_is_way_too_long_for_the_limit_xx") = false.
Proof. reflexivity. Qed.

Example ex_strip : strip (py "  @abcde \n") = py "@abcde".
Proof. reflexivity. Qed.

Example ex_py : py "👤⚠️•\n" = [128100; 9888; 65039; 8226; 10].
Proof. reflexivity. Qed.

Example ex_capitalize : capitalize (py "spam") = py "Spam".
Proof. reflexivity. Qed.

(** The summary at the end of the happy path. *)
Example happy_path_summary :
  let w := run happy_path fresh in
  conversations w !! uid alice = Some CONFIRMATION
  ∧ last (trace w) =
    Some (ReplyText
            (py "📋 **Please confirm your report:**\n\n"
             ++ py "**Type:** 👥 Group\n"
             ++ py "**Target:** https://t.me/examplegroup\n"
             ++ py "**Reason:** Spam\n"
             ++ py "**Details:** test")
            (Some confirm_keyboard)).
Proof. vm_compute. split; reflexivity. Qed.

(** With the type [user] the summary shows the label, not the stored value. *)
Example summary_shows_label :
  let summary := summary_text (py "👤 User") (py "@abcde") (py "spam") (py "test") in
  contains summary (py "👤 User") = true ∧ contains summary (py "user") = false.
Proof. vm_compute. split; reflexivity. Qed.

(** ** C3 *)

(** The claim as stated fails: a line feed after five word characters is
    outside the word class, and the string is accepted. *)
Lemma validate_accepts_trailing_newline :
  validate_target (py "@" ++ py "abcde\n") = true
  ∧ forallb is_word (py "abcde\n") = false.
Proof. vm_compute. split; reflexivity. Qed.

Lemma validate_username_witness :
  last (py "abcde") ≠ Some LF
  ∧ validate_target (py "@" ++ py "abcde") = true
  ∧ validate_target [] = false.
Proof.
  assert (last (py "abcde") ≠ Some LF) as Hnl by (vm_compute; discriminate).
  split; [exact Hnl|].
  destruct (validate_username (py "abcde") Hnl) as [Hiff Hempty].
  split; [|exact Hempty]. apply Hiff. split; [vm_compute; lia|reflexivity].
Defined.

(** ** C4 *)

Lemma validate_link_witness :
  validate_target (py "http" ++ py "s" ++ py "://t.me/" ++ py "name" ++ []) = true
  ∧ validate_target (py "https://t.me/+" ++ py "inviteCode") = true
  ∧ validate_target (py "ftp" ++ py "://" ++ py "t.me" ++ py "/" ++ py "name") = false
  ∧ validate_target (py "https://telegram.me") = false.
Proof.
  destruct validate_link as (Hlink & Hinvite & Hother & Hprefix & _).
  split; [|split; [|split]].
  - apply Hlink; [by right|vm_compute; discriminate|reflexivity|by left].
  - apply Hinvite; [vm_compute; discriminate|reflexivity].
  - apply Hother.
    + by apply (bool_decide_unpack _).
    + by apply (bool_decide_unpack _).
    + intros [[H|H] _]; vm_compute in H; discriminate H.
  - apply Hprefix; reflexivity.
Defined.

(** ** C10 *)

Lemma third_pattern_subsumed_witness :
  re_match pat_invite (py "https://t.me/+abc") = true
  ∧ re_match pat_link (py "https://t.me/+abc") = true.
Proof.
  destruct third_pattern_subsumed as [Hsub _].
  split; [reflexivity|]. apply Hsub. reflexivity.
Defined.

(** ** C2 *)

(** The claim as stated fails: details of 201 characters are accepted, the
    conversation reaches the confirmation, and the summary does not contain
    them. *)
Lemma summary_truncates_details :
  let details := replicate 201 97 in
  let w := run before_details fresh in
  let w' := handle_update (Update alice (Text details)) w in
  conversations w' !! uid alice = Some CONFIRMATION
  ∧ data_of (uid alice) w' !! "report_details" = Some details
  ∧ match last (trace w') with
    | Some (ReplyText summary _) => contains summary details
    | _ => true
    end = false.
Proof. vm_compute. repeat split. Qed.

Lemma summary_shows_draft_witness :
  let w := run before_details fresh in
  let w' := handle_update (Update alice (Text (py "test"))) w in
  ∃ summary,
    trace w' = trace w ++ [ReplyText summary (Some confirm_keyboard)]
    ∧ contains summary (py "👥 Group") = true
    ∧ contains summary (py "https://t.me/examplegroup") = true
    ∧ contains summary (py "Spam") = true
    ∧ contains summary (py "test") = true.
Proof.
  intros w w'.
  assert (conversations w !! uid alice ≠ Some CONFIRMATION) as Hst
    by (vm_compute; discriminate).
  assert (conversations w' !! uid alice = Some CONFIRMATION) as Hst'
    by (vm_compute; reflexivity).
  destruct (summary_shows_draft (Update alice (Text (py "test"))) w Hst Hst')
    as (ty & label & target & reason & details & summary
        & Hty & Hlabel & Htarget & Hreason & Hdetails & Htr & H1 & H2 & H3 & _ & H5).
  vm_compute in Hty, Htarget, Hreason, Hdetails.
  injection Hty as <-. injection Htarget as <-. injection Hreason as <-.
  injection Hdetails as <-. vm_compute in Hlabel. injection Hlabel as <-.
  exists summary. split; [exact Htr|]. split; [exact H1|]. split; [exact H2|].
  split; [exact H3|]. apply H5. vm_compute. lia.
Defined.

(** ** C5 *)


(** ** C6 *)


(** ** C7 *)



(** ** C8 *)


(** ** C9 *)

Lemma free_text_is_stripped_witness :
  let w := run (take 2 happy_path) fresh in
  let w' := handle_update (Update alice (Text (py "  " ++ py "@abcde" ++ py " \n"))) w in
  conversations w' !! uid alice = Some REPORT_REASON
  ∧ data_of (uid alice) w' !! "report_target" = Some (py "@abcde").
Proof.
  intros w w'.
  assert (forallb isspace (py "  ") = true) as Hws1 by reflexivity.
  assert (forallb isspace (py " \n") = true) as Hws2 by reflexivity.
  destruct (free_text_is_stripped alice (py "@abcde") (py "  ") (py " \n") w Hws1 Hws2)
    as (_ & _ & _ & Hvalid & _).
  subst w'. rewrite handle_text_target by (vm_compute; reflexivity).
  rewrite Hvalid by reflexivity. split; [apply lookup_set_state|].
  vm_compute. reflexivity.
Defined.

(** ** More of the code, on concrete inputs *)

#[local] Existing Instance plain_only.


(** X3 for an administrator who resolves the report on user 7. *)
Lemma admin_button_annotates_witness :
  let i := Incoming (Update (User 11 (py "Admin")) (Callback (py "resolve_7")))
             (py "Admin") (py "the report") in
  content (upd i) = Callback (py "resolve_7")
  ∧ re_match pat_admin (py "resolve_7") = true
  ∧ process_update i fresh =
    say (EditMessageText
           (message_text i ++ if startswith (py "resolve_7") (py "resolve")
                              then resolved_note else rejected_note) None)
      (say AnswerQuery fresh).
Proof.
  intros i.
  assert (content (upd i) = Callback (py "resolve_7")) as Hc by reflexivity.
  assert (re_match pat_admin (py "resolve_7") = true) as Hm by (vm_compute; reflexivity).
  exact (conj Hc (conj Hm (proj1 (admin_button_annotates i fresh (py "resolve_7") Hc Hm)))).
Defined.

(** X4 for user 8 while Alice confirms. *)
Lemma other_users_untouched_witness :
  let i := Incoming (Update alice (Callback (py "confirm"))) (py "Alice") [] in
  let w := run happy_path fresh in
  8%Z ≠ uid (effective_user (upd i))
  ∧ conversations (process_update i w) !! 8%Z = conversations w !! 8%Z
  ∧ data_of 8 (process_update i w) = data_of 8 w
  ∧ user_cooldowns (process_update i w) !! 8%Z = user_cooldowns w !! 8%Z.
Proof.
  intros i w.
  assert (8%Z ≠ uid (effective_user (upd i))) as Hv by (intros H; discriminate H).
  exact (conj Hv (other_users_untouched i w 8%Z Hv)).
Defined.

(** X5 for the first [/report]. *)
Lemma only_confirmation_delivers_witness :
  let i := Incoming (Update alice (Command "report")) (py "Alice") [] in
  conversations fresh !! uid (effective_user (upd i)) ≠ Some CONFIRMATION
  ∧ sends (trace (process_update i fresh)) = sends (trace fresh)
  ∧ user_cooldowns (process_update i fresh) = user_cooldowns fresh.
Proof.
  intros i.
  assert (conversations fresh !! uid (effective_user (upd i)) ≠ Some CONFIRMATION) as Hst
    by (intros H; vm_compute in H; discriminate H).
  exact (conj Hst (only_confirmation_delivers i fresh Hst)).
Defined.

(** X7 for [/help] sent under the summary. *)
Lemma outer_commands_keep_flow_witness :
  let i := Incoming (Update alice (Command "help")) (py "Alice") [] in
  let w := run happy_path fresh in
  content (upd i) = Command "help"
  ∧ process_update i w =
    say (ReplyText (if bool_decide ("help" = "start") then welcome_text (first_name i)
                    else if bool_decide ("help" = "help") then help_text
                    else my_reports_text) None) w.
Proof.
  intros i w.
  assert (content (upd i) = Command "help") as Hc by reflexivity.
  assert ("help" = "start" ∨ "help" = "help" ∨ "help" = "myreports") as Hname
    by (right; left; reflexivity).
  exact (conj Hc (outer_commands_keep_flow i w "help" Hc Hname)).
Defined.

(** X8 for [/cancel] sent under the summary. *)
Lemma cancel_clears_nothing_witness :
  let i := Incoming (Update alice (Command "cancel")) (py "Alice") [] in
  let w := run happy_path fresh in
  conversations w !! uid (effective_user (upd i)) = Some CONFIRMATION
  ∧ is_cancel CONFIRMATION (content (upd i)) = true
  ∧ conversations (process_update i w) !! uid (effective_user (upd i)) = None
  ∧ user_data (process_update i w) = user_data w.
Proof.
  intros i w.
  assert (conversations w !! uid (effective_user (upd i)) = Some CONFIRMATION) as Hst
    by (vm_compute; reflexivity).
  assert (is_cancel CONFIRMATION (content (upd i)) = true) as Hc
    by (vm_compute; reflexivity).
  destruct (cancel_clears_nothing i CONFIRMATION w Hst Hc) as (H1 & H2 & _).
  exact (conj Hst (conj Hc (conj H1 H2))).
Defined.


(** X10 for the data [type_bot]. *)
Lemma unknown_type_raises_witness :
  let w := handle_update (Update alice (Command "report")) fresh in
  let w' := handle_update (Update alice (Callback (py "type_bot"))) w in
  conversations w !! uid alice = Some REPORT_TYPE
  ∧ re_match pat_type (py "type_bot") = true
  ∧ py "type_bot" ≠ py "cancel"
  ∧ dict_get REPORT_TYPES (remove_all (py "type_") (py "type_bot")) = None
  ∧ conversations w' !! uid alice = Some REPORT_TYPE
  ∧ trace w' = trace w ++ [AnswerQuery].
Proof.
  intros w w'.
  assert (conversations w !! uid alice = Some REPORT_TYPE) as Hst
    by (vm_compute; reflexivity).
  assert (re_match pat_type (py "type_bot") = true) as Hm by (vm_compute; reflexivity).
  assert (py "type_bot" ≠ py "cancel") as Hne by (intros H; vm_compute in H; discriminate H).
  assert (dict_get REPORT_TYPES (remove_all (py "type_") (py "type_bot")) = None) as Hkey
    by (vm_compute; reflexivity).
  destruct (unknown_type_raises alice (py "type_bot") w Hst Hm Hne Hkey)
    as (_ & H1 & _ & H2).
  exact (conj Hst (conj Hm (conj Hne (conj Hkey (conj H1 H2))))).
Defined.

(** X18 for the data [reason_xyz], no key of [reasons]. *)
Lemma any_reason_is_stored_witness :
  let w := run (take 3 happy_path) fresh in
  let w' := handle_update (Update alice (Callback (py "reason_xyz"))) w in
  conversations w !! uid alice = Some REPORT_REASON
  ∧ re_match pat_reason (py "reason_xyz") = true
  ∧ py "reason_xyz" ≠ py "cancel"
  ∧ conversations w' !! uid alice = Some REPORT_DETAILS
  ∧ data_of (uid alice) w'
    = <["report_reason" := remove_all (py "reason_") (py "reason_xyz")]>
        (data_of (uid alice) w).
Proof.
  intros w w'.
  assert (conversations w !! uid alice = Some REPORT_REASON) as Hst
    by (vm_compute; reflexivity).
  assert (re_match pat_reason (py "reason_xyz") = true) as Hm
    by (vm_compute; reflexivity).
  assert (py "reason_xyz" ≠ py "cancel") as Hne
    by (intros H; vm_compute in H; discriminate H).
  destruct (any_reason_is_stored alice (py "reason_xyz") w Hst Hm Hne) as (H1 & H2 & _).
  exact (conj Hst (conj Hm (conj Hne (conj H1 H2)))).
Defined.

(** X11 for the group button. *)
Lemma buttons_are_understood_witness :
  (py "👥 Group", py "type_group") ∈ concat type_keyboard
  ∧ re_match pat_type (py "type_group") = true
  ∧ (py "type_group" = py "cancel"
     ∨ dict_get REPORT_TYPES (remove_all (py "type_") (py "type_group"))
       = Some (py "👥 Group")).
Proof.
  assert ((py "👥 Group", py "type_group") ∈ concat type_keyboard) as Hin
    by (vm_compute; repeat constructor).
  exact (conj Hin (proj1 (buttons_are_understood (py "👥 Group") (py "type_group")) Hin)).
Defined.

(** X12 for three targets that do not validate. *)
Lemma rejected_messages_keep_the_step_witness :
  let texts := [py "bob"; py "@ab"; py "t.me/group"] in
  let w := run (take 2 happy_path) fresh in
  let w' := run (map (λ t, Update alice (Text t)) texts) w in
  conversations w !! uid alice = Some REPORT_TARGET
  ∧ Forall (λ t, validate_target (strip t) = false) texts
  ∧ conversations w' !! uid alice = Some REPORT_TARGET
  ∧ user_data w' = user_data w
  ∧ user_cooldowns w' = user_cooldowns w
  ∧ trace w' = trace w ++ map (λ _, ReplyText (rejection REPORT_TARGET) None) texts.
Proof.
  intros texts w w'.
  assert (conversations w !! uid alice = Some REPORT_TARGET) as Hst
    by (vm_compute; reflexivity).
  assert (Forall (λ t, validate_target (strip t) = false) texts) as Hall
    by (repeat constructor; vm_compute; reflexivity).
  exact (conj Hst (conj Hall
           (rejected_messages_keep_the_step alice REPORT_TARGET texts w Hst
              (or_introl (conj eq_refl Hall))))).
Defined.




(** X19 for the happy path itself. *)
Lemma complete_flow_reaches_confirmation_witness :
  (py "👥 Group", py "type_group") ∈ concat type_keyboard
  ∧ validate_target (strip (py "https://t.me/examplegroup")) = true
  ∧ re_match pat_reason (py "reason_spam") = true
  ∧ conversations (run happy_path fresh) !! uid alice = Some CONFIRMATION
  ∧ data_of (uid alice) (run happy_path fresh)
    = <["report_details" := strip (py "test")]>
        (<["report_reason" := remove_all (py "reason_") (py "reason_spam")]>
           (<["report_target" := strip (py "https://t.me/examplegroup")]>
              (<["report_type" := remove_all (py "type_") (py "type_group")]>
                 (data_of (uid alice) fresh)))).
Proof.
  assert (conversations fresh !! uid alice = None) as Hst by reflexivity.
  assert (user_cooldowns fresh !! uid alice = None) as Hcd by reflexivity.
  assert ((py "👥 Group", py "type_group") ∈ concat type_keyboard) as Hbutton
    by (vm_compute; repeat constructor).
  assert (py "type_group" ≠ py "cancel") as Htne
    by (intros H; vm_compute in H; discriminate H).
  assert (validate_target (strip (py "https://t.me/examplegroup")) = true) as Hvalid
    by (vm_compute; reflexivity).
  assert (re_match pat_reason (py "reason_spam") = true) as Hreason
    by (vm_compute; reflexivity).
  assert (py "reason_spam" ≠ py "cancel") as Hrne
    by (intros H; vm_compute in H; discriminate H).
  assert (length (strip (py "test")) ≤ MAX_REPORT_LENGTH)%nat as Hlen
    by (vm_compute; lia).
  destruct (complete_flow_reaches_confirmation alice fresh _ _ _ _ _
              Hst Hcd Hbutton Htne Hvalid Hreason Hrne Hlen) as (H1 & H2 & _).
  exact (conj Hbutton (conj Hvalid (conj Hreason (conj H1 H2)))).
Defined.
